(** * update_citations.py: citation-count scraper and text patcher

    A shallow embedding of [scripts/update_citations.py] and the proofs of
    its specification.

    Modelling conventions.
    - Text is a list of 8-bit code points ([ascii]); on that range the
      interpreter's [\d] is '0'..'9', [\s] and [str.strip] use the
      white-space set of [uni_space], and case folding is [lower].
    - The [re] engine is modelled as a backtracking matcher that lists the
      possible match lengths in the order in which the engine tries them.
    - The parsed document ([BeautifulSoup]) is a tree; the parser itself is
      a library function and is taken as a parameter.
    - Network, file system and console are explicit state.  A file holds
      bytes; the script opens its files in text mode, so that reading
      translates the line endings and writing writes the line separator
      of the platform. *)

From Stdlib Require Import Ascii String DecimalString.
From Stdlib Require Import ZArith Lia Bool Arith List.
Import ListNotations.

(** ** Text *)

Definition text := list ascii.

Definition txt (s : string) : text := list_ascii_of_string s.

Definition code (c : ascii) : nat := nat_of_ascii c.

Definition between (lo hi : nat) (c : ascii) : bool :=
  (lo <=? code c) && (code c <=? hi).

Definition newline : ascii := "010"%char.
Definition cr : ascii := "013"%char.
Definition dquote : ascii := "034"%char.
Definition squote : ascii := "039"%char.
Definition comma : ascii := ","%char.

(** [\d] on the 8-bit range: the decimal digits. *)
Definition is_digit (c : ascii) : bool := between 48 57 c.

(** White space of [str.strip()] and of [\s] in a [str] pattern:
    TAB..CR, FS..US, SPACE, NEL and NBSP. *)
Definition uni_space (c : ascii) : bool :=
  between 9 13 c || between 28 32 c || (code c =? 133) || (code c =? 160).

(** [str.lower()] on one character: A-Z, and the accented capitals
    U+00C0..U+00DE except the multiplication sign. *)
Definition lower (c : ascii) : ascii :=
  if between 65 90 c || (between 192 222 c && negb (code c =? 215))
  then ascii_of_nat (code c + 32) else c.

Definition str_lower (s : text) : text := map lower s.

Fixpoint drop_while (p : ascii -> bool) (s : text) : text :=
  match s with
  | c :: t => if p c then drop_while p t else s
  | [] => []
  end.

(** [s.strip()] *)
Definition strip (s : text) : text :=
  rev (drop_while uni_space (rev (drop_while uni_space s))).

Fixpoint starts_with (p s : text) : bool :=
  match p, s with
  | [], _ => true
  | a :: p', b :: s' => Ascii.eqb a b && starts_with p' s'
  | _ :: _, [] => false
  end.

(** [p in s] *)
Fixpoint contains (p s : text) : bool :=
  starts_with p s ||
  match s with
  | [] => false
  | _ :: t => contains p t
  end.

(** [s.replace(',', '')] *)
Definition remove_commas (s : text) : text :=
  filter (fun c => negb (Ascii.eqb c comma)) s.

(** [str(n)] for an [int]. *)
Definition str_of_Z (n : Z) : text := txt (NilZero.string_of_int (Z.to_int n)).

(** *** [int(s)]

    Base-10 conversion of a string: characters above U+007E are first
    mapped to a space (white space) or to an invalid character; then
    leading ASCII white space, an optional sign, a non-empty group of
    digits in which single underscores may separate digits, and trailing
    white space.  [None] stands for [ValueError].  (The interpreter's
    optional limit on the number of digits of a conversion is a run-time
    setting and is not part of the model.) *)

Definition c_isspace (c : ascii) : bool := between 9 13 c || (code c =? 32).

Definition to_ascii_space (c : ascii) : ascii :=
  if code c <? 127 then c
  else if uni_space c then " "%char else "?"%char.

Definition digit_val (c : ascii) : Z := Z.of_nat (code c - 48).

(** Scans the digits; [prev_us] tells that the previous character was an
    underscore, [seen] that a digit was read.  Returns the value and the
    rest of the string. *)
Fixpoint scan_digits (acc : Z) (seen prev_us : bool) (s : text) : option (Z * text) :=
  match s with
  | c :: t =>
      if is_digit c then scan_digits (10 * acc + digit_val c) true false t
      else if Ascii.eqb c "_"%char then
        if prev_us || negb seen then None else scan_digits acc seen true t
      else if prev_us || negb seen then None else Some (acc, s)
  | [] => if prev_us || negb seen then None else Some (acc, [])
  end.

Definition py_int (s : text) : option Z :=
  let s1 := drop_while c_isspace (map to_ascii_space s) in
  let '(sign, s2) :=
    match s1 with
    | c :: t => if Ascii.eqb c "+"%char then (1%Z, t)
                else if Ascii.eqb c "-"%char then ((-1)%Z, t)
                else (1%Z, s1)
    | [] => (1%Z, s1)
    end in
  match scan_digits 0 false false s2 with
  | Some (v, rest) =>
      match drop_while c_isspace rest with
      | [] => Some (sign * v)%Z
      | _ :: _ => None
      end
  | None => None
  end.

(** ** Regular expressions *)

Module Re.

(** Character sets of the patterns. *)
Inductive cls :=
| CAny                       (* [.] under DOTALL, [[\s\S]] *)
| CSpace                     (* [\s] *)
| CDigit                     (* [\d] *)
| COneOf (cs : list ascii)   (* [[...]] *)
| CNoneOf (cs : list ascii). (* [[^...]] *)

Inductive regex :=
| Eps
| Lit (c : ascii)
| InSet (k : cls)
| Cat (r1 r2 : regex)
| Opt (r : regex)                 (* [(?:r)?], greedy *)
| MaxRepeat (lo : nat) (k : cls)  (* [k*], [k+]: greedy, at least [lo] *)
| MinRepeat (lo : nat) (k : cls). (* [k*?]: lazy, at least [lo] *)

(** A pattern is a sequence of pieces, each one either a capture group or
    text outside every group. *)
Inductive piece :=
| Plain (r : regex)
| Capture (r : regex).

Definition pattern := list piece.

Definition piece_regex (p : piece) : regex :=
  match p with Plain r => r | Capture r => r end.

Definition is_capture (p : piece) : bool :=
  match p with Plain _ => false | Capture _ => true end.

Fixpoint lits (s : text) : regex :=
  match s with
  | [] => Eps
  | c :: t => Cat (Lit c) (lits t)
  end.

Section Engine.

(** [re.IGNORECASE] *)
Variable ignorecase : bool.

Definition chr_eq (c x : ascii) : bool :=
  if ignorecase then Ascii.eqb (lower c) (lower x) else Ascii.eqb c x.

Definition in_cls (k : cls) (x : ascii) : bool :=
  match k with
  | CAny => true
  | CSpace => uni_space x
  | CDigit => is_digit x
  | COneOf cs => existsb (fun c => chr_eq c x) cs
  | CNoneOf cs => negb (existsb (fun c => chr_eq c x) cs)
  end.

(** Length of the longest prefix of [s] inside the set. *)
Fixpoint span (k : cls) (s : text) : nat :=
  match s with
  | c :: t => if in_cls k c then S (span k t) else 0
  | [] => 0
  end.

(** The numbers of characters that [r] can consume at the head of [s], in
    the order in which the backtracking engine tries them. *)
Fixpoint exec (r : regex) (s : text) : list nat :=
  match r with
  | Eps => [0]
  | Lit c =>
      match s with
      | x :: _ => if chr_eq c x then [1] else []
      | [] => []
      end
  | InSet k =>
      match s with
      | x :: _ => if in_cls k x then [1] else []
      | [] => []
      end
  | Cat r1 r2 =>
      flat_map (fun n => map (Nat.add n) (exec r2 (skipn n s))) (exec r1 s)
  | Opt r1 => exec r1 s ++ [0]
  | MaxRepeat lo k => rev (seq lo (S (span k s) - lo))
  | MinRepeat lo k => seq lo (S (span k s) - lo)
  end.

(** The same for a sequence of pieces: one length per piece. *)
Fixpoint exec_pieces (ps : pattern) (s : text) : list (list nat) :=
  match ps with
  | [] => [[]]
  | p :: ps' =>
      flat_map (fun n => map (cons n) (exec_pieces ps' (skipn n s)))
               (exec (piece_regex p) s)
  end.

(** [pattern.match]: the first way to match at the head of [s]. *)
Definition match_at (ps : pattern) (s : text) : option (list nat) :=
  hd_error (exec_pieces ps s).

(** Cuts [s] into the texts of the pieces and the rest. *)
Fixpoint cut (ns : list nat) (s : text) : list text * text :=
  match ns with
  | [] => ([], s)
  | n :: ns' =>
      let (parts, rest) := cut ns' (skipn n s) in (firstn n s :: parts, rest)
  end.

(** A match object: the text before the match, the text of every piece,
    the text after the match. *)
Record mobj := MObj { before : text; parts : list text; after : text }.

(** [re.search]: the leftmost position with a match. *)
Fixpoint search (ps : pattern) (s : text) : option mobj :=
  match match_at ps s with
  | Some ns => let (parts, rest) := cut ns s in Some (MObj [] parts rest)
  | None =>
      match s with
      | [] => None
      | c :: t =>
          match search ps t with
          | Some m => Some (MObj (c :: before m) (parts m) (after m))
          | None => None
          end
      end
  end.

(** [m.group(0)] *)
Definition whole (m : mobj) : text := concat (parts m).

Fixpoint captures (ps : pattern) (parts : list text) : list text :=
  match ps, parts with
  | p :: ps', t :: ts' =>
      if is_capture p then t :: captures ps' ts' else captures ps' ts'
  | _, _ => []
  end.

(** [m.group(k)] for [k >= 1]. *)
Definition group (ps : pattern) (m : mobj) (k : nat) : text :=
  nth (k - 1) (captures ps (parts m)) [].

(** Replacement templates: [\g<k>] and literal text. *)
Inductive titem :=
| TGroup (k : nat)
| TLit (s : text).

Definition expand (ps : pattern) (tpl : list titem) (m : mobj) : text :=
  flat_map (fun i => match i with TGroup k => group ps m k | TLit s => s end) tpl.

(** [re.subn(pattern, repl, s, count)]: replaces the successive
    non-overlapping matches, all of them when [count] is 0, and returns
    the new text with the number of replacements made.  The search
    resumes where the previous match ended; a match of a pattern of the
    patcher has at least one character, so [S (length s)] rounds are enough
    ([subn_loop_enough] below). *)
Fixpoint subn_loop (fuel : nat) (ps : pattern) (tpl : list titem)
         (count done : nat) (s : text) : text * nat :=
  match fuel with
  | 0 => (s, done)
  | S fuel' =>
      if (count =? 0) || (done <? count) then
        match search ps s with
        | Some m =>
            let (out, k) := subn_loop fuel' ps tpl count (S done) (after m) in
            (before m ++ expand ps tpl m ++ out, k)
        | None => (s, done)
        end
      else (s, done)
  end.

Definition subn (ps : pattern) (tpl : list titem) (count : nat) (s : text) : text * nat :=
  subn_loop (S (length s)) ps tpl count 0 s.

(** [re.sub] *)
Definition sub (ps : pattern) (tpl : list titem) (count : nat) (s : text) : text :=
  fst (subn ps tpl count s).

(** [re.finditer]: the successive non-overlapping matches, each with the
    text skipped before it (counted from the end of the previous match). *)
Fixpoint finditer_loop (fuel : nat) (ps : pattern) (s : text) : list mobj :=
  match fuel with
  | 0 => []
  | S fuel' =>
      match search ps s with
      | Some m => m :: finditer_loop fuel' ps (after m)
      | None => []
      end
  end.

Definition finditer (ps : pattern) (s : text) : list mobj :=
  finditer_loop (S (length s)) ps s.

End Engine.

End Re.

(** ** Parsed documents *)

Module Soup.

(** The value of an attribute: a string, or a list of tokens for the
    multi-valued attributes such as [class]. *)
Inductive attr_value :=
| Single (v : text)
| Multi (vs : list text).

#[warnings="-register-all"]
(** The tree built by the parser.  [NavigableString] stands for the strings
    that [get_text] collects (text and CDATA), [OtherString] for those it
    skips (comments, declarations, script and style content). *)
Inductive node :=
| NavigableString (s : text)
| OtherString (s : text)
| Tag (name : text) (attrs : list (text * attr_value)) (children : list node).

Definition text_eqb (a b : text) : bool :=
  if list_eq_dec ascii_dec a b then true else false.

(** [tag.descendants]: every node below, in document order. *)
Fixpoint descendants (n : node) : list node :=
  match n with
  | Tag _ _ cs => flat_map (fun c => c :: descendants c) cs
  | _ => []
  end.

(** [attrs.get(key)] *)
Fixpoint attr_get (key : text) (attrs : list (text * attr_value)) : option attr_value :=
  match attrs with
  | [] => None
  | (k, v) :: rest => if text_eqb k key then Some v else attr_get key rest
  end.

Fixpoint join_space (vs : list text) : text :=
  match vs with
  | [] => []
  | [v] => v
  | v :: rest => v ++ " "%char :: join_space rest
  end.

(** An attribute filter [{key: wanted}]: a string value must be equal; of
    a token list, one token or the whole joined value must be. *)
Definition attr_matches (attrs : list (text * attr_value)) (f : text * text) : bool :=
  match attr_get (fst f) attrs with
  | Some (Single v) => text_eqb v (snd f)
  | Some (Multi vs) =>
      existsb (fun v => text_eqb v (snd f)) vs || text_eqb (join_space vs) (snd f)
  | None => false
  end.

Definition tag_matches (name : text) (filters : list (text * text)) (n : node) : bool :=
  match n with
  | Tag nm attrs _ => text_eqb nm name && forallb (attr_matches attrs) filters
  | _ => false
  end.

(** [tag.find_all(name, filters)] *)
Definition find_all (name : text) (filters : list (text * text)) (root : node) : list node :=
  filter (tag_matches name filters) (descendants root).

(** [tag.find(name, filters)] *)
Definition find (name : text) (filters : list (text * text)) (root : node) : option node :=
  hd_error (find_all name filters root).

(** [tag.get_text(strip=True)]: the strings below the tag, each one
    stripped, the empty ones dropped, joined without separator. *)
Definition stripped_string (n : node) : text :=
  match n with
  | NavigableString s => strip s
  | _ => []
  end.

Definition get_text_strip (n : node) : text :=
  flat_map stripped_string (descendants n).

End Soup.

(** ** The script *)

Module Script.

Import Re Soup.

Definition SCHOLAR_ID : text := txt "D9ebkwoAAAAJ".
Definition CONTENT_FILE : string := "data/content.yml".
Definition INDEX_FILE : string := "index.html".
Definition MAX_RETRIES : nat := 5.

(** *** The outside world *)

Inductive request :=
| ViaProxy (api_key url : text)   (* GET api.scraperapi.com, render=false *)
| DirectGet (url : text).         (* GET url with browser headers *)

Inductive fetch_result :=
| NoReply                               (* [requests.get] raised *)
| Reply (status_code : Z) (body : text).

Record env := Env {
  scraper_api_key : option text;              (* os.getenv('SCRAPER_API_KEY') *)
  http_get : nat -> request -> fetch_result;  (* the reply to the n-th request *)
  randint : nat -> Z -> Z -> Z;               (* random.randint at attempt n *)
  html_parser : text -> node                  (* BeautifulSoup(_, 'html.parser') *)
}.

(** *** Files in text mode

    The script opens its files with [open(path, 'r')] and [open(path, 'w')]:
    text mode with the default [newline], that is universal newlines on
    input and the line separator of the platform on output. *)

(** On input the line endings CR LF and CR become LF. *)
Fixpoint universal_newlines (b : text) : text :=
  match b with
  | [] => []
  | c :: t =>
      if Ascii.eqb c cr then
        newline :: match t with
                   | d :: t' => if Ascii.eqb d newline then universal_newlines t'
                                else universal_newlines t
                   | [] => []
                   end
      else c :: universal_newlines t
  end.

(** The platform, for [os.linesep]. *)
Inductive platform := Posix | Windows.

Definition linesep (p : platform) : text :=
  match p with
  | Posix => [newline]
  | Windows => [cr; newline]
  end.

(** On output every LF is written as the line separator. *)
Definition newline_out (p : platform) (s : text) : text :=
  flat_map (fun c => if Ascii.eqb c newline then linesep p else [c]) s.

(** What [open(path, 'w')] and the write that follows do on a file: the
    write goes through; or [open] is refused and the file stays as it is;
    or [open] succeeds, which truncates the file, and the device fails
    when it has taken [n] bytes. *)
Inductive write_access :=
| Writable
| Refused
| Failing (n : nat).

(** A file: its bytes, and what the process may do with it. *)
Record file := File { readable : bool; access : write_access; bytes : text }.

Definition writable (f : file) : bool :=
  match access f with
  | Writable => true
  | _ => false
  end.

(** The text that [read()] returns: the bytes of the file with universal
    newlines. *)
Definition data (f : file) : text := universal_newlines (bytes f).

(** Values bound to [citation_count]. *)
Inductive value :=
| VInt (n : Z)
| VNone.

(** [f"{v}"] *)
Definition fmt (v : value) : text :=
  match v with
  | VInt n => str_of_Z n
  | VNone => txt "None"
  end.

Inductive error :=
| RequestException            (* connection errors, timeouts *)
| HTTPError (status_code : Z) (* from [raise_for_status] *)
| ValueError                  (* from [int] *)
| Blocked                     (* "Blocked by Google Scholar (CAPTCHA)" *)
| CountNotFound               (* "Could not find citation count in page" *)
| OSError.                    (* from [open], [read], [write] *)

(** Lines printed on the console. *)
Inductive line :=
| LAttempt (attempt : nat)
| LWaiting (seconds : Z)
| LUsingProxy
| LDirectRequest
| LFetched (n : Z)
| LCouldNotParse
| LResponseLength (n : nat)
| LCaptchaPage
| LNetworkError (attempt : nat) (e : error)
| LAttemptFailed (attempt : nat) (e : error)
| LRetrying
| LAllAttemptsFailed
| LYamlMissing (path : string)
| LUpdatedCount (old new : text)
| LUpdatedIndexCount (old new : text)
| LUpdatedFile (path : string)
| LYamlEntryNotFound (path : string)
| LYamlError (e : error)
| LIndexEntryNotFound (path : string)
| LIndexError (e : error)
| LBanner
| LScholarId
| LScholarUrl
| LKeyFound
| LNoKey
| LComplete.

Record world := World {
  fs : string -> option file;   (* the files, by path from the repository root *)
  console : list line;
  requests : nat;               (* number of HTTP requests sent so far *)
  slept : Z;                    (* seconds spent in [time.sleep] *)
  os : platform                 (* the platform that the process runs on *)
}.

(** *** Computations: state, exceptions and [sys.exit] *)

Inductive outcome (A : Type) :=
| Ret (a : A)
| Raise (e : error)
| Exit (status : Z).

Arguments Ret {A} a.
Arguments Raise {A} e.
Arguments Exit {A} status.

Definition M (A : Type) := world -> outcome A * world.

Definition ret {A} (a : A) : M A := fun w => (Ret a, w).

Definition bind {A B} (m : M A) (k : A -> M B) : M B :=
  fun w =>
    match m w with
    | (Ret a, w') => k a w'
    | (Raise e, w') => (Raise e, w')
    | (Exit c, w') => (Exit c, w')
    end.

Notation "x <- m ;; k" := (bind m (fun x => k))
  (at level 61, m at next level, right associativity).
Notation "m ;; k" := (bind m (fun _ => k))
  (at level 61, right associativity).

Definition raise {A} (e : error) : M A := fun w => (Raise e, w).

Definition sys_exit {A} (status : Z) : M A := fun w => (Exit status, w).

(** [try: m  except Exception as e: h e]; [SystemExit] passes through. *)
Definition try_except {A} (m : M A) (h : error -> M A) : M A :=
  fun w =>
    match m w with
    | (Raise e, w') => h e w'
    | r => r
    end.

Definition print (l : line) : M unit :=
  fun w => (Ret tt, World (fs w) (console w ++ [l]) (requests w) (slept w) (os w)).

Definition sleep (seconds : Z) : M unit :=
  fun w => (Ret tt, World (fs w) (console w) (requests w) (slept w + seconds) (os w)).

Definition requests_get (e : env) (rq : request) : M (Z * text) :=
  fun w =>
    let w' := World (fs w) (console w) (S (requests w)) (slept w) (os w) in
    match http_get e (S (requests w)) rq with
    | NoReply => (Raise RequestException, w')
    | Reply st body => (Ret (st, body), w')
    end.

(** [response.raise_for_status()] *)
Definition raise_for_status (status_code : Z) : M unit :=
  if ((400 <=? status_code) && (status_code <? 600))%Z
  then raise (HTTPError status_code) else ret tt.

(** [os.path.exists] *)
Definition path_exists (path : string) : M bool :=
  fun w => (Ret (match fs w path with Some _ => true | None => false end), w).

(** [with open(path, 'r') as f: content = f.read()]: the bytes of the file
    with universal newlines. *)
Definition read_file (path : string) : M text :=
  fun w =>
    match fs w path with
    | Some f => if readable f then (Ret (data f), w) else (Raise OSError, w)
    | None => (Raise OSError, w)
    end.

Definition set_file (path : string) (f : file) (files : string -> option file)
  : string -> option file :=
  fun p => if String.eqb p path then Some f else files p.

(** The world with the bytes of the file [path] replaced. *)
Definition store (path : string) (f : file) (w : world) : world :=
  World (set_file path f (fs w)) (console w) (requests w) (slept w) (os w).

(** [with open(path, 'w') as f: f.write(s)].  [open] truncates the file
    before anything is written, and the text goes out with the line
    separator of the platform: a write that fails on the way leaves the
    bytes that the device took, not the old content. *)
Definition write_file (path : string) (s : text) : M unit :=
  fun w =>
    match fs w path with
    | Some f =>
        match access f with
        | Writable =>
            (Ret tt, store path (File (readable f) Writable (newline_out (os w) s)) w)
        | Refused => (Raise OSError, w)
        | Failing n =>
            (Raise OSError,
             store path (File (readable f) (Failing n)
                              (firstn n (newline_out (os w) s))) w)
        end
    | None =>
        (Ret tt, store path (File true Writable (newline_out (os w) s)) w)
    end.

(** *** Patterns *)

Definition quote : cls := COneOf [squote; dquote].
Definition spaces : regex := MaxRepeat 0 CSpace.
Definition digits : regex := MaxRepeat 1 CDigit.

Fixpoint cats (rs : list regex) : regex :=
  match rs with
  | [] => Eps
  | r :: rs' => Cat r (cats rs')
  end.

Definition label : regex := lits (txt "GOOGLE SCHOLAR CITATIONS").

(** [Citations.*?(\d+(?:,\d+)?)] with IGNORECASE and DOTALL *)
Definition count_pattern : pattern :=
  [ Plain (Cat (lits (txt "Citations")) (MinRepeat 0 CAny));
    Capture (Cat digits (Opt (Cat (Lit comma) digits))) ].

(** [(- name:\s*['\"]?GOOGLE SCHOLAR CITATIONS['\"]?\s*\n\s*image:[^\n]*\n\s*count:\s*['\"])(\d+)(['\"])] *)
Definition yaml_pattern : pattern :=
  [ Capture (cats [ lits (txt "- name:"); spaces; Opt (InSet quote); label;
                    Opt (InSet quote); spaces; Lit newline; spaces;
                    lits (txt "image:"); MaxRepeat 0 (CNoneOf [newline]);
                    Lit newline; spaces; lits (txt "count:"); spaces;
                    InSet quote ]);
    Capture digits;
    Capture (InSet quote) ].

(** [(name:\s*['\"]?GOOGLE SCHOLAR CITATIONS['\"]?[\s\S]*?count:\s*['\"])(\d+)(['\"])] *)
Definition yaml_pattern2 : pattern :=
  [ Capture (cats [ lits (txt "name:"); spaces; Opt (InSet quote); label;
                    Opt (InSet quote); MinRepeat 0 CAny;
                    lits (txt "count:"); spaces; InSet quote ]);
    Capture digits;
    Capture (InSet quote) ].

(** [(<img[^>]*alt="GOOGLE SCHOLAR CITATIONS"[^>]*/>\s*<p[^>]*data-count=")(\d+)("[^>]*>)] *)
Definition html_pattern : pattern :=
  [ Capture (cats [ lits (txt "<img"); MaxRepeat 0 (CNoneOf [">"%char]);
                    lits (txt "alt="); Lit dquote; label; Lit dquote;
                    MaxRepeat 0 (CNoneOf [">"%char]); lits (txt "/>"); spaces;
                    lits (txt "<p"); MaxRepeat 0 (CNoneOf [">"%char]);
                    lits (txt "data-count="); Lit dquote ]);
    Capture digits;
    Capture (Cat (Lit dquote) (Cat (MaxRepeat 0 (CNoneOf [">"%char])) (Lit ">"%char))) ].

(** [rf"\g<1>{new_count}\g<3>"] *)
Definition replacement (new_count : value) : list titem :=
  [TGroup 1; TLit (fmt new_count); TGroup 3].

(** *** [get_citation_count_direct] *)

Definition scholar_url (scholar_id : text) : text :=
  txt "https://scholar.google.com/citations?user=" ++ scholar_id ++ txt "&hl=en".

(** The three methods only compute and print: an extraction is the list of
    lines it prints with the value it returns or the exception it raises. *)
Definition extraction := (list line * (value + error))%type.

(** [citations = int(citation_text.replace(',', ''))], the success line,
    [return citations]. *)
Definition return_count (citation_text : text) : extraction :=
  match py_int (remove_commas citation_text) with
  | Some n => ([LFetched n], inl (VInt n))
  | None => ([], inr ValueError)
  end.

(** Method 1, the loop over the rows of the table; [otherwise] is the code
    that follows the loop. *)
Fixpoint scan_rows (rows : list node) (otherwise : extraction) : extraction :=
  match rows with
  | [] => otherwise
  | row :: rest =>
      match find_all (txt "td") [] row with
      | header :: all_time :: _ =>
          if contains (txt "citations") (str_lower (get_text_strip header))
          then return_count (get_text_strip all_time)
          else scan_rows rest otherwise
      | _ => scan_rows rest otherwise
      end
  end.

(** Method 3 and the failure that ends the [try] block. *)
Definition regex_fallback (response_text : text) : extraction :=
  match search true count_pattern response_text with
  | Some m => return_count (group count_pattern m 1)
  | None =>
      let said := [LCouldNotParse; LResponseLength (length response_text)] in
      if contains (txt "CAPTCHA") response_text
         || contains (txt "unusual traffic") (str_lower response_text)
      then (said ++ [LCaptchaPage], inr Blocked)
      else (said, inr CountNotFound)
  end.

(** Method 2, falling back to method 3. *)
Definition styled_cells (soup : node) (response_text : text) : extraction :=
  match find_all (txt "td") [(txt "class", txt "gsc_rsb_std")] soup with
  | cell :: _ => return_count (get_text_strip cell)
  | [] => regex_fallback response_text
  end.

(** The three methods, on the parsed page and its raw text. *)
Definition extract (soup : node) (response_text : text) : extraction :=
  match find (txt "table") [(txt "id", txt "gsc_rsb_st")] soup with
  | Some stats_table =>
      scan_rows (find_all (txt "tr") [] stats_table) (styled_cells soup response_text)
  | None => styled_cells soup response_text
  end.

(** Runs an extraction: prints its lines, then returns or raises. *)
Definition perform (x : extraction) : M value :=
  fun w =>
    (match snd x with inl v => Ret v | inr err => Raise err end,
     World (fs w) (console w ++ fst x) (requests w) (slept w) (os w)).

Definition truthy (key : option text) : bool :=
  match key with
  | Some (_ :: _) => true
  | _ => false
  end.

(** The body of the [try] block of one attempt. *)
Definition attempt_body (e : env) (scholar_id : text) (attempt : nat) : M value :=
  print (LAttempt attempt) ;;
  (if 1 <? attempt
   then let wait_time := (randint e attempt 10 30 * Z.of_nat attempt)%Z in
        print (LWaiting wait_time) ;; sleep wait_time
   else sleep (randint e attempt 2 5)) ;;
  response <-
    (if truthy (scraper_api_key e)
     then print LUsingProxy ;;
          requests_get e (ViaProxy (match scraper_api_key e with Some k => k | None => [] end)
                                   (scholar_url scholar_id))
     else print LDirectRequest ;;
          requests_get e (DirectGet (scholar_url scholar_id))) ;;
  raise_for_status (fst response) ;;
  perform (extract (html_parser e (snd response)) (snd response)).

Definition is_request_exception (err : error) : bool :=
  match err with
  | RequestException | HTTPError _ => true
  | _ => false
  end.

(** [for attempt in range(1, MAX_RETRIES + 1)]; a loop that ends without
    [return] makes the function return [None]. *)
Fixpoint for_attempts (e : env) (scholar_id : text) (attempts : list nat) : M value :=
  match attempts with
  | [] => ret VNone
  | attempt :: rest =>
      r <- try_except
             (v <- attempt_body e scholar_id attempt ;; ret (Some v))
             (fun err =>
                (if is_request_exception err
                 then print (LNetworkError attempt err)
                 else print (LAttemptFailed attempt err)) ;;
                ret None) ;;
      match r with
      | Some v => ret v
      | None =>
          if attempt <? MAX_RETRIES
          then print LRetrying ;; for_attempts e scholar_id rest
          else print LAllAttemptsFailed ;; sys_exit 1
      end
  end.

Definition get_citation_count_direct (e : env) (scholar_id : text) : M value :=
  for_attempts e scholar_id (seq 1 MAX_RETRIES).

(** *** [update_yaml_file] *)

Definition update_yaml_file (file_path : string) (new_count : value) : M unit :=
  present <- path_exists file_path ;;
  if negb present then print (LYamlMissing file_path)
  else
    try_except
      (content <- read_file file_path ;;
       match search true yaml_pattern content with
       | Some m =>
           let old_count := group yaml_pattern m 2 in
           let new_content := sub true yaml_pattern (replacement new_count) 0 content in
           write_file file_path new_content ;;
           print (LUpdatedCount old_count (fmt new_count)) ;;
           print (LUpdatedFile file_path)
       | None =>
           match search true yaml_pattern2 content with
           | Some m2 =>
               let old_count := group yaml_pattern2 m2 2 in
               let new_content := sub true yaml_pattern2 (replacement new_count) 1 content in
               write_file file_path new_content ;;
               print (LUpdatedCount old_count (fmt new_count)) ;;
               print (LUpdatedFile file_path)
           | None => print (LYamlEntryNotFound file_path)
           end
       end)
      (fun err => print (LYamlError err)).

(** *** [update_index_html] *)

Definition update_index_html (file_path : string) (new_count : value) : M unit :=
  try_except
    (content <- read_file file_path ;;
     match search true html_pattern content with
     | Some m =>
         let old_count := group html_pattern m 2 in
         let new_content := sub true html_pattern (replacement new_count) 0 content in
         write_file file_path new_content ;;
         print (LUpdatedIndexCount old_count (fmt new_count)) ;;
         print (LUpdatedFile file_path)
     | None => print (LIndexEntryNotFound file_path)
     end)
    (fun err => print (LIndexError err) ;; sys_exit 1).

(** *** [main] *)

(** The opening lines of [main]. *)
Definition announce (e : env) : M unit :=
  print LBanner ;;
  print LScholarId ;;
  print LScholarUrl ;;
  (if truthy (scraper_api_key e) then print LKeyFound else print LNoKey).

(** [main] first changes to the repository root; the paths of [fs] are
    taken from there. *)
Definition main (e : env) : M unit :=
  announce e ;;
  citation_count <- get_citation_count_direct e SCHOLAR_ID ;;
  update_yaml_file CONTENT_FILE citation_count ;;
  update_index_html INDEX_FILE citation_count ;;
  print LComplete.

(** The exit status of the process and the world it leaves: 0 when [main]
    returns, the argument of [sys.exit], 1 for an uncaught exception. *)
Definition run (e : env) (w : world) : Z * world :=
  match main e w with
  | (Ret _, w') => (0%Z, w')
  | (Exit status, w') => (status, w')
  | (Raise _, w') => (1%Z, w')
  end.

End Script.

(** * Properties *)

(** ** Notions used in the statements *)

Module Props.

Import Re Soup Script.

(** The value of a string of decimal digits. *)
Definition decimal_value (s : text) : Z :=
  fold_left (fun acc c => (10 * acc + digit_val c)%Z) s 0%Z.

(** A row that method 1 stops at: at least two cells, and a first cell
    whose text has "citations" in it. *)
Definition label_row (row : node) : bool :=
  match find_all (txt "td") [] row with
  | header :: _ :: _ => contains (txt "citations") (str_lower (get_text_strip header))
  | _ => false
  end.

(** The CAPTCHA and bot-challenge markers. *)
Definition has_marker (response_text : text) : bool :=
  contains (txt "CAPTCHA") response_text
  || contains (txt "unusual traffic") (str_lower response_text).

(** No method finds a count: no label row in the statistics table, no
    styled cell, no match of the fallback pattern. *)
Definition no_method_matches (soup : node) (response_text : text) : Prop :=
  match find (txt "table") [(txt "id", txt "gsc_rsb_st")] soup with
  | Some stats_table =>
      forallb (fun r => negb (label_row r)) (find_all (txt "tr") [] stats_table) = true
  | None => True
  end
  /\ find_all (txt "td") [(txt "class", txt "gsc_rsb_std")] soup = []
  /\ search true count_pattern response_text = None.



(** A reply with a good status whose document no method matches. *)
Definition unparsed (parser : text -> node) (r : fetch_result) : Prop :=
  match r with
  | NoReply => False
  | Reply st body =>
      ((400 <=? st) && (st <? 600))%Z = false /\ no_method_matches (parser body) body
  end.

(** The request that an attempt sends. *)
Definition request_of (e : env) (scholar_id : text) : request :=
  match scraper_api_key e with
  | Some (c :: k) => ViaProxy (c :: k) (scholar_url scholar_id)
  | _ => DirectGet (scholar_url scholar_id)
  end.

(** What an attempt makes of the reply to its request. *)
Definition attempt_result (e : env) (r : fetch_result) : value + error :=
  match r with
  | NoReply => inr RequestException
  | Reply st body =>
      if ((400 <=? st) && (st <? 600))%Z then inr (HTTPError st)
      else snd (extract (html_parser e body) body)
  end.

(** The reply to the [k]-th request sent from the world [w] on. *)
Definition reply (e : env) (scholar_id : text) (w : world) (k : nat) : fetch_result :=
  http_get e (k + requests w) (request_of e scholar_id).

(** The attempt that gets the reply [r] raises. *)
Definition failed (e : env) (r : fetch_result) : Prop :=
  exists err, attempt_result e r = inr err.

(** The patterns of the patcher: three groups, the middle one [\d+]. *)
Definition field_pattern (ps : pattern) : Prop :=
  exists r1 r3, ps = [Capture r1; Capture digits; Capture r3].

(** Every occurrence of the pattern in [s] is replaced in [out]. *)
Inductive replaced_all (ps : pattern) (tpl : list titem) : text -> text -> Prop :=
| replaced_none s :
    search true ps s = None -> replaced_all ps tpl s s
| replaced_next s m out :
    search true ps s = Some m ->
    replaced_all ps tpl (after m) out ->
    replaced_all ps tpl s (before m ++ expand ps tpl m ++ out).

(** [m] is the only occurrence of the pattern in [s]. *)
Definition only_occurrence (ps : pattern) (s : text) (m : mobj) : Prop :=
  search true ps s = Some m /\ search true ps (after m) = None.

(** The count fields that the patch of the structured-data file rewrites. *)
Definition yaml_fields (content : text) : list text :=
  match search true yaml_pattern content with
  | Some _ => map (fun m => group yaml_pattern m 2) (finditer true yaml_pattern content)
  | None =>
      match search true yaml_pattern2 content with
      | Some m => [group yaml_pattern2 m 2]
      | None => []
      end
  end.

(** The count attributes that the patch of the HTML file rewrites. *)
Definition html_fields (content : text) : list text :=
  map (fun m => group html_pattern m 2) (finditer true html_pattern content).

(** The HTML patch meets an I/O error: the file cannot be read, or has a
    match and cannot be written. *)
Definition html_io_error (w : world) (path : string) : bool :=
  match fs w path with
  | None => true
  | Some f =>
      negb (readable f)
      || (match search true html_pattern (data f) with Some _ => true | None => false end
          && negb (writable f))
  end.

(** The text that the patch of the structured-data file writes, if it
    writes. *)
Definition yaml_new_content (content : text) (new_count : value) : option text :=
  match search true yaml_pattern content with
  | Some _ => Some (sub true yaml_pattern (replacement new_count) 0 content)
  | None =>
      match search true yaml_pattern2 content with
      | Some _ => Some (sub true yaml_pattern2 (replacement new_count) 1 content)
      | None => None
      end
  end.

(** The same for the HTML file. *)
Definition html_new_content (content : text) (new_count : value) : option text :=
  match search true html_pattern content with
  | Some _ => Some (sub true html_pattern (replacement new_count) 0 content)
  | None => None
  end.

(** The files after a patch of [path] that writes [new_content]: nothing
    changes unless the file can be read and has a match; then the new text
    is written, in whole, or not at all when [open] is refused, or up to the
    byte at which the device fails. *)
Definition patched (p : platform) (files : string -> option file) (path : string)
           (new_content : text -> option text) : string -> option file :=
  match files path with
  | Some f =>
      if readable f then
        match new_content (data f) with
        | Some s =>
            match access f with
            | Writable => set_file path (File true Writable (newline_out p s)) files
            | Refused => files
            | Failing n =>
                set_file path (File true (Failing n) (firstn n (newline_out p s))) files
            end
        | None => files
        end
      else files
  | None => files
  end.

(** The text of a file, as [read()] returns it. *)
Definition file_text (w : world) (path : string) : option text :=
  option_map data (fs w path).

(** From [w] to [w'] the file [path] was rewritten to hold the text [new],
    written in text mode, and the other files were left alone. *)
Definition rewritten (w w' : world) (path : string) (new : text) : Prop :=
  (exists f, fs w' path = Some f /\ bytes f = newline_out (os w) new)
  /\ forall p, p <> path -> fs w' p = fs w p.

(** The bytes have the line endings that the platform writes: read and
    written back in text mode, they are the same bytes. *)
Definition native (p : platform) (b : text) : Prop :=
  newline_out p (universal_newlines b) = b.

(** The bytes [new] are the bytes [old] with the digits of the field of
    [m], a match in the text of [old], replaced by the new count, and no
    other byte changed. *)
Definition only_field_changed (p : platform) (old new : text) (m : mobj)
           (new_count : value) : Prop :=
  exists g1 g2 g3,
    parts m = [g1; g2; g3]
    /\ g2 <> [] /\ Forall (fun c => is_digit c = true) g2
    /\ old = newline_out p (before m ++ g1) ++ g2 ++ newline_out p (g3 ++ after m)
    /\ new = newline_out p (before m ++ g1) ++ fmt new_count
            ++ newline_out p (g3 ++ after m).

(** A value returned, an exception raised. *)
Definition to_outcome (r : value + error) : outcome value :=
  match r with inl v => Ret v | inr err => Raise err end.

(** The same world with more lines on the console. *)
Definition said (w : world) (ls : list line) : world :=
  World (fs w) (console w ++ ls) (requests w) (slept w) (os w).

End Props.

(** ** Sample pages, files and environments *)

Module Examples.

Import Re Soup Script Props.

(** What the parser makes of a page without markup: one string. *)
Definition plain_parser (s : text) : node :=
  Tag (txt "[document]") [] [NavigableString s].

Definition no_files : string -> option file := fun _ => None.

Definition fresh (files : string -> option file) : world := World files [] 0 0 Posix.

Definition quoted (s : string) : text := squote :: txt s ++ [squote].
Definition dquoted (s : string) : text := dquote :: txt s ++ [dquote].

(** An entry of the structured-data file, fields in the usual order. *)
Definition entry (name image count : string) : text :=
  txt "- name: " ++ quoted name ++ [newline]
  ++ txt "  image: " ++ txt image ++ [newline]
  ++ txt "  count: " ++ quoted count ++ [newline].

(** The same entry with the count written first. *)
Definition entry_count_first (name image count : string) : text :=
  txt "- count: " ++ quoted count ++ [newline]
  ++ txt "  name: " ++ quoted name ++ [newline]
  ++ txt "  image: " ++ txt image ++ [newline].

Definition papers : text := entry "PAPERS" "img/papers.png" "12".
Definition talks (count : string) : text := entry "TALKS" "img/talks.png" count.
Definition scholar (count : string) : text :=
  entry "GOOGLE SCHOLAR CITATIONS" "img/scholar.png" count.
Definition scholar_count_first : text :=
  entry_count_first "GOOGLE SCHOLAR CITATIONS" "img/scholar.png" "41".

(** [data/content.yml] with the citation entry between two others. *)
Definition content_yml (count : string) : text :=
  papers ++ scholar count ++ talks "3".

(** The same file, the citation entry with its count first. *)
Definition content_yml_count_first (talks_count : string) : text :=
  papers ++ scholar_count_first ++ talks talks_count.

(** A file with two citation entries. *)
Definition content_yml_twice (first second : string) : text :=
  scholar first ++ papers ++ scholar second.

(** A file whose two citation entries both lack the image line. *)
Definition loose_entry (count : string) : text :=
  txt "- name: " ++ quoted "GOOGLE SCHOLAR CITATIONS" ++ [newline]
  ++ txt "  count: " ++ quoted count ++ [newline].

Definition content_yml_loose_twice (first second : string) : text :=
  loose_entry first ++ papers ++ loose_entry second.

(** The fragment of [index.html]. *)
Definition index_html (count : string) : text :=
  txt "<div><img src=" ++ dquoted "img/scholar.png"
  ++ txt " alt=" ++ dquoted "GOOGLE SCHOLAR CITATIONS" ++ txt " />"
  ++ txt "<p class=" ++ dquoted "fact-counter count"
  ++ txt " data-count=" ++ dquoted count ++ txt ">0</p>"
  ++ txt "<p>GOOGLE SCHOLAR CITATIONS</p></div>".

Definition site (yml html : text) : string -> option file :=
  set_file CONTENT_FILE (File true Writable yml)
    (set_file INDEX_FILE (File true Writable html) no_files).

(** The same text with CR LF line endings. *)
Definition crlf (s : text) : text := newline_out Windows s.

Definition html_only (html : text) : string -> option file :=
  set_file INDEX_FILE (File true Writable html) no_files.

(** Pages. *)
Definition count_page : text := txt "Citations 5".
Definition empty_page : text := txt "nothing to see here".
Definition million_page : text := txt "Citations 1,234,567".

(** The statistics table of a profile page, as parsed. *)
Definition cell (class : string) (children : list node) : node :=
  Tag (txt "td") [(txt "class", Multi [txt class])] children.

Definition stats_row (label all_time since : string) : node :=
  Tag (txt "tr") []
    [ cell "gsc_rsb_sc1" [Tag (txt "a") [(txt "class", Multi [txt "gsc_rsb_f"])]
                              [NavigableString (txt label)]];
      cell "gsc_rsb_std" [NavigableString (txt all_time)];
      cell "gsc_rsb_std" [NavigableString (txt since)] ].

Definition stats_head : node :=
  Tag (txt "tr") []
    [ Tag (txt "th") [] [];
      Tag (txt "th") [] [NavigableString (txt "All")];
      Tag (txt "th") [] [NavigableString (txt "Since 2019")] ].

Definition stats_table : node :=
  Tag (txt "table") [(txt "id", Single (txt "gsc_rsb_st"))]
    [ stats_head;
      stats_row "Citations" "1,234" "567";
      stats_row "h-index" "17" "12";
      stats_row "i10-index" "21" "15" ].

Definition profile_soup : node :=
  Tag (txt "[document]") [] [Tag (txt "div") [] [stats_table]].



(** The markup of a parsed page. *)
Definition render_attr (a : text * attr_value) : text :=
  " "%char :: fst a ++ "="%char :: dquote
  :: match snd a with Single v => v | Multi vs => join_space vs end ++ [dquote].

Fixpoint render (n : node) : text :=
  match n with
  | NavigableString s => s
  | OtherString s => txt "<!--" ++ s ++ txt "-->"
  | Tag name attrs children =>
      if text_eqb name (txt "[document]") then flat_map render children
      else "<"%char :: name ++ flat_map render_attr attrs ++ ">"%char
           :: flat_map render children ++ txt "</" ++ name ++ [">"%char]
  end.

Definition profile_page : text := render profile_soup.

(** Environments: no proxy key, the smallest random numbers. *)
Definition env_of (net : nat -> fetch_result) : env :=
  Env None (fun n _ => net n) (fun _ lo _ => lo) plain_parser.

(** Every request gets the same page. *)
Definition always (page : text) : env := env_of (fun _ => Reply 200 page).

(** No reply to the first [n] requests, then the page. *)
Definition after_failures (n : nat) (page : text) : env :=
  env_of (fun k => if k <=? n then NoReply else Reply 200 page).

(** An empty page first, then the page. *)
Definition after_empty_page (page : text) : env :=
  env_of (fun k => if k <=? 1 then Reply 200 empty_page else Reply 200 page).

Definition unreachable : env := env_of (fun _ => NoReply).

(** The first match of a pattern (an empty match object when there is
    none). *)
Definition first_match (ps : pattern) (s : text) : mobj :=
  match search true ps s with
  | Some m => m
  | None => MObj [] [] []
  end.

End Examples.

(** ** Notions used in the further properties *)

Module Further.

Import Re Soup Script Props.

(** The seconds slept before the request of an attempt. *)
Definition delay (e : env) (attempt : nat) : Z :=
  if 1 <? attempt then (randint e attempt 10 30 * Z.of_nat attempt)%Z
  else randint e attempt 2 5.

(** [random.randint(lo, hi)] gives a number from [lo] to [hi]. *)
Definition fair (e : env) : Prop :=
  forall n lo hi, (lo <= hi)%Z -> (lo <= randint e n lo hi <= hi)%Z.

(** The seconds slept in [k] attempts in a row, the first one numbered
    [attempt]. *)
Fixpoint total_delay (e : env) (attempt k : nat) : Z :=
  match k with
  | 0 => 0%Z
  | S k' => (delay e attempt + total_delay e (S attempt) k')%Z
  end.

(** From [w] to [w1] an attempt was made: one request more, the sleep of
    the attempt, the files as they were. *)
Definition attempted (e : env) (attempt : nat) (w w1 : world) : Prop :=
  requests w1 = S (requests w) /\ fs w1 = fs w
  /\ slept w1 = (slept w + delay e attempt)%Z.

(** The text does not go on with a digit. *)
Definition no_digit_next (t : text) : bool :=
  match t with
  | c :: _ => negb (is_digit c)
  | [] => true
  end.

(** The text does not go on with a separator and a digit. *)
Definition no_group_next (t : text) : bool :=
  match t with
  | c :: d :: _ => negb (Ascii.eqb c comma && is_digit d)
  | _ => true
  end.

(** The group of the fallback pattern: [\d+(?:,\d+)?]. *)
Definition count_group : regex := Cat digits (Opt (Cat (Lit comma) digits)).

(** The text after a number of the fallback pattern: nothing, or a
    separator and digits. *)
Definition one_group (grp : text) : Prop :=
  grp = [] \/ exists ds2, grp = comma :: ds2 /\ ds2 <> [] /\ forallb is_digit ds2 = true.

(** A file that can be read and written. *)
Definition usable (w : world) (path : string) (content : text) : Prop :=
  exists f, fs w path = Some f /\ readable f = true /\ writable f = true
            /\ data f = content.

(** A file that can be read and written and has the line endings that
    the platform writes. *)
Definition well_kept (w : world) (path : string) (f : file) : Prop :=
  fs w path = Some f /\ readable f = true /\ writable f = true
  /\ native (os w) (bytes f).

(** The first way in which the engine matches [r] at the head of [s]
    takes [n] characters. *)
Definition first_way (r : regex) (s : text) (n : nat) : Prop :=
  exists l, exec true r s = n :: l.

(** The citation entry in its usual layout, up to the quote that opens
    the count, and whole. *)
Definition entry_head (image : text) : text :=
  txt "- name: 'GOOGLE SCHOLAR CITATIONS'" ++ newline
  :: txt "  image:" ++ image ++ newline :: txt "  count: '".

Definition scholar_entry (image count : text) : text :=
  entry_head image ++ count ++ [squote].

(** The part of the strict pattern from the image text on. *)
Definition image_to_quote : regex :=
  cats [ MaxRepeat 0 (CNoneOf [newline]); Lit newline; spaces;
         lits (txt "count:"); spaces; InSet quote ].

(** The alt attribute of the citation image, in lower case. *)
Definition alt_label : text :=
  txt "alt=" ++ dquote :: txt "google scholar citations".

(** The fragment of [index.html] in its usual layout: the image with any
    attributes before its alt text, white space, and the paragraph with any
    attributes before its count; up to the quote that opens the count, and
    whole. *)
Definition element_head (attrs between attrs2 : text) : text :=
  txt "<img" ++ attrs ++ txt "alt=" ++ Examples.dquoted "GOOGLE SCHOLAR CITATIONS"
  ++ txt " />" ++ between ++ txt "<p" ++ attrs2 ++ txt "data-count=" ++ [dquote].

Definition counter_element (attrs between attrs2 count : text) : text :=
  element_head attrs between attrs2 ++ count ++ dquote :: txt ">".

(** No [>] in the text, so that it can stand inside a tag. *)
Definition inside_tag (s : text) : bool :=
  forallb (fun c => negb (Ascii.eqb c ">"%char)) s.

(** The pattern of the HTML file from the alt attribute on, and from the
    count attribute on. *)
Definition alt_to_quote : regex :=
  cats [ lits (txt "alt="); Lit dquote; label; Lit dquote;
         MaxRepeat 0 (CNoneOf [">"%char]); lits (txt "/>"); spaces;
         lits (txt "<p"); MaxRepeat 0 (CNoneOf [">"%char]);
         lits (txt "data-count="); Lit dquote ].

Definition count_to_quote : regex :=
  cats [ lits (txt "data-count="); Lit dquote ].

(** *** Sample data *)

(** A page without the table, with two styled cells. *)
Definition cells_soup : node :=
  Tag (txt "[document]") []
    [Tag (txt "div") []
       [ Examples.cell "gsc_rsb_std" [NavigableString (txt " 2,048 ")];
         Examples.cell "gsc_rsb_std" [NavigableString (txt "512")] ]].

Definition cells_page : text := Examples.render cells_soup.

(** A page whose label row has no number in its second cell, while a
    styled cell and the raw text have one. *)
Definition dash_soup : node :=
  Tag (txt "[document]") []
    [ Tag (txt "table") [(txt "id", Single (txt "gsc_rsb_st"))]
        [ Tag (txt "tr") []
            [ Tag (txt "td") [] [NavigableString (txt "Citations")];
              Tag (txt "td") [] [NavigableString (txt "n/a")] ] ];
      Examples.cell "gsc_rsb_std" [NavigableString (txt "12")] ].

Definition dash_page : text := Examples.render dash_soup.

(** A page whose first styled cell has no number, while the raw text has
    one. *)
Definition dash_cell_soup : node :=
  Tag (txt "[document]") []
    [ Examples.cell "gsc_rsb_std" [NavigableString (txt "n/a")];
      NavigableString (txt "Citations 12") ].

Definition dash_cell_page : text := Examples.render dash_cell_soup.

(** A server that answers every request with an error status and a
    page that has the count. *)
Definition overloaded : env := Examples.env_of (fun _ => Reply 503 Examples.count_page).

End Further.

Import Re Soup Script Props.

(** ** The matcher *)

Section EngineFacts.

Variable ic : bool.

Lemma hd_error_in (A : Type) (l : list A) (x : A) :
  hd_error l = Some x -> In x l.
Proof. destruct l; simpl; [discriminate | intros [= ->]; now left]. Qed.

Lemma span_firstn (k : cls) (n : nat) (s : text) :
  n <= span ic k s ->
  Forall (fun c => in_cls ic k c = true) (firstn n s) /\ length (firstn n s) = n.
Proof.
  revert s; induction n as [|n IH]; intros s Hn; simpl.
  - split; [constructor | reflexivity].
  - destruct s as [|c t]; simpl in Hn; [lia|].
    destruct (in_cls ic k c) eqn:Hc; [|lia].
    destruct (IH t) as [Hall Hlen]; [lia|].
    simpl; split; [constructor; assumption | now rewrite Hlen].
Qed.

(** What the digit group captures: a non-empty run of digits. *)
Lemma exec_digits (s : text) (n : nat) :
  In n (exec ic digits s) ->
  firstn n s <> [] /\ Forall (fun c => is_digit c = true) (firstn n s).
Proof.
  unfold digits; simpl; rewrite <- in_rev, in_seq; intros Hn.
  destruct (span_firstn CDigit n s) as [Hall Hlen]; [lia|].
  split; [|exact Hall].
  intros E; rewrite E in Hlen; simpl in Hlen; lia.
Qed.

Lemma in_exec_pieces (p : piece) (ps : pattern) (s : text) (ns : list nat) :
  In ns (exec_pieces ic (p :: ps) s) ->
  exists n ns', ns = n :: ns' /\ In n (exec ic (piece_regex p) s)
                /\ In ns' (exec_pieces ic ps (skipn n s)).
Proof.
  simpl; rewrite in_flat_map; intros (n & Hn & Hin).
  apply in_map_iff in Hin as (ns' & <- & Hns').
  now exists n, ns'.
Qed.

Lemma cut_concat (ns : list nat) (s : text) :
  concat (fst (cut ns s)) ++ snd (cut ns s) = s.
Proof.
  revert s; induction ns as [|n ns IH]; intros s; simpl; [reflexivity|].
  specialize (IH (skipn n s)); destruct (cut ns (skipn n s)) as [parts rest]; simpl in *.
  now rewrite <- app_assoc, IH, firstn_skipn.
Qed.

(** A match object splits the subject; its pieces are a first match at
    the position where [before] ends. *)
Lemma search_sound (ps : pattern) (s : text) (m : mobj) :
  search ic ps s = Some m ->
  s = before m ++ whole m ++ after m
  /\ exists ns, match_at ic ps (whole m ++ after m) = Some ns
                /\ cut ns (whole m ++ after m) = (parts m, after m).
Proof.
  revert m; induction s as [|c t IH]; intros m; simpl.
  - destruct (match_at ic ps []) as [ns|] eqn:E; [|discriminate].
    pose proof (cut_concat ns []) as Hc.
    destruct (cut ns []) as [parts rest] eqn:Ecut; intros [= <-]; simpl in *.
    unfold whole; simpl; rewrite Hc; split; [reflexivity|].
    exists ns; now rewrite E, Ecut.
  - destruct (match_at ic ps (c :: t)) as [ns|] eqn:E.
    + pose proof (cut_concat ns (c :: t)) as Hc.
      destruct (cut ns (c :: t)) as [parts rest] eqn:Ecut; intros [= <-]; simpl in *.
      unfold whole; simpl; rewrite Hc; split; [reflexivity|].
      exists ns; now rewrite E, Ecut.
    + destruct (search ic ps t) as [m'|] eqn:Es; [|discriminate].
      intros [= <-]; simpl.
      destruct (IH m' eq_refl) as [Hs Hm]; split; [now f_equal | exact Hm].
Qed.

(** The shape of a match of a pattern of the patcher. *)
Lemma field_match (ps : pattern) (s : text) (m : mobj) :
  field_pattern ps -> search ic ps s = Some m ->
  exists g1 g2 g3,
    parts m = [g1; g2; g3]
    /\ g2 <> [] /\ Forall (fun c => is_digit c = true) g2
    /\ s = before m ++ g1 ++ g2 ++ g3 ++ after m.
Proof.
  intros (r1 & r3 & ->) Hs.
  destruct (search_sound _ _ _ Hs) as (Hsplit & ns & Hm & Hcut).
  apply hd_error_in in Hm.
  apply in_exec_pieces in Hm as (n1 & ns1 & -> & _ & Hm).
  apply in_exec_pieces in Hm as (n2 & ns2 & -> & H2 & Hm).
  apply in_exec_pieces in Hm as (n3 & ns3 & -> & _ & Hm).
  simpl in Hm; destruct Hm as [<-|[]].
  remember (whole m ++ after m) as u eqn:Hu.
  simpl in Hcut; injection Hcut as Hp Ha.
  apply exec_digits in H2 as [Hne Hdig].
  do 3 eexists; split; [symmetry; exact Hp|].
  split; [exact Hne|]; split; [exact Hdig|].
  rewrite Hsplit; f_equal.
  rewrite <- Ha at 1.
  now rewrite !firstn_skipn.
Qed.

Lemma field_groups (ps : pattern) (m : mobj) (g1 g2 g3 : text) (v : value) :
  field_pattern ps -> parts m = [g1; g2; g3] ->
  group ps m 2 = g2 /\ whole m = g1 ++ g2 ++ g3
  /\ expand ps (replacement v) m = g1 ++ fmt v ++ g3.
Proof.
  intros (r1 & r3 & ->) Hp; unfold expand, group, whole; rewrite Hp; simpl.
  now rewrite !app_nil_r.
Qed.

Lemma field_after_shorter (ps : pattern) (s : text) (m : mobj) :
  field_pattern ps -> search ic ps s = Some m -> length (after m) < length s.
Proof.
  intros Hps Hs.
  destruct (field_match _ _ _ Hps Hs) as (g1 & g2 & g3 & _ & Hne & _ & ->).
  rewrite !length_app; destruct g2; [congruence | simpl; lia].
Qed.

(** Replacing the first occurrence only. *)
Lemma sub_first (ps : pattern) (tpl : list titem) (s : text) (m : mobj) :
  search ic ps s = Some m ->
  sub ic ps tpl 1 s = before m ++ expand ps tpl m ++ after m.
Proof.
  intros Hs; unfold sub, subn; simpl; rewrite Hs.
  destruct (length s); reflexivity.
Qed.

(** Replacing all occurrences when there is one. *)
Lemma sub_single (ps : pattern) (tpl : list titem) (s : text) (m : mobj) :
  search ic ps s = Some m -> search ic ps (after m) = None ->
  sub ic ps tpl 0 s = before m ++ expand ps tpl m ++ after m.
Proof.
  intros Hs Ha; unfold sub, subn; simpl; rewrite Hs.
  destruct (length s); simpl; [reflexivity | now rewrite Ha].
Qed.

Section AllOccurrences.

Variable ps : pattern.
Variable tpl : list titem.
Hypothesis Hps : field_pattern ps.

(** More rounds than the text has characters never change the result. *)
Lemma subn_loop_enough (count f1 f2 d : nat) (s : text) :
  length s < f1 -> length s < f2 ->
  subn_loop ic f1 ps tpl count d s = subn_loop ic f2 ps tpl count d s.
Proof.
  revert f2 d s; induction f1 as [|f1 IH]; intros f2 d s H1 H2; [lia|].
  destruct f2 as [|f2]; [lia|]; cbn [subn_loop].
  destruct ((count =? 0) || (d <? count)); [|reflexivity].
  destruct (search ic ps s) as [m|] eqn:Hs; [|reflexivity].
  pose proof (field_after_shorter _ _ _ Hps Hs) as Hsh.
  rewrite (IH f2 (S d) (after m)) by lia; reflexivity.
Qed.

(** Nothing changes when every occurrence already reads as its
    replacement. *)
Lemma subn_loop_same (fuel d : nat) (s : text) :
  length s < fuel ->
  Forall (fun m => expand ps tpl m = whole m) (finditer_loop ic fuel ps s) ->
  fst (subn_loop ic fuel ps tpl 0 d s) = s.
Proof.
  revert d s; induction fuel as [|fuel IH]; intros d s Hlen Hall; [lia|]; simpl in *.
  destruct (search ic ps s) as [m|] eqn:Hs; simpl; [|reflexivity].
  pose proof (field_after_shorter _ _ _ Hps Hs) as Hsh.
  inversion Hall as [|? ? Hm Hrest]; subst.
  specialize (IH (S d) (after m)).
  destruct (subn_loop ic fuel ps tpl 0 (S d) (after m)) as [out k]; simpl in *.
  rewrite IH, Hm; [|lia|assumption].
  now destruct (search_sound _ _ _ Hs) as [<- _].
Qed.

End AllOccurrences.

End EngineFacts.

(** The result of [sub] with count 0 has every occurrence replaced. *)
Lemma subn_loop_replaced_all (ps : pattern) (tpl : list titem) (fuel d : nat) (s : text) :
  field_pattern ps -> length s < fuel ->
  replaced_all ps tpl s (fst (subn_loop true fuel ps tpl 0 d s)).
Proof.
  intros Hps; revert d s; induction fuel as [|fuel IH]; intros d s Hlen; [lia|]; simpl.
  destruct (search true ps s) as [m|] eqn:Hs; simpl; [|now constructor].
  pose proof (field_after_shorter true _ _ _ Hps Hs) as Hsh.
  specialize (IH (S d) (after m)).
  destruct (subn_loop true fuel ps tpl 0 (S d) (after m)) as [out k]; simpl in *.
  apply replaced_next; [assumption | apply IH; lia].
Qed.

(** ** The retry loop *)

(** One attempt sends one request, leaves the files alone, and returns or
    raises what [attempt_result] says of the reply. *)
Lemma attempt_body_spec (e : env) (id : text) (a : nat) (w : world) :
  exists w1,
    attempt_body e id a w = (to_outcome (attempt_result e (reply e id w 1)), w1)
    /\ requests w1 = S (requests w) /\ fs w1 = fs w.
Proof.
  unfold attempt_body, reply, request_of, attempt_result, bind, print, sleep,
    requests_get, raise_for_status, perform, raise, ret.
  destruct (1 <? a); simpl;
    destruct (scraper_api_key e) as [[|c k]|]; simpl;
    match goal with
    | |- context [http_get e ?n ?r] => destruct (http_get e n r) as [|st body]
    end; simpl;
    try (eexists; split; [reflexivity | split; reflexivity]);
    destruct ((400 <=? st)%Z && (st <? 600)%Z); simpl;
    try (eexists; split; [reflexivity | split; reflexivity]);
    destruct (snd (extract (html_parser e body) body));
    eexists; split; try reflexivity; split; reflexivity.
Qed.

Lemma for_attempts_cons (e : env) (id : text) (a : nat) (rest : list nat) :
  for_attempts e id (a :: rest) =
  (r <- try_except
          (v <- attempt_body e id a ;; ret (Some v))
          (fun err =>
             (if is_request_exception err
              then print (LNetworkError a err)
              else print (LAttemptFailed a err)) ;;
             ret None) ;;
   match r with
   | Some v => ret v
   | None =>
       if a <? MAX_RETRIES
       then print LRetrying ;; for_attempts e id rest
       else print LAllAttemptsFailed ;; sys_exit 1
   end).
Proof. reflexivity. Qed.

Lemma step_ok (e : env) (id : text) (a : nat) (rest : list nat) (w : world) (v : value) :
  attempt_result e (reply e id w 1) = inl v ->
  exists w1, for_attempts e id (a :: rest) w = (Ret v, w1)
             /\ requests w1 = S (requests w) /\ fs w1 = fs w.
Proof.
  intros Hr; destruct (attempt_body_spec e id a w) as (w1 & Hb & Hq & Hf).
  rewrite Hr in Hb; cbn [to_outcome] in Hb.
  exists w1; split; [|now split].
  rewrite for_attempts_cons; unfold bind, try_except; now rewrite Hb.
Qed.

Lemma step_fail (e : env) (id : text) (a : nat) (rest : list nat) (w : world) (err : error) :
  attempt_result e (reply e id w 1) = inr err ->
  exists w1, requests w1 = S (requests w) /\ fs w1 = fs w
    /\ for_attempts e id (a :: rest) w =
       if a <? MAX_RETRIES then for_attempts e id rest w1 else (Exit 1%Z, w1).
Proof.
  intros Hr; destruct (attempt_body_spec e id a w) as (w1 & Hb & Hq & Hf).
  rewrite Hr in Hb; cbn [to_outcome] in Hb.
  rewrite for_attempts_cons; unfold bind, try_except; rewrite Hb.
  destruct (a <? MAX_RETRIES) eqn:Ha;
    destruct (is_request_exception err); unfold print, ret, sys_exit;
    eexists; (split; [|split; [|reflexivity]]); cbn [requests fs]; assumption.
Qed.

(** Fetching never touches the files. *)
Lemma for_attempts_fs (e : env) (id : text) (l : list nat) (w : world) :
  fs (snd (for_attempts e id l w)) = fs w.
Proof.
  revert w; induction l as [|a rest IH]; intros w; [reflexivity|].
  destruct (attempt_result e (reply e id w 1)) as [v|err] eqn:Hr.
  - destruct (step_ok e id a rest w v Hr) as (w1 & -> & _ & Hf); exact Hf.
  - destruct (step_fail e id a rest w err Hr) as (w1 & _ & Hf & ->).
    destruct (a <? MAX_RETRIES); [rewrite IH|]; exact Hf.
Qed.

(** Nor does it change the platform. *)
Lemma attempt_body_os (e : env) (id : text) (a : nat) (w : world) :
  os (snd (attempt_body e id a w)) = os w.
Proof.
  unfold attempt_body, bind, print, sleep, requests_get, raise_for_status, perform,
    raise, ret.
  destruct (1 <? a); simpl;
    destruct (truthy (scraper_api_key e)); simpl;
    match goal with
    | |- context [http_get e ?n ?r] => destruct (http_get e n r) as [|st body]
    end; simpl; try reflexivity;
    destruct ((400 <=? st)%Z && (st <? 600)%Z); simpl; try reflexivity;
    destruct (snd (extract (html_parser e body) body)); reflexivity.
Qed.

Lemma for_attempts_os (e : env) (id : text) (l : list nat) (w : world) :
  os (snd (for_attempts e id l w)) = os w.
Proof.
  revert w; induction l as [|a rest IH]; intros w; [reflexivity|].
  pose proof (attempt_body_os e id a w) as Hos.
  rewrite for_attempts_cons; unfold bind, try_except.
  destruct (attempt_body e id a w) as [[v|err|c] w1]; cbn [snd] in Hos;
    unfold ret; cbn [snd]; try exact Hos.
  destruct (is_request_exception err); unfold print, ret, sys_exit; cbn [snd];
    (destruct (a <? MAX_RETRIES); [rewrite IH|]; exact Hos).
Qed.

Lemma reply_next (e : env) (id : text) (w w1 : world) (k : nat) :
  requests w1 = S (requests w) -> reply e id w1 k = reply e id w (S k).
Proof. unfold reply; intros ->; now rewrite Nat.add_succ_r. Qed.

(** ** The patcher and [main] *)

Lemma set_file_same (path : string) (f : file) (files : string -> option file) :
  set_file path f files path = Some f.
Proof. unfold set_file; now rewrite String.eqb_refl. Qed.

Lemma set_file_other (path p : string) (f : file) (files : string -> option file) :
  p <> path -> set_file path f files p = files p.
Proof.
  intros Hp; unfold set_file.
  destruct (String.eqb p path) eqn:E; [apply String.eqb_eq in E; contradiction | reflexivity].
Qed.

(** The structured-data patch always returns; what it does to the files
    is [patched]. *)
Lemma update_yaml_file_spec (path : string) (v : value) (w : world) :
  exists w',
    update_yaml_file path v w = (Ret tt, w')
    /\ requests w' = requests w /\ os w' = os w
    /\ fs w' = patched (os w) (fs w) path (fun c => yaml_new_content c v).
Proof.
  unfold update_yaml_file, patched, yaml_new_content, bind, path_exists, try_except,
    read_file, write_file, store, print, ret, writable.
  destruct (fs w path) as [[r a b]|] eqn:Hf; cbn [negb readable access];
    [|eexists; repeat split; reflexivity].
  rewrite Hf; cbn [readable access].
  destruct r; [|eexists; repeat split; reflexivity].
  destruct (search true yaml_pattern (data (File true a b))) as [m|].
  - rewrite Hf; cbn [readable access]; destruct a; eexists; repeat split; reflexivity.
  - destruct (search true yaml_pattern2 (data (File true a b))) as [m2|].
    + rewrite Hf; cbn [readable access]; destruct a; eexists; repeat split; reflexivity.
    + eexists; repeat split; reflexivity.
Qed.

(** The HTML patch returns unless it meets an I/O error, which ends the
    process with status 1; what it does to the files is [patched]. *)
Lemma update_index_html_spec (path : string) (v : value) (w : world) :
  exists w',
    update_index_html path v w =
      (if html_io_error w path then Exit 1%Z else Ret tt, w')
    /\ requests w' = requests w /\ os w' = os w
    /\ fs w' = patched (os w) (fs w) path (fun c => html_new_content c v).
Proof.
  unfold update_index_html, patched, html_new_content, html_io_error, bind, try_except,
    read_file, write_file, store, print, ret, sys_exit, writable.
  destruct (fs w path) as [[r a b]|] eqn:Hf; cbn [readable access];
    [|eexists; repeat split; reflexivity].
  destruct r; cbn [andb negb orb]; [|eexists; repeat split; reflexivity].
  destruct (search true html_pattern (data (File true a b))) as [m|].
  - rewrite Hf; cbn [readable access]; destruct a; eexists; repeat split; reflexivity.
  - eexists; repeat split; reflexivity.
Qed.

Lemma announce_spec (e : env) (w : world) :
  exists ls, announce e w = (Ret tt, said w ls).
Proof.
  unfold announce, bind, print, said.
  destruct (truthy (scraper_api_key e)); cbn [fs console requests slept];
    eexists; rewrite <- !app_assoc; reflexivity.
Qed.

(** [main] up to the end of the fetch. *)
Lemma main_fetch (e : env) (w : world) :
  exists w0, requests w0 = requests w /\ fs w0 = fs w
    /\ main e w =
       match get_citation_count_direct e SCHOLAR_ID w0 with
       | (Ret v, w1) =>
           (update_yaml_file CONTENT_FILE v ;;
            update_index_html INDEX_FILE v ;; print LComplete) w1
       | (Raise err, w1) => (Raise err, w1)
       | (Exit c, w1) => (Exit c, w1)
       end.
Proof.
  destruct (announce_spec e w) as (ls & Ha).
  exists (said w ls); split; [reflexivity | split; [reflexivity|]].
  unfold main; unfold bind at 1; rewrite Ha; unfold bind at 1.
  destruct (get_citation_count_direct e SCHOLAR_ID (said w ls)) as [[v|err|c] w1]; reflexivity.
Qed.

(** The same, with the world in which the fetch starts. *)
Lemma main_fetch_said (e : env) (w : world) :
  exists ls,
    main e w =
    match get_citation_count_direct e SCHOLAR_ID (said w ls) with
    | (Ret v, w1) =>
        (update_yaml_file CONTENT_FILE v ;;
         update_index_html INDEX_FILE v ;; print LComplete) w1
    | (Raise err, w1) => (Raise err, w1)
    | (Exit c, w1) => (Exit c, w1)
    end.
Proof.
  destruct (announce_spec e w) as (ls & Ha); exists ls.
  unfold main; unfold bind at 1; rewrite Ha; unfold bind at 1.
  destruct (get_citation_count_direct e SCHOLAR_ID (said w ls)) as [[v|err|c] w1]; reflexivity.
Qed.

(** ** Characters and [int] *)

Ltac by_cases_on_char c :=
  destruct c as [[] [] [] [] [] [] [] []]; vm_compute; intuition discriminate.

Lemma digit_is_plain (c : ascii) :
  is_digit c = true ->
  to_ascii_space c = c /\ c_isspace c = false
  /\ Ascii.eqb c "+" = false /\ Ascii.eqb c "-" = false
  /\ Ascii.eqb c "_" = false /\ Ascii.eqb c comma = false.
Proof. by_cases_on_char c. Qed.


Lemma comma_only_matches_comma (x : ascii) :
  chr_eq true comma x = true -> x = comma.
Proof. by_cases_on_char x. Qed.




Lemma scan_digits_all (s : text) (acc : Z) (seen : bool) :
  Forall (fun c => is_digit c = true) s ->
  seen = true \/ s <> [] ->
  scan_digits acc seen false s
  = Some (fold_left (fun a c => (10 * a + digit_val c)%Z) s acc, []).
Proof.
  revert acc seen; induction s as [|c t IH]; intros acc seen Hall Hne; cbn [scan_digits fold_left].
  - destruct Hne as [-> | Hne]; [reflexivity | congruence].
  - inversion Hall as [|? ? Hc Ht]; subst; rewrite Hc.
    apply IH; [assumption | now left].
Qed.

(** [int] on a non-empty string of digits is its decimal value. *)
Lemma py_int_digits (s : text) :
  s <> [] -> Forall (fun c => is_digit c = true) s ->
  py_int s = Some (decimal_value s).
Proof.
  intros Hne Hall; unfold py_int.
  assert (Hmap : map to_ascii_space s = s).
  { clear Hne; induction Hall as [|c t Hc _ IH]; simpl; [reflexivity|].
    destruct (digit_is_plain c Hc) as (-> & _); now rewrite IH. }
  rewrite Hmap; destruct s as [|c t]; [congruence|].
  inversion Hall as [|? ? Hc Ht]; subst.
  destruct (digit_is_plain c Hc) as (_ & Hsp & Hplus & Hminus & _).
  cbn [drop_while]; rewrite Hsp, Hplus, Hminus.
  rewrite (scan_digits_all (c :: t) 0 false Hall) by (right; discriminate).
  cbn [drop_while]; unfold decimal_value; f_equal; lia.
Qed.

Lemma remove_commas_digits (s : text) :
  Forall (fun c => is_digit c = true \/ c = comma) s ->
  Forall (fun c => is_digit c = true) (remove_commas s).
Proof.
  induction 1 as [|c t Hc _ IH]; simpl; [constructor|].
  destruct (Ascii.eqb c comma) eqn:E; simpl; [assumption|].
  constructor; [|assumption].
  destruct Hc as [Hc | ->]; [assumption | now rewrite Ascii.eqb_refl in E].
Qed.






(** ** Extraction *)

Lemma scan_rows_no_label (rows : list node) (otherwise : extraction) :
  forallb (fun r => negb (label_row r)) rows = true ->
  scan_rows rows otherwise = otherwise.
Proof.
  induction rows as [|row rest IH]; cbn [scan_rows forallb]; [reflexivity|].
  rewrite andb_true_iff, negb_true_iff; unfold label_row; intros [Hrow Hrest].
  destruct (find_all (txt "td") [] row) as [|header [|all_time more]]; auto.
  rewrite Hrow; auto.
Qed.

(** When no method matches, the attempt raises: the CAPTCHA exception on
    a page with a marker, the generic one otherwise. *)
Lemma extract_no_match (soup : node) (body : text) :
  no_method_matches soup body ->
  snd (extract soup body) = inr (if has_marker body then Blocked else CountNotFound).
Proof.
  intros (Htable & Hcells & Hre).
  assert (Hstyled : snd (styled_cells soup body)
                    = inr (if has_marker body then Blocked else CountNotFound)).
  { unfold styled_cells, regex_fallback, has_marker; rewrite Hcells, Hre.
    now destruct (_ || _). }
  unfold extract.
  destruct (find (txt "table") _ soup) as [t|]; [|exact Hstyled].
  now rewrite scan_rows_no_label.
Qed.

(** A run of failed attempts that reaches the last attempt ends the
    process. *)
Lemma attempts_all_fail (e : env) (id : text) (n a : nat) (w : world) :
  a + n = MAX_RETRIES ->
  (forall k, 1 <= k <= S n -> failed e (reply e id w k)) ->
  exists w', for_attempts e id (seq a (S n)) w = (Exit 1%Z, w')
             /\ requests w' = S n + requests w /\ fs w' = fs w.
Proof.
  revert a w; induction n as [|n IH]; intros a w Ha H.
  - destruct (H 1) as [err H1]; [lia|].
    destruct (step_fail e id a [] w err H1) as (w1 & Hq & Hf & Hs).
    replace (a <? MAX_RETRIES) with false in Hs
      by (symmetry; apply Nat.ltb_ge; lia).
    exists w1; cbn [seq]; rewrite Hs; auto.
  - destruct (H 1) as [err H1]; [lia|].
    destruct (step_fail e id a (seq (S a) (S n)) w err H1) as (w1 & Hq & Hf & Hs).
    replace (a <? MAX_RETRIES) with true in Hs
      by (symmetry; apply Nat.ltb_lt; lia).
    destruct (IH (S a) w1) as (w' & Hr & Hq' & Hf'); [lia| |].
    + intros k Hk; rewrite (reply_next e id w w1 k Hq); apply H; lia.
    + exists w'; change (seq a (S (S n))) with (a :: seq (S a) (S n)).
      rewrite Hs, Hr; split; [reflexivity|]; split; [lia | congruence].
Qed.

(** A run of failed attempts followed by a success returns the count. *)
Lemma attempts_fail_then_succeed (e : env) (id : text) (n a : nat) (rest : list nat)
      (w : world) (v : value) :
  a + n <= MAX_RETRIES ->
  (forall k, 1 <= k <= n -> failed e (reply e id w k)) ->
  attempt_result e (reply e id w (S n)) = inl v ->
  exists w', for_attempts e id (seq a (S n) ++ rest) w = (Ret v, w')
             /\ requests w' = S n + requests w /\ fs w' = fs w.
Proof.
  revert a w; induction n as [|n IH]; intros a w Ha H Hv.
  - destruct (step_ok e id a rest w v Hv) as (w1 & Hs & Hq & Hf).
    exists w1; cbn [seq app]; auto.
  - destruct (H 1) as [err H1]; [lia|].
    destruct (step_fail e id a (seq (S a) (S n) ++ rest) w err H1) as (w1 & Hq & Hf & Hs).
    replace (a <? MAX_RETRIES) with true in Hs
      by (symmetry; apply Nat.ltb_lt; lia).
    destruct (IH (S a) w1) as (w' & Hr & Hq' & Hf'); [lia| | |].
    + intros k Hk; rewrite (reply_next e id w w1 k Hq); apply H; lia.
    + now rewrite (reply_next e id w w1 (S n) Hq).
    + exists w'; change (seq a (S (S n)) ++ rest) with (a :: seq (S a) (S n) ++ rest).
      rewrite Hs, Hr; split; [reflexivity|]; split; [lia | congruence].
Qed.

Lemma five_failures (e : env) (id : text) (w : world) :
  (forall k, 1 <= k <= 5 -> failed e (reply e id w k)) ->
  exists w', get_citation_count_direct e id w = (Exit 1%Z, w')
             /\ requests w' = 5 + requests w /\ fs w' = fs w.
Proof. intros H; now apply (attempts_all_fail e id 4 1 w). Qed.

(** The exit status when the fetch ends the process. *)
Lemma run_fetch_exit (e : env) (w : world) :
  (forall k, 1 <= k <= 5 -> failed e (reply e SCHOLAR_ID w k)) ->
  fst (run e w) = 1%Z
  /\ requests (snd (run e w)) = 5 + requests w
  /\ fs (snd (run e w)) = fs w.
Proof.
  intros H; unfold run.
  destruct (main_fetch e w) as (w0 & Hq & Hf & ->).
  destruct (five_failures e SCHOLAR_ID w0) as (w' & -> & Hq' & Hf').
  { intros k Hk; unfold reply; rewrite Hq; now apply H. }
  cbn [fst snd]; split; [reflexivity|]; split; congruence.
Qed.

(** ** The rows of the table *)

(** Method 1 returns the count of the first label row. *)
Lemma scan_rows_first_label (before after more : list node) (row header all_time : node)
      (otherwise : extraction) :
  forallb (fun r => negb (label_row r)) before = true ->
  find_all (txt "td") [] row = header :: all_time :: more ->
  contains (txt "citations") (str_lower (get_text_strip header)) = true ->
  scan_rows (before ++ row :: after) otherwise = return_count (get_text_strip all_time).
Proof.
  intros Hb Hcells Hlabel; induction before as [|r rest IH]; cbn [app scan_rows].
  - now rewrite Hcells, Hlabel.
  - cbn [forallb] in Hb; rewrite andb_true_iff, negb_true_iff in Hb; destruct Hb as [Hr Hrest].
    unfold label_row in Hr.
    destruct (find_all (txt "td") [] r) as [|h [|a m]]; auto.
    rewrite Hr; auto.
Qed.

(** Whatever method 1 returns comes from the second cell of a row. *)
Lemma scan_rows_result (rows : list node) (otherwise : extraction) :
  scan_rows rows otherwise = otherwise
  \/ exists row header all_time more,
       List.In row rows
       /\ find_all (txt "td") [] row = header :: all_time :: more
       /\ scan_rows rows otherwise = return_count (get_text_strip all_time).
Proof.
  induction rows as [|r rest IH]; cbn [scan_rows]; [now left|].
  assert (Hrest : scan_rows rest otherwise = otherwise
                  \/ exists row header all_time more,
                       List.In row (r :: rest)
                       /\ find_all (txt "td") [] row = header :: all_time :: more
                       /\ scan_rows rest otherwise = return_count (get_text_strip all_time)).
  { destruct IH as [IH | (row & h & a & m & Hr & Hc & IH)]; [now left|].
    right; exists row, h, a, m; split; [now right | now split]. }
  destruct (find_all (txt "td") [] r) as [|h [|a m]] eqn:Hcells; try exact Hrest.
  destruct (contains _ _); [|exact Hrest].
  right; exists r, h, a, m; split; [now left | now split].
Qed.


(** ** The fallback pattern *)


Lemma in_exec_cat (ic : bool) (r1 r2 : regex) (s : text) (n : nat) :
  List.In n (exec ic (Cat r1 r2) s) ->
  exists a b, n = a + b /\ List.In a (exec ic r1 s) /\ List.In b (exec ic r2 (skipn a s)).
Proof.
  cbn [exec]; rewrite in_flat_map; intros (a & Ha & Hin).
  apply in_map_iff in Hin as (b & <- & Hb); now exists a, b.
Qed.




(** ** Patched files *)

Lemma yaml_is_field_pattern : field_pattern yaml_pattern.
Proof. do 2 eexists; reflexivity. Qed.

Lemma yaml2_is_field_pattern : field_pattern yaml_pattern2.
Proof. do 2 eexists; reflexivity. Qed.

Lemma html_is_field_pattern : field_pattern html_pattern.
Proof. do 2 eexists; reflexivity. Qed.

(** *** Text mode *)

Lemma newline_out_app (p : platform) (a b : text) :
  newline_out p (a ++ b) = newline_out p a ++ newline_out p b.
Proof. unfold newline_out; apply flat_map_app. Qed.

(** Text without a line feed is written as it is. *)
Lemma newline_out_plain (p : platform) (s : text) :
  Forall (fun c => Ascii.eqb c newline = false) s -> newline_out p s = s.
Proof.
  induction 1 as [|c s Hc _ IH]; [reflexivity|].
  unfold newline_out in *; cbn [flat_map]; now rewrite Hc, IH.
Qed.

Lemma digits_plain (s : text) :
  Forall (fun c => is_digit c = true) s ->
  Forall (fun c => Ascii.eqb c newline = false) s.
Proof.
  intros H; eapply Forall_impl; [|exact H].
  intros c; destruct c as [[] [] [] [] [] [] [] []]; vm_compute; intuition discriminate.
Qed.

Lemma uint_plain (d : Decimal.uint) :
  Forall (fun c => Ascii.eqb c newline = false)
         (list_ascii_of_string (NilEmpty.string_of_uint d)).
Proof. induction d; cbn; repeat constructor; assumption. Qed.

(** The decimal text of a count has no line feed in it. *)
Lemma fmt_plain (v : value) : Forall (fun c => Ascii.eqb c newline = false) (fmt v).
Proof.
  destruct v as [n|]; [|repeat constructor].
  unfold fmt, str_of_Z, txt.
  destruct (Z.to_int n) as [d|d]; cbn [NilZero.string_of_int NilZero.string_of_uint].
  - destruct d; try apply uint_plain; repeat constructor.
  - cbn; constructor; [reflexivity|].
    destruct d; try apply uint_plain; repeat constructor.
Qed.

(** *** What a patch writes *)

Lemma patched_writes (p : platform) (files : string -> option file) (path : string)
      (f : file) (new_content : text -> option text) (new : text) :
  files path = Some f -> readable f = true -> writable f = true ->
  new_content (data f) = Some new ->
  patched p files path new_content
  = set_file path (File true Writable (newline_out p new)) files.
Proof.
  unfold patched, writable; intros -> -> Hw ->.
  now destruct (access f).
Qed.

(** A patch that writes the text it read, on a file that has the line
    endings of the platform, leaves the files as they are, unless the
    write fails on the way. *)
Lemma patched_same (p : platform) (files : string -> option file) (path : string)
      (new_content : text -> option text) :
  (forall f new, files path = Some f -> new_content (data f) = Some new ->
                 new = data f /\ native p (bytes f) /\ forall n, access f <> Failing n) ->
  forall q, patched p files path new_content q = files q.
Proof.
  intros Hsame q; unfold patched.
  destruct (files path) as [f|] eqn:Hf; [|reflexivity].
  destruct (readable f) eqn:Hr; [|reflexivity].
  destruct (new_content (data f)) as [new|] eqn:Hn; [|reflexivity].
  destruct (Hsame f new eq_refl Hn) as (-> & Hnat & Hacc).
  destruct (access f) as [| |n] eqn:Ha; [|reflexivity|now destruct (Hacc n)].
  unfold set_file; destruct (String.eqb q path) eqn:E; [|reflexivity].
  apply String.eqb_eq in E; subst q; rewrite Hf.
  unfold data; rewrite Hnat.
  destruct f; cbn in *; now subst.
Qed.

Lemma set_file_rewritten (w w' : world) (path : string) (new : text) :
  fs w' = set_file path (File true Writable (newline_out (os w) new)) (fs w) ->
  rewritten w w' path new.
Proof.
  intros Hfs; unfold rewritten; rewrite Hfs; split.
  - eexists; split; [apply set_file_same | reflexivity].
  - intros p Hp; now apply set_file_other.
Qed.

(** The structured-data patch writes [yaml_new_content]. *)
Lemma update_yaml_file_writes (path : string) (v : value) (w : world) (f : file) (new : text) :
  fs w path = Some f -> readable f = true -> writable f = true ->
  yaml_new_content (data f) v = Some new ->
  rewritten w (snd (update_yaml_file path v w)) path new.
Proof.
  intros Hf Hr Hw Hnew.
  destruct (update_yaml_file_spec path v w) as (w' & -> & _ & _ & Hfs).
  apply set_file_rewritten; cbn [snd]; rewrite Hfs.
  exact (patched_writes (os w) (fs w) path f (fun c => yaml_new_content c v) new
           Hf Hr Hw Hnew).
Qed.

(** The HTML patch writes [html_new_content]. *)
Lemma update_index_html_writes (path : string) (v : value) (w : world) (f : file) (new : text) :
  fs w path = Some f -> readable f = true -> writable f = true ->
  html_new_content (data f) v = Some new ->
  rewritten w (snd (update_index_html path v w)) path new.
Proof.
  intros Hf Hr Hw Hnew.
  destruct (update_index_html_spec path v w) as (w' & -> & _ & _ & Hfs).
  apply set_file_rewritten; cbn [snd]; rewrite Hfs.
  exact (patched_writes (os w) (fs w) path f (fun c => html_new_content c v) new
           Hf Hr Hw Hnew).
Qed.

(** Replacing the field of one match changes the digits of the field
    only, in the bytes written as in the text. *)
Lemma field_replaced (p : platform) (ps : pattern) (s : text) (m : mobj) (v : value) :
  field_pattern ps -> search true ps s = Some m ->
  only_field_changed p (newline_out p s)
    (newline_out p (before m ++ expand ps (replacement v) m ++ after m)) m v.
Proof.
  intros Hps Hs.
  destruct (field_match true ps s m Hps Hs) as (g1 & g2 & g3 & Hp & Hne & Hdig & Hsplit).
  destruct (field_groups ps m g1 g2 g3 v Hps Hp) as (_ & _ & Hex).
  exists g1, g2, g3; repeat (split; [assumption|]).
  rewrite Hex; rewrite Hsplit at 1.
  rewrite !newline_out_app.
  rewrite (newline_out_plain p g2 (digits_plain g2 Hdig)).
  rewrite (newline_out_plain p (fmt v) (fmt_plain v)).
  now rewrite <- !app_assoc.
Qed.

(** A match whose field already reads as the new count is its own
    replacement. *)
Lemma field_unchanged (ps : pattern) (s : text) (m : mobj) (v : value) :
  field_pattern ps -> search true ps s = Some m ->
  group ps m 2 = fmt v -> expand ps (replacement v) m = whole m.
Proof.
  intros Hps Hs Hg.
  destruct (field_match true ps s m Hps Hs) as (g1 & g2 & g3 & Hp & _).
  destruct (field_groups ps m g1 g2 g3 v Hps Hp) as (Hg2 & Hw & Hex).
  rewrite Hex, Hw; congruence.
Qed.

Lemma finditer_loop_sound (ps : pattern) (fuel : nat) (s : text) (m : mobj) :
  List.In m (finditer_loop true fuel ps s) -> exists s', search true ps s' = Some m.
Proof.
  revert s; induction fuel as [|fuel IH]; intros s; cbn [finditer_loop]; [contradiction|].
  destruct (search true ps s) as [m0|] eqn:Hs; [|contradiction].
  intros [<- | Hin]; [now exists s | now apply (IH (after m0))].
Qed.

(** Replacing all the occurrences changes nothing when every field
    already reads as the new count. *)
Lemma sub_all_same (ps : pattern) (s : text) (v : value) :
  field_pattern ps ->
  Forall (eq (fmt v)) (map (fun m => group ps m 2) (finditer true ps s)) ->
  sub true ps (replacement v) 0 s = s.
Proof.
  intros Hps Hall; unfold sub, subn.
  apply (subn_loop_same true ps (replacement v) Hps); [lia|].
  rewrite Forall_map in Hall; rewrite Forall_forall in *; intros m Hm.
  destruct (finditer_loop_sound ps _ s m Hm) as (s' & Hs').
  apply (field_unchanged ps s' m v Hps Hs'); symmetry; now apply Hall.
Qed.

Lemma sub_first_same (ps : pattern) (s : text) (m : mobj) (v : value) :
  field_pattern ps -> search true ps s = Some m -> group ps m 2 = fmt v ->
  sub true ps (replacement v) 1 s = s.
Proof.
  intros Hps Hs Hg; rewrite (sub_first true ps _ s m Hs).
  rewrite (field_unchanged ps s m v Hps Hs Hg).
  now destruct (search_sound true ps s m Hs) as [<- _].
Qed.

Lemma sub_all_replaced (ps : pattern) (tpl : list titem) (s : text) :
  field_pattern ps -> replaced_all ps tpl s (sub true ps tpl 0 s).
Proof.
  intros Hps; unfold sub, subn; apply subn_loop_replaced_all; [assumption | lia].
Qed.

Lemma html_io_error_fs (w w' : world) (path : string) :
  fs w' = fs w -> html_io_error w' path = html_io_error w path.
Proof. unfold html_io_error; now intros ->. Qed.


(** * The claims *)

(** ** Fetching *)




(** C2, as the code has it: a document on which none of the three methods
    matches fails the attempt like any other error.  While the attempt is
    not the last one the loop goes on to a further fetch; the failure of the
    last attempt ends the process.  The failed attempt has sent one request
    and modified no file; five such documents in a row end the process with
    status 1 after five requests, every file being as it was. *)
Theorem parse_failure_is_retried (e : env) (w : world) :
  (forall id a rest,
     unparsed (html_parser e) (reply e id w 1) ->
     exists w1,
       requests w1 = S (requests w) /\ fs w1 = fs w
       /\ for_attempts e id (a :: rest) w =
          if a <? MAX_RETRIES then for_attempts e id rest w1 else (Exit 1%Z, w1))
  /\ ((forall k, 1 <= k <= 5 -> unparsed (html_parser e) (reply e SCHOLAR_ID w k)) ->
      fst (run e w) = 1%Z
      /\ requests (snd (run e w)) = 5 + requests w
      /\ fs (snd (run e w)) = fs w).
Proof.
  assert (Hfailed : forall id k, unparsed (html_parser e) (reply e id w k) ->
                                 failed e (reply e id w k)).
  { intros id k Hu; destruct (reply e id w k) as [|st body]; [contradiction|].
    destruct Hu as [Hst Hno].
    exists (if has_marker body then Blocked else CountNotFound).
    unfold attempt_result; rewrite Hst; exact (extract_no_match _ _ Hno). }
  split.
  - intros id a rest Hu; destruct (Hfailed id 1 Hu) as [err Herr].
    exact (step_fail e id a rest w err Herr).
  - intros Hall; apply run_fetch_exit; intros k Hk; apply Hfailed, Hall, Hk.
Qed.

Lemma parse_failure_is_retried_witness :
  (exists w1,
     requests w1 = 1 /\ fs w1 = Examples.no_files
     /\ for_attempts (Examples.after_empty_page Examples.count_page) SCHOLAR_ID [1; 2; 3; 4; 5]
          (Examples.fresh Examples.no_files) =
        if 1 <? MAX_RETRIES
        then for_attempts (Examples.after_empty_page Examples.count_page) SCHOLAR_ID
               [2; 3; 4; 5] w1
        else (Exit 1%Z, w1))
  /\ (fst (run (Examples.always Examples.empty_page) (Examples.fresh Examples.no_files)) = 1%Z
      /\ requests (snd (run (Examples.always Examples.empty_page)
                          (Examples.fresh Examples.no_files))) = 5 + 0
      /\ fs (snd (run (Examples.always Examples.empty_page)
                    (Examples.fresh Examples.no_files))) = Examples.no_files).
Proof.
  split.
  - apply (proj1 (parse_failure_is_retried (Examples.after_empty_page Examples.count_page)
                    (Examples.fresh Examples.no_files)) SCHOLAR_ID 1 [2; 3; 4; 5]).
    split; [reflexivity|]; repeat split; vm_compute; reflexivity.
  - apply (proj2 (parse_failure_is_retried (Examples.always Examples.empty_page)
                    (Examples.fresh Examples.no_files))).
    intros k Hk; split; [reflexivity|]; repeat split; vm_compute; reflexivity.
Defined.

(** C2, as stated, fails: after a first document on which no method
    matches, a second fetch is made and its count is returned; the process
    does not exit. *)
Lemma parse_failure_is_not_fatal :
  no_method_matches (Examples.plain_parser Examples.empty_page) Examples.empty_page
  /\ reply (Examples.after_empty_page Examples.count_page) SCHOLAR_ID
       (Examples.fresh Examples.no_files) 1 = Reply 200 Examples.empty_page
  /\ exists w1,
       get_citation_count_direct (Examples.after_empty_page Examples.count_page)
         SCHOLAR_ID (Examples.fresh Examples.no_files) = (Ret (VInt 5), w1)
       /\ requests w1 = 2.
Proof.
  split; [repeat split; vm_compute; reflexivity|].
  split; [reflexivity|].
  eexists; split; vm_compute; reflexivity.
Qed.

(** C7: the retry budget is five attempts.  After four failed attempts a
    fifth that succeeds returns its count, five requests having been sent;
    after five failed attempts the process exits with status 1, five
    requests having been sent and no sixth. *)
Theorem retry_budget_is_five (e : env) (w : world) :
  (forall id v,
     (forall k, 1 <= k <= 4 -> failed e (reply e id w k)) ->
     attempt_result e (reply e id w 5) = inl v ->
     exists w', get_citation_count_direct e id w = (Ret v, w')
                /\ requests w' = 5 + requests w)
  /\ ((forall k, 1 <= k <= 5 -> failed e (reply e SCHOLAR_ID w k)) ->
      fst (run e w) = 1%Z /\ requests (snd (run e w)) = 5 + requests w).
Proof.
  split.
  - intros id v Hfail Hok.
    destruct (attempts_fail_then_succeed e id 4 1 [] w v) as (w' & Hr & Hq & _);
      [unfold MAX_RETRIES; lia | assumption | assumption |].
    exists w'; split; [|assumption].
    unfold get_citation_count_direct; rewrite <- Hr; reflexivity.
  - intros Hfail; destruct (run_fetch_exit e w Hfail) as (Hs & Hq & _); now split.
Qed.

Lemma retry_budget_is_five_witness :
  (exists w', get_citation_count_direct (Examples.after_failures 4 Examples.count_page)
                SCHOLAR_ID (Examples.fresh Examples.no_files) = (Ret (VInt 5), w')
              /\ requests w' = 5 + 0)
  /\ (fst (run Examples.unreachable (Examples.fresh Examples.no_files)) = 1%Z
      /\ requests (snd (run Examples.unreachable (Examples.fresh Examples.no_files))) = 5 + 0).
Proof.
  split.
  - apply (proj1 (retry_budget_is_five (Examples.after_failures 4 Examples.count_page)
                    (Examples.fresh Examples.no_files))).
    + intros k Hk; exists RequestException.
      assert (Hcases : k = 1 \/ k = 2 \/ k = 3 \/ k = 4) by lia.
      destruct Hcases as [-> | [-> | [-> | ->]]]; reflexivity.
    + vm_compute; reflexivity.
  - apply (proj2 (retry_budget_is_five Examples.unreachable (Examples.fresh Examples.no_files))).
    intros k Hk; exists RequestException; reflexivity.
Defined.

(** ** Extracting *)

(** C3 fails on the code at a count with more than one separator: on a
    page with neither the table nor a styled cell, whose text reads
    "Citations 1,234,567", the pattern captures "1,234" and the attempt
    returns 1234, whereas the number written converts to 1234567. *)
Theorem fallback_stops_at_second_separator :
  find (txt "table") [(txt "id", txt "gsc_rsb_st")]
       (Examples.plain_parser Examples.million_page) = None
  /\ find_all (txt "td") [(txt "class", txt "gsc_rsb_std")]
              (Examples.plain_parser Examples.million_page) = []
  /\ option_map (fun m => group count_pattern m 1)
                (search true count_pattern Examples.million_page) = Some (txt "1,234")
  /\ snd (extract (Examples.plain_parser Examples.million_page) Examples.million_page)
     = inl (VInt 1234)
  /\ py_int (remove_commas (txt "1,234,567")) = Some 1234567%Z.
Proof. repeat split; vm_compute; reflexivity. Qed.

(** C4: on a document with the statistics table, if the first label row
    of the table (at least two cells, "citations" in the lower-cased text
    of the first) has a second cell whose text is made of digits and
    separators, extraction returns the number that the digits write. *)
Theorem structured_table_returns_count (soup : node) (body : text)
        (table row header all_time : node) (before after more : list node) :
  find (txt "table") [(txt "id", txt "gsc_rsb_st")] soup = Some table ->
  find_all (txt "tr") [] table = before ++ row :: after ->
  forallb (fun r => negb (label_row r)) before = true ->
  find_all (txt "td") [] row = header :: all_time :: more ->
  contains (txt "citations") (str_lower (get_text_strip header)) = true ->
  Forall (fun c => is_digit c = true \/ c = comma) (get_text_strip all_time) ->
  remove_commas (get_text_strip all_time) <> [] ->
  snd (extract soup body)
  = inl (VInt (decimal_value (remove_commas (get_text_strip all_time)))).
Proof.
  intros Htable Hrows Hbefore Hcells Hlabel Hchars Hne.
  unfold extract; rewrite Htable, Hrows.
  rewrite (scan_rows_first_label before after more row header all_time _ Hbefore Hcells Hlabel).
  unfold return_count.
  now rewrite (py_int_digits _ Hne (remove_commas_digits _ Hchars)).
Qed.

Lemma structured_table_returns_count_witness :
  snd (extract Examples.profile_soup Examples.profile_page) = inl (VInt 1234).
Proof.
  apply (structured_table_returns_count Examples.profile_soup Examples.profile_page
           Examples.stats_table
           (Examples.stats_row "Citations" "1,234" "567")
           (Examples.cell "gsc_rsb_sc1"
              [Tag (txt "a") [(txt "class", Multi [txt "gsc_rsb_f"])]
                   [NavigableString (txt "Citations")]])
           (Examples.cell "gsc_rsb_std" [NavigableString (txt "1,234")])
           [Examples.stats_head]
           [Examples.stats_row "h-index" "17" "12"; Examples.stats_row "i10-index" "21" "15"]
           [Examples.cell "gsc_rsb_std" [NavigableString (txt "567")]]).
  - vm_compute; reflexivity.
  - vm_compute; reflexivity.
  - vm_compute; reflexivity.
  - vm_compute; reflexivity.
  - vm_compute; reflexivity.
  - repeat (apply Forall_cons; [(left; reflexivity) || (right; reflexivity)|]).
    apply Forall_nil.
  - vm_compute; discriminate.
Defined.




(** ** Patching *)

(** C5: the looser pattern takes the first count field after the label,
    in whichever entry it stands.  In a file whose citation entry has its
    count before its name, between two other entries, the strict pattern
    does not match and the looser one runs on to the count of the next
    entry: the patch leaves the citation entry as it was and rewrites the
    count of the other entry. *)
Theorem fallback_patches_another_entry :
  search true yaml_pattern (Examples.content_yml_count_first "3") = None
  /\ option_map bytes
       (fs (snd (update_yaml_file CONTENT_FILE (VInt 57)
                   (Examples.fresh (Examples.site (Examples.content_yml_count_first "3")
                                                  (Examples.index_html "41")))))
           CONTENT_FILE)
     = Some (Examples.papers ++ Examples.scholar_count_first ++ Examples.talks "57")
  /\ Examples.talks "57" <> Examples.talks "3".
Proof.
  split; [vm_compute; reflexivity|].
  split; [vm_compute; reflexivity|].
  vm_compute; discriminate.
Qed.

(** C6: a file with other line endings than those of the platform is
    not written back as it was.  The script reads and writes its files in
    text mode: on a POSIX system a structured-data file with CR LF line
    endings whose count already is the new value is written back with LF
    line endings, one byte shorter for every line. *)
Theorem crlf_file_is_rewritten :
  yaml_fields (data (File true Writable (Examples.crlf (Examples.content_yml "57"))))
  = [fmt (VInt 57)]
  /\ option_map bytes
       (fs (snd (update_yaml_file CONTENT_FILE (VInt 57)
                   (Examples.fresh
                      (Examples.site (Examples.crlf (Examples.content_yml "57"))
                                     (Examples.index_html "57")))))
           CONTENT_FILE)
     = Some (Examples.content_yml "57")
  /\ length (Examples.crlf (Examples.content_yml "57"))
     = 9 + length (Examples.content_yml "57").
Proof.
  split; [vm_compute; reflexivity|].
  split; vm_compute; reflexivity.
Qed.

(** C10: when the strict pattern matches, the text written to the
    structured-data file has every occurrence of that pattern replaced, from
    left to right; when only the looser pattern matches, the first occurrence
    alone is replaced and the text after it is written back as it was,
    further occurrences included. *)
Theorem strict_pattern_replaces_every_occurrence (path : string) (v : value) (w : world)
        (f : file) :
  fs w path = Some f -> readable f = true -> writable f = true ->
  (forall m, search true yaml_pattern (data f) = Some m ->
     exists new, rewritten w (snd (update_yaml_file path v w)) path new
                 /\ replaced_all yaml_pattern (replacement v) (data f) new)
  /\ (search true yaml_pattern (data f) = None ->
      forall m, search true yaml_pattern2 (data f) = Some m ->
        rewritten w (snd (update_yaml_file path v w)) path
          (before m ++ expand yaml_pattern2 (replacement v) m ++ after m)).
Proof.
  intros Hf Hr Hw; split.
  - intros m Hs; eexists; split.
    + apply (update_yaml_file_writes path v w f _ Hf Hr Hw).
      unfold yaml_new_content; now rewrite Hs.
    + exact (sub_all_replaced yaml_pattern (replacement v) (data f) yaml_is_field_pattern).
  - intros Hnone m Hs.
    apply (update_yaml_file_writes path v w f _ Hf Hr Hw).
    unfold yaml_new_content; rewrite Hnone, Hs.
    now rewrite (sub_first true yaml_pattern2 _ (data f) m Hs).
Qed.

Lemma strict_pattern_replaces_every_occurrence_witness :
  (exists new,
     rewritten (Examples.fresh (Examples.site (Examples.content_yml_twice "41" "40")
                                              (Examples.index_html "41")))
       (snd (update_yaml_file CONTENT_FILE (VInt 57)
               (Examples.fresh (Examples.site (Examples.content_yml_twice "41" "40")
                                              (Examples.index_html "41")))))
       CONTENT_FILE new
     /\ replaced_all yaml_pattern (replacement (VInt 57))
          (Examples.content_yml_twice "41" "40") new)
  /\ rewritten (Examples.fresh (Examples.site (Examples.content_yml_loose_twice "41" "40")
                                              (Examples.index_html "41")))
       (snd (update_yaml_file CONTENT_FILE (VInt 57)
               (Examples.fresh (Examples.site (Examples.content_yml_loose_twice "41" "40")
                                              (Examples.index_html "41")))))
       CONTENT_FILE
       (Examples.content_yml_loose_twice "57" "40")
  /\ file_text
       (snd (update_yaml_file CONTENT_FILE (VInt 57)
               (Examples.fresh (Examples.site (Examples.content_yml_twice "41" "40")
                                              (Examples.index_html "41")))))
       CONTENT_FILE
     = Some (Examples.content_yml_twice "57" "57").
Proof.
  split; [|split; [|vm_compute; reflexivity]].
  - apply (proj1 (strict_pattern_replaces_every_occurrence CONTENT_FILE (VInt 57)
                    (Examples.fresh (Examples.site (Examples.content_yml_twice "41" "40")
                                                   (Examples.index_html "41")))
                    (File true Writable (Examples.content_yml_twice "41" "40"))
                    eq_refl eq_refl eq_refl)
             (Examples.first_match yaml_pattern (Examples.content_yml_twice "41" "40"))).
    vm_compute; reflexivity.
  - change (Examples.content_yml_loose_twice "57" "40")
      with (before (Examples.first_match yaml_pattern2
                      (Examples.content_yml_loose_twice "41" "40"))
            ++ expand yaml_pattern2 (replacement (VInt 57))
                 (Examples.first_match yaml_pattern2
                    (Examples.content_yml_loose_twice "41" "40"))
            ++ after (Examples.first_match yaml_pattern2
                        (Examples.content_yml_loose_twice "41" "40"))).
    apply (proj2 (strict_pattern_replaces_every_occurrence CONTENT_FILE (VInt 57)
                    (Examples.fresh (Examples.site (Examples.content_yml_loose_twice "41" "40")
                                                   (Examples.index_html "41")))
                    (File true Writable (Examples.content_yml_loose_twice "41" "40"))
                    eq_refl eq_refl eq_refl)).
    + vm_compute; reflexivity.
    + vm_compute; reflexivity.
Defined.

(** ** Orchestration *)

(** C8: when the structured-data file does not exist, its patch step
    prints the skip line and returns, changing nothing else; [main] goes on
    with the HTML patch; and unless that patch meets an I/O error the
    process ends with status 0. *)
Theorem missing_yaml_is_skipped (e : env) (w w0 w1 : world) (v : value) :
  announce e w = (Ret tt, w0) ->
  get_citation_count_direct e SCHOLAR_ID w0 = (Ret v, w1) ->
  fs w CONTENT_FILE = None ->
  update_yaml_file CONTENT_FILE v w1 = (Ret tt, said w1 [LYamlMissing CONTENT_FILE])
  /\ main e w = (update_index_html INDEX_FILE v ;; print LComplete)
                  (said w1 [LYamlMissing CONTENT_FILE])
  /\ (html_io_error w INDEX_FILE = false -> fst (run e w) = 0%Z).
Proof.
  intros Ha Hfetch Hmissing.
  assert (Hf0 : fs w0 = fs w).
  { destruct (announce_spec e w) as (ls & Hls); rewrite Hls in Ha; now injection Ha as <-. }
  assert (Hf1 : fs w1 = fs w).
  { rewrite <- Hf0; change w1 with (snd (Ret v, w1)); rewrite <- Hfetch.
    apply for_attempts_fs. }
  assert (Hyaml : update_yaml_file CONTENT_FILE v w1
                  = (Ret tt, said w1 [LYamlMissing CONTENT_FILE])).
  { assert (Hm1 : fs w1 CONTENT_FILE = None) by (now rewrite Hf1).
    unfold update_yaml_file, bind, path_exists, print, said.
    now rewrite Hm1. }
  assert (Hmain : main e w = (update_index_html INDEX_FILE v ;; print LComplete)
                               (said w1 [LYamlMissing CONTENT_FILE])).
  { unfold main; unfold bind at 1; rewrite Ha; unfold bind at 1; rewrite Hfetch.
    unfold bind at 1; now rewrite Hyaml. }
  split; [exact Hyaml|]; split; [exact Hmain|].
  intros Hio; unfold run; rewrite Hmain; unfold bind at 1.
  destruct (update_index_html_spec INDEX_FILE v (said w1 [LYamlMissing CONTENT_FILE]))
    as (w3 & -> & _).
  rewrite (html_io_error_fs w (said w1 [LYamlMissing CONTENT_FILE]) INDEX_FILE Hf1), Hio.
  reflexivity.
Qed.

Lemma missing_yaml_is_skipped_witness :
  exists w1,
    update_yaml_file CONTENT_FILE (VInt 5) w1 = (Ret tt, said w1 [LYamlMissing CONTENT_FILE])
    /\ main (Examples.always Examples.count_page)
         (Examples.fresh (Examples.html_only (Examples.index_html "41")))
       = (update_index_html INDEX_FILE (VInt 5) ;; print LComplete)
           (said w1 [LYamlMissing CONTENT_FILE])
    /\ fst (run (Examples.always Examples.count_page)
              (Examples.fresh (Examples.html_only (Examples.index_html "41")))) = 0%Z.
Proof.
  pose (e := Examples.always Examples.count_page).
  pose (w := Examples.fresh (Examples.html_only (Examples.index_html "41"))).
  pose (w0 := snd (announce e w)).
  pose (w1 := snd (get_citation_count_direct e SCHOLAR_ID w0)).
  destruct (missing_yaml_is_skipped e w w0 w1 (VInt 5)) as (Hyaml & Hmain & Hstatus).
  - vm_compute; reflexivity.
  - vm_compute; reflexivity.
  - reflexivity.
  - exists w1; split; [exact Hyaml|]; split; [exact Hmain|].
    apply Hstatus; vm_compute; reflexivity.
Defined.

Import Further.

(** * Further properties *)

(** ** The patch steps *)

Lemma patched_other (pf : platform) (files : string -> option file) (path p : string)
      (new_content : text -> option text) :
  p <> path -> patched pf files path new_content p = files p.
Proof.
  intros Hp; unfold patched.
  destruct (files path) as [f|]; [|reflexivity].
  destruct (readable f); [|reflexivity].
  destruct (new_content (data f)); [|reflexivity].
  destruct (access f); try reflexivity; now apply set_file_other.
Qed.

(** X1: the patch of the structured-data file never raises and never
    ends the process, whatever the state of the file (missing, unreadable,
    read-only, without the entry): it returns, having sent no request and
    left every other file as it was. *)
Theorem yaml_patch_always_returns (path : string) (v : value) (w : world) :
  exists w',
    update_yaml_file path v w = (Ret tt, w')
    /\ requests w' = requests w
    /\ forall p, p <> path -> fs w' p = fs w p.
Proof.
  destruct (update_yaml_file_spec path v w) as (w' & Hu & Hq & _ & Hfs).
  exists w'; split; [exact Hu|]; split; [exact Hq|].
  intros p Hp; rewrite Hfs; now apply patched_other.
Qed.

(** X2: the patch of the HTML file never lets an exception out; it ends
    the process, with status 1, exactly when the file cannot be read (a
    missing file included) or has the attribute and cannot be written;
    otherwise it returns.  Every other file is left as it was.  The file
    itself is left as it was when it cannot be read or when [open] for
    writing is refused; when the write fails after [open] has truncated the
    file, the old content is lost: the file holds the first bytes of the new
    text, as many as the device took. *)
Theorem html_patch_exits_on_io_error (path : string) (v : value) (w : world) :
  exists w',
    update_index_html path v w
    = (if html_io_error w path then Exit 1%Z else Ret tt, w')
    /\ (forall p, p <> path -> fs w' p = fs w p)
    /\ ((forall f, fs w path = Some f -> readable f = false \/ access f = Refused) ->
        fs w' path = fs w path)
    /\ (forall f n new,
          fs w path = Some f -> readable f = true -> access f = Failing n ->
          html_new_content (data f) v = Some new ->
          html_io_error w path = true
          /\ option_map bytes (fs w' path) = Some (firstn n (newline_out (os w) new))).
Proof.
  destruct (update_index_html_spec path v w) as (w' & Hu & _ & _ & Hfs).
  exists w'; split; [exact Hu|]; split; [|split].
  - intros p Hp; rewrite Hfs; now apply patched_other.
  - intros Hno; rewrite Hfs; unfold patched.
    destruct (fs w path) as [f|] eqn:Hf; [|exact Hf].
    destruct (Hno f eq_refl) as [-> | Ha]; [exact Hf|].
    destruct (readable f); [|exact Hf].
    destruct (html_new_content (data f) v); [|exact Hf].
    now rewrite Ha.
  - intros f n new Hf Hr Ha Hnew; split.
    + unfold html_io_error, writable; rewrite Hf, Hr, Ha.
      unfold html_new_content in Hnew.
      now destruct (search true html_pattern (data f)).
    + rewrite Hfs; unfold patched; rewrite Hf, Hr, Hnew, Ha.
      now rewrite set_file_same.
Qed.

(** X3: when the patterns do not match the text of a readable file, the
    patch writes nothing: it prints its warning and returns, and the world
    is otherwise what it was, for the structured-data file (neither of its
    two patterns) as for the HTML file. *)
Theorem patch_without_match_writes_nothing (path : string) (v : value) (w : world) (f : file) :
  fs w path = Some f -> readable f = true ->
  (search true yaml_pattern (data f) = None ->
   search true yaml_pattern2 (data f) = None ->
   update_yaml_file path v w = (Ret tt, said w [LYamlEntryNotFound path]))
  /\ (search true html_pattern (data f) = None ->
      update_index_html path v w = (Ret tt, said w [LIndexEntryNotFound path])).
Proof.
  intros Hf Hr; split.
  - intros H1 H2.
    unfold update_yaml_file, bind, path_exists, try_except, read_file, print, said.
    rewrite Hf; cbn [negb]; rewrite Hf, Hr, H1, H2; reflexivity.
  - intros H1.
    unfold update_index_html, bind, try_except, read_file, print, said.
    rewrite Hf, Hr, H1; reflexivity.
Qed.

Lemma patch_without_match_writes_nothing_witness :
  update_yaml_file CONTENT_FILE (VInt 57)
    (Examples.fresh (Examples.site Examples.papers Examples.papers))
  = (Ret tt, said (Examples.fresh (Examples.site Examples.papers Examples.papers))
               [LYamlEntryNotFound CONTENT_FILE])
  /\ update_index_html INDEX_FILE (VInt 57)
       (Examples.fresh (Examples.site Examples.papers Examples.papers))
     = (Ret tt, said (Examples.fresh (Examples.site Examples.papers Examples.papers))
                  [LIndexEntryNotFound INDEX_FILE]).
Proof.
  split.
  - apply (proj1 (patch_without_match_writes_nothing CONTENT_FILE (VInt 57)
                    (Examples.fresh (Examples.site Examples.papers Examples.papers))
                    (File true Writable Examples.papers) eq_refl eq_refl));
      vm_compute; reflexivity.
  - apply (proj2 (patch_without_match_writes_nothing INDEX_FILE (VInt 57)
                    (Examples.fresh (Examples.site Examples.papers Examples.papers))
                    (File true Writable Examples.papers) eq_refl eq_refl));
      vm_compute; reflexivity.
Defined.

(** ** The three methods *)

Lemma return_count_digits (t : text) :
  Forall (fun c => is_digit c = true \/ c = comma) t -> remove_commas t <> [] ->
  snd (return_count t) = inl (VInt (decimal_value (remove_commas t))).
Proof.
  intros Hchars Hne; unfold return_count.
  now rewrite (py_int_digits _ Hne (remove_commas_digits _ Hchars)).
Qed.

(** Without the table, or without a label row in it, method 1 hands over
    to method 2. *)
Lemma extract_without_label_row (soup : node) (body : text) :
  match find (txt "table") [(txt "id", txt "gsc_rsb_st")] soup with
  | Some t => forallb (fun r => negb (label_row r)) (find_all (txt "tr") [] t) = true
  | None => True
  end ->
  extract soup body = styled_cells soup body.
Proof.
  unfold extract.
  destruct (find (txt "table") _ soup) as [t|]; [|reflexivity].
  apply scan_rows_no_label.
Qed.

(** X4: when the document has no statistics table, or a table without a
    label row, and has cells with the style marker, extraction returns the
    number written in the first of these cells (digits and separators),
    whatever the other cells and the raw text hold. *)
Theorem styled_cell_returns_count (soup : node) (body : text) (first : node)
        (others : list node) :
  match find (txt "table") [(txt "id", txt "gsc_rsb_st")] soup with
  | Some t => forallb (fun r => negb (label_row r)) (find_all (txt "tr") [] t) = true
  | None => True
  end ->
  find_all (txt "td") [(txt "class", txt "gsc_rsb_std")] soup = first :: others ->
  Forall (fun c => is_digit c = true \/ c = comma) (get_text_strip first) ->
  remove_commas (get_text_strip first) <> [] ->
  snd (extract soup body)
  = inl (VInt (decimal_value (remove_commas (get_text_strip first)))).
Proof.
  intros Htable Hcells Hchars Hne.
  rewrite (extract_without_label_row soup body Htable).
  unfold styled_cells; rewrite Hcells.
  exact (return_count_digits _ Hchars Hne).
Qed.

Lemma styled_cell_returns_count_witness :
  snd (extract cells_soup cells_page) = inl (VInt 2048).
Proof.
  apply (styled_cell_returns_count cells_soup cells_page
           (Examples.cell "gsc_rsb_std" [NavigableString (txt " 2,048 ")])
           [Examples.cell "gsc_rsb_std" [NavigableString (txt "512")]]).
  - exact I.
  - vm_compute; reflexivity.
  - repeat (apply Forall_cons; [(left; reflexivity) || (right; reflexivity)|]).
    apply Forall_nil.
  - vm_compute; discriminate.
Defined.

(** X5: a text that [int] rejects is not recovered by a later method.
    When the second cell of the first label row is not a number the
    extraction raises the conversion error, and so does it when, method 1
    having found no label row, the first styled cell is not a number: the
    remaining methods are not tried, whatever they would find. *)
Theorem conversion_error_ends_extraction (soup : node) (body : text) :
  (forall table row header all_time before after more,
     find (txt "table") [(txt "id", txt "gsc_rsb_st")] soup = Some table ->
     find_all (txt "tr") [] table = before ++ row :: after ->
     forallb (fun r => negb (label_row r)) before = true ->
     find_all (txt "td") [] row = header :: all_time :: more ->
     contains (txt "citations") (str_lower (get_text_strip header)) = true ->
     py_int (remove_commas (get_text_strip all_time)) = None ->
     extract soup body = ([], inr ValueError))
  /\ (forall first others,
        match find (txt "table") [(txt "id", txt "gsc_rsb_st")] soup with
        | Some t => forallb (fun r => negb (label_row r)) (find_all (txt "tr") [] t) = true
        | None => True
        end ->
        find_all (txt "td") [(txt "class", txt "gsc_rsb_std")] soup = first :: others ->
        py_int (remove_commas (get_text_strip first)) = None ->
        extract soup body = ([], inr ValueError)).
Proof.
  split.
  - intros table row header all_time before after more Ht Hrows Hb Hcells Hlabel Hint.
    unfold extract; rewrite Ht, Hrows.
    rewrite (scan_rows_first_label before after more row header all_time _ Hb Hcells Hlabel).
    unfold return_count; now rewrite Hint.
  - intros first others Htable Hcells Hint.
    rewrite (extract_without_label_row soup body Htable).
    unfold styled_cells; rewrite Hcells.
    unfold return_count; now rewrite Hint.
Qed.

Lemma conversion_error_ends_extraction_witness :
  extract dash_soup dash_page = ([], inr ValueError)
  /\ extract dash_cell_soup dash_cell_page = ([], inr ValueError)
  /\ snd (styled_cells dash_soup dash_page) = inl (VInt 12)
  /\ snd (regex_fallback dash_cell_page) = inl (VInt 12).
Proof.
  split; [|split; [|split; vm_compute; reflexivity]].
  - apply (proj1 (conversion_error_ends_extraction dash_soup dash_page)
             (Tag (txt "table") [(txt "id", Single (txt "gsc_rsb_st"))]
                [ Tag (txt "tr") []
                    [ Tag (txt "td") [] [NavigableString (txt "Citations")];
                      Tag (txt "td") [] [NavigableString (txt "n/a")] ] ])
             (Tag (txt "tr") []
                [ Tag (txt "td") [] [NavigableString (txt "Citations")];
                  Tag (txt "td") [] [NavigableString (txt "n/a")] ])
             (Tag (txt "td") [] [NavigableString (txt "Citations")])
             (Tag (txt "td") [] [NavigableString (txt "n/a")])
             [] [] []); vm_compute; reflexivity.
  - apply (proj2 (conversion_error_ends_extraction dash_cell_soup dash_cell_page)
             (Examples.cell "gsc_rsb_std" [NavigableString (txt "n/a")]) []).
    + exact I.
    + vm_compute; reflexivity.
    + vm_compute; reflexivity.
Defined.

(** ** The fallback pattern on any text *)

(** A literal under IGNORECASE matches the text whose lower-case form
    starts with the lower-case literal. *)
Lemma exec_lits (p s : text) :
  exec true (lits p) s
  = if starts_with (str_lower p) (str_lower s) then [length p] else [].
Proof.
  revert s; induction p as [|c p IH]; intros s; [reflexivity|].
  destruct s as [|x s]; [reflexivity|].
  cbn [lits exec str_lower map starts_with length]; unfold chr_eq.
  destruct (Ascii.eqb (lower c) (lower x)); cbn [andb flat_map skipn]; [|reflexivity].
  rewrite app_nil_r; fold (str_lower p) (str_lower s); rewrite IH.
  now destruct (starts_with (str_lower p) (str_lower s)).
Qed.

Lemma hd_error_flat_map_skip (A B : Type) (f : A -> list B) (l1 l2 : list A) :
  (forall x, List.In x l1 -> f x = []) ->
  hd_error (flat_map f (l1 ++ l2)) = hd_error (flat_map f l2).
Proof.
  induction l1 as [|x l1 IH]; intros H; [reflexivity|].
  cbn [app flat_map]; rewrite (H x (or_introl eq_refl)); apply IH.
  intros y Hy; apply H; now right.
Qed.

Lemma hd_error_flat_map_cons (A B : Type) (f : A -> list B) (x : A) (l : list A) (y : B) :
  hd_error (f x) = Some y -> hd_error (flat_map f (x :: l)) = Some y.
Proof. cbn [flat_map]; destruct (f x); [discriminate | easy]. Qed.

Lemma hd_error_map (A B : Type) (g : A -> B) (l : list A) :
  hd_error (map g l) = option_map g (hd_error l).
Proof. now destruct l. Qed.

Lemma hd_error_rev_seq (n : nat) : hd_error (rev (seq 1 (S n))) = Some (S n).
Proof. rewrite seq_S, rev_app_distr; reflexivity. Qed.

Lemma span_any (s : text) : span true CAny s = length s.
Proof. induction s as [|c s IH]; [reflexivity | cbn [span in_cls length]; now rewrite IH]. Qed.

Lemma span_digits (ds t : text) :
  forallb is_digit ds = true -> no_digit_next t = true ->
  span true CDigit (ds ++ t) = length ds.
Proof.
  intros Hds Ht; induction ds as [|c ds IH]; cbn [app].
  - destruct t as [|x t]; [reflexivity|]; cbn [span in_cls no_digit_next] in *.
    now destruct (is_digit x).
  - cbn [forallb] in Hds; apply andb_true_iff in Hds as [Hc Hds].
    cbn [span in_cls length]; now rewrite Hc, IH.
Qed.

(** The longest run of digits comes first. *)
Lemma exec_digits_head (ds t : text) :
  ds <> [] -> forallb is_digit ds = true -> no_digit_next t = true ->
  exists l, exec true digits (ds ++ t) = length ds :: l.
Proof.
  intros Hne Hds Ht; unfold digits; cbn [exec]; rewrite (span_digits ds t Hds Ht).
  destruct ds as [|c ds]; [congruence|]; cbn [length].
  replace (S (S (length ds)) - 1) with (S (length ds)) by lia.
  rewrite seq_S, rev_app_distr; eexists; reflexivity.
Qed.

Lemma exec_digits_none (t : text) :
  no_digit_next t = true -> exec true digits t = [].
Proof.
  intros Ht; unfold digits; cbn [exec].
  replace (span true CDigit t) with 0; [reflexivity|].
  destruct t as [|x t]; [reflexivity|]; cbn [span in_cls no_digit_next] in *.
  now destruct (is_digit x).
Qed.

Lemma exec_separator_none (t : text) :
  no_group_next t = true -> exec true (Cat (Lit comma) digits) t = [].
Proof.
  intros Ht; destruct t as [|c t]; [reflexivity|]; cbn [exec].
  destruct (chr_eq true comma c) eqn:Hc; [|reflexivity].
  apply comma_only_matches_comma in Hc; subst c.
  cbn [flat_map skipn]; rewrite exec_digits_none; [reflexivity|].
  destruct t as [|d t]; [reflexivity|].
  cbn [no_group_next no_digit_next] in *; now rewrite Ascii.eqb_refl in Ht.
Qed.

Lemma exec_cat (ic : bool) (r1 r2 : regex) (s : text) :
  exec ic (Cat r1 r2) s
  = flat_map (fun n => map (Nat.add n) (exec ic r2 (skipn n s))) (exec ic r1 s).
Proof. reflexivity. Qed.

Lemma exec_opt (ic : bool) (r : regex) (s : text) :
  exec ic (Opt r) s = exec ic r s ++ [0].
Proof. reflexivity. Qed.

Lemma exec_comma (t : text) : exec true (Lit comma) (comma :: t) = [1].
Proof. reflexivity. Qed.

(** The group takes the digits and, when a separator and digits follow,
    these too. *)
Lemma exec_count_group_head (ds grp tail : text) :
  ds <> [] -> forallb is_digit ds = true -> one_group grp ->
  no_digit_next tail = true -> no_group_next tail = true ->
  hd_error (exec true count_group (ds ++ grp ++ tail)) = Some (length (ds ++ grp)).
Proof.
  intros Hne Hds Hgrp Htail Hsep; unfold count_group; rewrite exec_cat.
  assert (Hnext : no_digit_next (grp ++ tail) = true).
  { destruct Hgrp as [-> | (ds2 & -> & _)]; [exact Htail | reflexivity]. }
  destruct (exec_digits_head ds (grp ++ tail) Hne Hds Hnext) as (l & ->).
  apply hd_error_flat_map_cons; rewrite hd_error_map, exec_opt.
  rewrite skipn_app, skipn_all, Nat.sub_diag; cbn [app skipn].
  rewrite length_app.
  destruct Hgrp as [-> | (ds2 & -> & Hne2 & Hds2)].
  - cbn [app]; rewrite (exec_separator_none tail Hsep); reflexivity.
  - cbn [app]; rewrite exec_cat, exec_comma; cbn [flat_map skipn].
    destruct (exec_digits_head ds2 tail Hne2 Hds2 Htail) as (l2 & ->).
    cbn [map app hd_error option_map length]; f_equal; lia.
Qed.

Lemma exec_count_group_none (t : text) :
  no_digit_next t = true -> exec true count_group t = [].
Proof.
  intros Ht; unfold count_group; rewrite exec_cat; now rewrite (exec_digits_none t Ht).
Qed.

Lemma starts_with_app (p s : text) : starts_with p (p ++ s) = true.
Proof.
  induction p as [|c p IH]; [reflexivity|].
  cbn [app starts_with]; now rewrite Ascii.eqb_refl, IH.
Qed.

Lemma no_digit_next_skipn (mid t : text) (j : nat) :
  forallb (fun c => negb (is_digit c)) mid = true -> j < length mid ->
  no_digit_next (skipn j (mid ++ t)) = true.
Proof.
  revert j; induction mid as [|c mid IH]; intros j Hmid Hj; [cbn in Hj; lia|].
  cbn [forallb] in Hmid; apply andb_true_iff in Hmid as [Hc Hmid].
  destruct j as [|j]; [exact Hc|].
  cbn [app skipn]; apply IH; [assumption | cbn in Hj; lia].
Qed.

Lemma exec_pieces_capture (r : regex) (s : text) :
  exec_pieces true [Capture r] s = map (fun n => [n]) (exec true r s).
Proof.
  cbn [exec_pieces piece_regex]; induction (exec true r s) as [|n l IH]; [reflexivity|].
  simpl in *; now f_equal.
Qed.

Lemma exec_pieces_cons (p : piece) (ps : pattern) (s : text) :
  exec_pieces true (p :: ps) s
  = flat_map (fun n => map (cons n) (exec_pieces true ps (skipn n s)))
             (exec true (piece_regex p) s).
Proof. reflexivity. Qed.

(** At an occurrence of the word, the pattern runs on to the first digit
    and captures the number that starts there. *)
Lemma match_at_count (w mid ds grp tail : text) :
  str_lower w = txt "citations" ->
  forallb (fun c => negb (is_digit c)) mid = true ->
  ds <> [] -> forallb is_digit ds = true -> one_group grp ->
  no_digit_next tail = true -> no_group_next tail = true ->
  match_at true count_pattern (w ++ mid ++ ds ++ grp ++ tail)
  = Some [length (w ++ mid); length (ds ++ grp)].
Proof.
  intros Hw Hmid Hne Hds Hgrp Htail Hsep.
  assert (Hlen : length w = 9).
  { change 9 with (length (txt "citations")); rewrite <- Hw; unfold str_lower.
    now rewrite length_map. }
  set (u := mid ++ ds ++ grp ++ tail).
  unfold match_at, count_pattern; rewrite exec_pieces_cons; cbn [piece_regex].
  rewrite exec_cat, exec_lits.
  replace (starts_with (str_lower (txt "Citations")) (str_lower (w ++ u))) with true.
  2:{ unfold str_lower at 2; rewrite map_app; fold (str_lower w); rewrite Hw.
      symmetry; apply (starts_with_app (txt "citations")). }
  cbn [flat_map]; rewrite app_nil_r.
  change (length (txt "Citations")) with 9.
  replace (skipn 9 (w ++ u)) with u
    by (rewrite skipn_app, skipn_all2, Hlen by lia; reflexivity).
  cbn [exec]; rewrite span_any, Nat.sub_0_r.
  replace (S (length u)) with (length mid + S (length u - length mid))
    by (unfold u; rewrite length_app; lia).
  rewrite seq_app, map_app, Nat.add_0_l; cbn [seq map].
  rewrite hd_error_flat_map_skip.
  - apply hd_error_flat_map_cons.
    replace (skipn (9 + length mid) (w ++ u)) with (ds ++ grp ++ tail).
    2:{ rewrite skipn_app, skipn_all2, Hlen by lia.
        replace (9 + length mid - 9) with (length mid) by lia.
        unfold u; rewrite skipn_app, skipn_all, Nat.sub_diag; reflexivity. }
    fold count_group; rewrite exec_pieces_capture, !hd_error_map.
    rewrite (exec_count_group_head ds grp tail Hne Hds Hgrp Htail Hsep).
    cbn [option_map]; now rewrite (length_app w mid), Hlen.
  - intros n Hn; apply in_map_iff in Hn as (j & <- & Hj); apply in_seq in Hj.
    replace (skipn (9 + j) (w ++ u)) with (skipn j u).
    2:{ rewrite (skipn_app (9 + j) w u).
        rewrite (skipn_all2 (n := 9 + j) w) by lia.
        rewrite Hlen; replace (9 + j - 9) with j by lia; reflexivity. }
    fold count_group; rewrite exec_pieces_capture.
    rewrite exec_count_group_none; [reflexivity|].
    unfold u; apply no_digit_next_skipn; [assumption | lia].
Qed.

Lemma starts_with_shorter (p x y : text) :
  starts_with p (x ++ y) = true -> length p <= length x -> starts_with p x = true.
Proof.
  revert x; induction p as [|c p IH]; intros x H Hlen; [reflexivity|].
  destruct x as [|a x]; [cbn in Hlen; lia|].
  cbn [app starts_with] in *; apply andb_true_iff in H as [-> H].
  apply IH; [assumption | cbn in Hlen; lia].
Qed.

(** Without the word at its head, a text is no match of the pattern. *)
Lemma match_at_needs_word (s : text) :
  starts_with (txt "citations") (str_lower s) = false ->
  match_at true count_pattern s = None.
Proof.
  intros H; unfold match_at, count_pattern; rewrite exec_pieces_cons; cbn [piece_regex].
  rewrite exec_cat, exec_lits.
  change (str_lower (txt "Citations")) with (txt "citations"); now rewrite H.
Qed.

Lemma search_needs_word (s : text) :
  contains (txt "citations") (str_lower s) = false ->
  search true count_pattern s = None.
Proof.
  induction s as [|c s IH]; intros H.
  - cbn [search]; rewrite match_at_needs_word; [reflexivity|].
    cbn [str_lower map contains] in H; now apply orb_false_iff in H as [H _].
  - cbn [str_lower map contains] in H; apply orb_false_iff in H as [H1 H2].
    cbn [search]; rewrite (match_at_needs_word (c :: s) H1).
    fold (str_lower s) in H2; now rewrite (IH H2).
Qed.

(** The search passes over a prefix in which the word does not start. *)
Lemma search_passes_prefix (pre w rest : text) (m : mobj) :
  contains (txt "citations") (str_lower pre ++ txt "citation") = false ->
  str_lower w = txt "citations" ->
  search true count_pattern (w ++ rest) = Some m ->
  search true count_pattern (pre ++ w ++ rest)
  = Some (MObj (pre ++ before m) (parts m) (after m)).
Proof.
  intros Hpre Hw Hm; induction pre as [|c pre IH].
  - cbn [app]; rewrite Hm; now destruct m.
  - cbn [str_lower map app contains] in Hpre; apply orb_false_iff in Hpre as [H1 H2].
    fold (str_lower pre) in H1, H2.
    cbn [app search]; rewrite match_at_needs_word.
    + rewrite (IH H2); reflexivity.
    + destruct (starts_with (txt "citations") (str_lower (c :: pre ++ w ++ rest))) eqn:E;
        [|reflexivity].
      exfalso.
      assert (Hsplit : str_lower (c :: pre ++ w ++ rest)
                       = (lower c :: str_lower pre ++ txt "citation")
                         ++ txt "s" ++ str_lower rest).
      { unfold str_lower; cbn [map app]; rewrite !map_app.
        fold (str_lower w); rewrite Hw.
        change (txt "citations") with (txt "citation" ++ txt "s").
        now rewrite <- !app_assoc. }
      rewrite Hsplit in E; apply starts_with_shorter in E.
      * cbn [str_lower map] in H1; fold (str_lower pre) in H1; congruence.
      * cbn [length]; rewrite length_app; cbn; lia.
Qed.

Lemma firstn_length_app (a b : text) : firstn (length a) (a ++ b) = a.
Proof. induction a as [|c a IH]; [reflexivity | cbn; now rewrite IH]. Qed.

Lemma skipn_length_app (a b : text) : skipn (length a) (a ++ b) = b.
Proof. induction a as [|c a IH]; [reflexivity | exact IH]. Qed.

Lemma forallb_digits (ds : text) :
  forallb is_digit ds = true -> Forall (fun c => is_digit c = true \/ c = comma) ds.
Proof.
  rewrite forallb_forall, Forall_forall; intros H c Hc; left; now apply H.
Qed.

Lemma one_group_chars (grp : text) :
  one_group grp -> Forall (fun c => is_digit c = true \/ c = comma) grp.
Proof.
  intros [-> | (ds2 & -> & _ & Hds2)]; [constructor|].
  constructor; [now right | now apply forallb_digits].
Qed.

(** X6: the fallback reads the first number after the first "citations".
    On a text that has the word, in any letter case, for the first time
    after [pre], then [mid] without a digit, then digits, possibly one
    separator with digits after it, and then neither a digit nor a separator
    with a digit, the fallback returns the number that these digits write,
    the separator left out. *)
Theorem fallback_reads_first_number (pre w mid ds grp tail : text) :
  contains (txt "citations") (str_lower pre ++ txt "citation") = false ->
  str_lower w = txt "citations" ->
  forallb (fun c => negb (is_digit c)) mid = true ->
  ds <> [] -> forallb is_digit ds = true -> one_group grp ->
  no_digit_next tail = true -> no_group_next tail = true ->
  regex_fallback (pre ++ w ++ mid ++ ds ++ grp ++ tail)
  = ([LFetched (decimal_value (remove_commas (ds ++ grp)))],
     inl (VInt (decimal_value (remove_commas (ds ++ grp))))).
Proof.
  intros Hpre Hw Hmid Hne Hds Hgrp Htail Hsep.
  pose proof (match_at_count w mid ds grp tail Hw Hmid Hne Hds Hgrp Htail Hsep) as Hm.
  assert (Hs : search true count_pattern (w ++ mid ++ ds ++ grp ++ tail)
               = Some (MObj [] [w ++ mid; ds ++ grp] tail)).
  { destruct w as [|c w]; [discriminate|].
    cbn [app search] in *; rewrite Hm; cbn [cut].
    change (c :: w ++ mid ++ ds ++ grp ++ tail) with ((c :: w) ++ mid ++ ds ++ grp ++ tail).
    rewrite (app_assoc (c :: w) mid), (app_assoc ds grp).
    now rewrite firstn_length_app, !skipn_length_app, firstn_length_app. }
  unfold regex_fallback.
  rewrite (search_passes_prefix pre w _ _ Hpre Hw Hs).
  unfold group; cbn [parts count_pattern captures is_capture Nat.sub nth].
  unfold return_count; rewrite py_int_digits; [reflexivity | |].
  - destruct ds as [|d ds]; [congruence|].
    cbn [forallb] in Hds; apply andb_true_iff in Hds as [Hd _].
    cbn [app remove_commas filter].
    destruct (digit_is_plain d Hd) as (_ & _ & _ & _ & _ & ->); discriminate.
  - apply remove_commas_digits, Forall_app; split;
      [now apply forallb_digits | now apply one_group_chars].
Qed.

Lemma fallback_reads_first_number_witness :
  regex_fallback (txt "Cited by 3 authors. CITATIONS (all): 1,234 since 2019")
  = ([LFetched 1234], inl (VInt 1234)).
Proof.
  apply (fallback_reads_first_number (txt "Cited by 3 authors. ") (txt "CITATIONS")
           (txt " (all): ") (txt "1") (txt ",234") (txt " since 2019")).
  - vm_compute; reflexivity.
  - vm_compute; reflexivity.
  - vm_compute; reflexivity.
  - discriminate.
  - vm_compute; reflexivity.
  - right; exists (txt "234"); split; [reflexivity|]; split; [discriminate | reflexivity].
  - reflexivity.
  - reflexivity.
Defined.

(** X7: the fallback finds nothing on a text without the word: when it
    returns a count, the lower-cased text has "citations" in it. *)
Theorem fallback_needs_the_word (body : text) (v : value) :
  snd (regex_fallback body) = inl v ->
  contains (txt "citations") (str_lower body) = true.
Proof.
  intros Hv; destruct (contains (txt "citations") (str_lower body)) eqn:E; [reflexivity|].
  unfold regex_fallback in Hv; rewrite (search_needs_word body E) in Hv.
  destruct (_ || _); discriminate.
Qed.

Lemma fallback_needs_the_word_witness :
  contains (txt "citations") (str_lower Examples.count_page) = true.
Proof.
  apply (fallback_needs_the_word Examples.count_page (VInt 5)).
  vm_compute; reflexivity.
Defined.

(** ** The fetch loop, in general *)

Lemma attempt_body_effect (e : env) (id : text) (a : nat) (w : world) :
  exists w1,
    attempt_body e id a w = (to_outcome (attempt_result e (reply e id w 1)), w1)
    /\ attempted e a w w1.
Proof.
  unfold attempt_body, reply, request_of, attempt_result, attempted, delay, bind, print,
    sleep, requests_get, raise_for_status, perform, raise, ret.
  destruct (1 <? a); simpl;
    destruct (scraper_api_key e) as [[|c k]|]; simpl;
    match goal with
    | |- context [http_get e ?n ?r] => destruct (http_get e n r) as [|st body]
    end; simpl;
    try (eexists; split; [reflexivity | repeat split]);
    destruct ((400 <=? st)%Z && (st <? 600)%Z); simpl;
    try (eexists; split; [reflexivity | repeat split]);
    destruct (snd (extract (html_parser e body) body));
    eexists; split; try reflexivity; repeat split.
Qed.

(** One turn of the loop. *)
Lemma loop_step (e : env) (id : text) (a : nat) (rest : list nat) (w : world) :
  exists w1,
    attempted e a w w1
    /\ for_attempts e id (a :: rest) w
       = match attempt_result e (reply e id w 1) with
         | inl v => (Ret v, w1)
         | inr _ => if a <? MAX_RETRIES then for_attempts e id rest w1
                    else (Exit 1%Z, w1)
         end.
Proof.
  destruct (attempt_body_effect e id a w) as (w1 & Hb & Hq & Hf & Hs).
  rewrite for_attempts_cons; unfold bind, try_except; rewrite Hb.
  destruct (attempt_result e (reply e id w 1)) as [v|err]; cbn [to_outcome].
  - exists w1; unfold ret; repeat split; assumption.
  - destruct (a <? MAX_RETRIES) eqn:Ha;
      destruct (is_request_exception err); unfold print, ret, sys_exit;
      eexists; (split; [|reflexivity]); repeat split; cbn [requests fs slept]; assumption.
Qed.

Lemma return_count_int (t : text) (v : value) :
  snd (return_count t) = inl v -> exists n, v = VInt n.
Proof.
  unfold return_count; destruct (py_int (remove_commas t)) as [n|]; [|discriminate].
  intros [= <-]; now exists n.
Qed.

(** What extraction returns is an integer. *)
Lemma extract_returns_int (soup : node) (body : text) (v : value) :
  snd (extract soup body) = inl v -> exists n, v = VInt n.
Proof.
  assert (Hstyled : snd (styled_cells soup body) = inl v -> exists n, v = VInt n).
  { unfold styled_cells, regex_fallback.
    destruct (find_all (txt "td") _ soup) as [|c cs]; [|apply return_count_int].
    destruct (search true count_pattern body); [apply return_count_int|].
    destruct (_ || _); discriminate. }
  unfold extract.
  destruct (find (txt "table") _ soup) as [t|]; [|exact Hstyled].
  destruct (scan_rows_result (find_all (txt "tr") [] t) (styled_cells soup body))
    as [-> | (row & h & a & m & _ & _ & ->)]; [exact Hstyled | apply return_count_int].
Qed.

Lemma attempt_result_int (e : env) (r : fetch_result) (v : value) :
  attempt_result e r = inl v -> exists n, v = VInt n.
Proof.
  destruct r as [|st body]; [discriminate|]; unfold attempt_result.
  destruct (_ && _); [discriminate | apply extract_returns_int].
Qed.

(** The loop from attempt [a] to the last one: it returns the count of
    the first attempt that succeeds, or ends the process when none does. *)
Lemma loop_outcome (e : env) (id : text) (n a : nat) (w : world) :
  a + n = MAX_RETRIES ->
  exists k w',
    1 <= k <= S n
    /\ requests w' = k + requests w /\ fs w' = fs w
    /\ slept w' = (slept w + total_delay e a k)%Z
    /\ (forall j, 1 <= j < k -> failed e (reply e id w j))
    /\ ((exists c, for_attempts e id (seq a (S n)) w = (Ret (VInt c), w')
                   /\ attempt_result e (reply e id w k) = inl (VInt c))
        \/ (for_attempts e id (seq a (S n)) w = (Exit 1%Z, w')
            /\ k = S n /\ failed e (reply e id w k))).
Proof.
  revert a w; induction n as [|n IH]; intros a w Ha.
  - destruct (loop_step e id a [] w) as (w1 & (Hq & Hf & Hs) & Hstep).
    change (seq a 1) with [a]; rewrite Hstep.
    exists 1, w1; cbn [total_delay]; rewrite Z.add_0_r.
    split; [lia|]; split; [assumption|]; split; [assumption|]; split; [assumption|].
    split; [intros j Hj; lia|].
    destruct (attempt_result e (reply e id w 1)) as [v|err] eqn:Hr.
    + destruct (attempt_result_int _ _ _ Hr) as (c & ->).
      left; exists c; now split.
    + replace (a <? MAX_RETRIES) with false by (symmetry; apply Nat.ltb_ge; lia).
      right; repeat split; now exists err.
  - destruct (loop_step e id a (seq (S a) (S n)) w) as (w1 & (Hq & Hf & Hs) & Hstep).
    change (seq a (S (S n))) with (a :: seq (S a) (S n)); rewrite Hstep.
    destruct (attempt_result e (reply e id w 1)) as [v|err] eqn:Hr.
    + destruct (attempt_result_int _ _ _ Hr) as (c & ->).
      exists 1, w1; cbn [total_delay]; rewrite Z.add_0_r.
      split; [lia|]; split; [assumption|]; split; [assumption|]; split; [assumption|].
      split; [intros j Hj; lia|].
      left; exists c; now split.
    + replace (a <? MAX_RETRIES) with true by (symmetry; apply Nat.ltb_lt; lia).
      destruct (IH (S a) w1) as (k & w' & Hk & Hq' & Hf' & Hs' & Hfail & Hend); [lia|].
      exists (S k), w'; cbn [total_delay].
      split; [lia|]; split; [lia|]; split; [congruence|]; split; [lia|]; split.
      * intros j Hj; destruct j as [|[|j]]; [lia | now exists err |].
        rewrite <- (reply_next e id w w1 (S j) Hq); apply Hfail; lia.
      * rewrite <- (reply_next e id w w1 k Hq).
        destruct Hend as [(c & Hret & Hc) | (Hexit & -> & Hlast)].
        -- left; exists c; now split.
        -- right; now repeat split.
Qed.

(** X8: whatever the network replies, the fetch either returns an
    integer, the count of the first attempt that succeeds, every attempt
    before it having failed, or ends the process with status 1 after five
    failed attempts.  It never returns [None], never lets an exception out,
    sends at least one request and at most five, and modifies no file. *)
Theorem fetch_returns_first_success_or_exits (e : env) (id : text) (w : world) :
  exists k w',
    1 <= k <= 5
    /\ requests w' = k + requests w /\ fs w' = fs w
    /\ (forall j, 1 <= j < k -> failed e (reply e id w j))
    /\ ((exists c, get_citation_count_direct e id w = (Ret (VInt c), w')
                   /\ attempt_result e (reply e id w k) = inl (VInt c))
        \/ (get_citation_count_direct e id w = (Exit 1%Z, w')
            /\ k = 5 /\ failed e (reply e id w 5))).
Proof.
  destruct (loop_outcome e id 4 1 w eq_refl)
    as (k & w' & Hk & Hq & Hf & _ & Hfail & Hend).
  exists k, w'; repeat (split; [assumption|]).
  destruct Hend as [Hret | (Hexit & -> & Hlast)]; [now left | now right].
Qed.

Lemma delay_bounds (e : env) (a : nat) :
  fair e -> 1 <= a ->
  ((if (a =? 1)%nat then 2 else 10 * Z.of_nat a) <= delay e a
   <= (if (a =? 1)%nat then 5 else 30 * Z.of_nat a))%Z.
Proof.
  intros Hfair Ha; unfold delay.
  destruct (a =? 1) eqn:E.
  - apply Nat.eqb_eq in E; subst a; cbn [Nat.ltb Nat.leb]; apply Hfair; lia.
  - apply Nat.eqb_neq in E.
    replace (1 <? a) with true by (symmetry; apply Nat.ltb_lt; lia).
    pose proof (Hfair a 10%Z 30%Z ltac:(lia)); nia.
Qed.

(** X9: when [randint] keeps to its bounds, the fetch sleeps at least 2
    and at most 425 seconds in all (5 before the first attempt, 30 times the
    attempt number before each of the four others); five failed attempts
    have slept at least 142 seconds. *)
Theorem fetch_sleeps_within_bounds (e : env) (id : text) (w : world) :
  fair e ->
  (2 <= slept (snd (get_citation_count_direct e id w)) - slept w <= 425)%Z
  /\ (forall w', get_citation_count_direct e id w = (Exit 1%Z, w') ->
                 (142 <= slept w' - slept w)%Z).
Proof.
  intros Hfair.
  pose proof (delay_bounds e 1 Hfair ltac:(lia)) as H1.
  pose proof (delay_bounds e 2 Hfair ltac:(lia)) as H2.
  pose proof (delay_bounds e 3 Hfair ltac:(lia)) as H3.
  pose proof (delay_bounds e 4 Hfair ltac:(lia)) as H4.
  pose proof (delay_bounds e 5 Hfair ltac:(lia)) as H5.
  cbn [Nat.eqb] in H1, H2, H3, H4, H5.
  destruct (loop_outcome e id 4 1 w eq_refl)
    as (k & w' & Hk & _ & _ & Hs & _ & Hend).
  change (for_attempts e id (seq 1 5) w) with (get_citation_count_direct e id w) in Hend.
  assert (Hget : snd (get_citation_count_direct e id w) = w').
  { destruct Hend as [(c & -> & _) | (-> & _)]; reflexivity. }
  assert (Hcases : k = 1 \/ k = 2 \/ k = 3 \/ k = 4 \/ k = 5) by lia.
  split.
  - rewrite Hget, Hs.
    destruct Hcases as [-> | [-> | [-> | [-> | ->]]]]; cbn [total_delay]; lia.
  - intros w'' Hexit.
    destruct Hend as [(c & Hret & _) | (Hexit' & -> & _)].
    + rewrite Hret in Hexit; discriminate.
    + rewrite Hexit' in Hexit; injection Hexit as <-.
      rewrite Hs; cbn [total_delay]; lia.
Qed.

Lemma for_attempts_ext (e e' : env) (id : text) (l : list nat) :
  (forall a w, attempt_body e id a w = attempt_body e' id a w) ->
  forall w, for_attempts e id l w = for_attempts e' id l w.
Proof.
  intros Hbody; induction l as [|a rest IH]; intros w; [reflexivity|].
  rewrite !for_attempts_cons; unfold bind, try_except; rewrite Hbody.
  destruct (attempt_body e' id a w) as [[v|err|c] w1]; try reflexivity.
  - destruct (is_request_exception err); unfold print, ret;
      destruct (a <? MAX_RETRIES); try reflexivity; apply IH.
Qed.

(** X10: the fetch sends one kind of request only: through the proxy,
    with the key and the profile URL, when the key is set and not empty, and
    to the profile URL otherwise.  Two networks that reply alike to that
    request give the same fetch, whatever they reply to other requests. *)
Theorem fetch_sends_only_its_request (key : option text) (net net' : nat -> request -> fetch_result)
        (rnd : nat -> Z -> Z -> Z) (parser : text -> node) (id : text) (w : world) :
  (forall n, net n (request_of (Env key net rnd parser) id)
             = net' n (request_of (Env key net rnd parser) id)) ->
  get_citation_count_direct (Env key net rnd parser) id w
  = get_citation_count_direct (Env key net' rnd parser) id w.
Proof.
  intros Hnet; unfold get_citation_count_direct; apply for_attempts_ext.
  intros a w0; unfold attempt_body, bind, requests_get, request_of, print, sleep in *.
  cbn [scraper_api_key http_get randint html_parser] in *.
  destruct (1 <? a); destruct key as [[|c k]|]; cbn [truthy fs console requests slept] in *;
    now rewrite Hnet.
Qed.

Lemma fetch_sends_only_its_request_witness :
  get_citation_count_direct
    (Env (Some (txt "k3y")) (fun _ rq => match rq with
                                         | ViaProxy _ _ => Reply 200 Examples.count_page
                                         | DirectGet _ => NoReply
                                         end)
         (fun _ lo _ => lo) Examples.plain_parser)
    SCHOLAR_ID (Examples.fresh Examples.no_files)
  = get_citation_count_direct
      (Env (Some (txt "k3y")) (fun _ _ => Reply 200 Examples.count_page)
           (fun _ lo _ => lo) Examples.plain_parser)
      SCHOLAR_ID (Examples.fresh Examples.no_files).
Proof.
  apply (fetch_sends_only_its_request (Some (txt "k3y"))).
  intros n; reflexivity.
Defined.

(** X11: an empty [SCRAPER_API_KEY] is no key: the run with the variable
    set to the empty string is the run with the variable unset. *)
Theorem empty_key_is_no_key (net : nat -> request -> fetch_result)
        (rnd : nat -> Z -> Z -> Z) (parser : text -> node) (w : world) :
  run (Env (Some []) net rnd parser) w = run (Env None net rnd parser) w.
Proof.
  assert (Hfetch : forall w0,
            get_citation_count_direct (Env (Some []) net rnd parser) SCHOLAR_ID w0
            = get_citation_count_direct (Env None net rnd parser) SCHOLAR_ID w0).
  { unfold get_citation_count_direct; apply for_attempts_ext; reflexivity. }
  unfold run, main, bind.
  change (announce (Env (Some []) net rnd parser) w) with (announce (Env None net rnd parser) w).
  destruct (announce (Env None net rnd parser) w) as [[[]|err|c] w0];
    [|reflexivity|reflexivity].
  rewrite Hfetch; reflexivity.
Qed.

Lemma fetch_sleeps_within_bounds_witness :
  (2 <= slept (snd (get_citation_count_direct Examples.unreachable SCHOLAR_ID
                      (Examples.fresh Examples.no_files)))
        - slept (Examples.fresh Examples.no_files) <= 425)%Z
  /\ (forall w', get_citation_count_direct Examples.unreachable SCHOLAR_ID
                   (Examples.fresh Examples.no_files) = (Exit 1%Z, w') ->
                 (142 <= slept w' - slept (Examples.fresh Examples.no_files))%Z).
Proof.
  apply (fetch_sleeps_within_bounds Examples.unreachable SCHOLAR_ID
           (Examples.fresh Examples.no_files)).
  intros n lo hi Hle; cbn [Examples.unreachable Examples.env_of randint]; lia.
Defined.

(** X12: a reply with an error status (400 to 599) fails the attempt with
    the HTTP error; its body is not looked at, whatever it holds. *)
Theorem error_status_is_never_parsed (e : env) (id : text) (a : nat) (w : world)
        (st : Z) (body : text) :
  reply e id w 1 = Reply st body ->
  (400 <= st < 600)%Z ->
  exists w1, attempt_body e id a w = (Raise (HTTPError st), w1) /\ attempted e a w w1.
Proof.
  intros Hreply Hst.
  destruct (attempt_body_effect e id a w) as (w1 & Hb & He).
  exists w1; split; [|exact He].
  rewrite Hb, Hreply; unfold attempt_result.
  replace ((400 <=? st)%Z && (st <? 600)%Z) with true; [reflexivity|].
  symmetry; apply andb_true_iff; split; [apply Z.leb_le | apply Z.ltb_lt]; lia.
Qed.

Lemma error_status_is_never_parsed_witness :
  snd (regex_fallback Examples.count_page) = inl (VInt 5)
  /\ exists w1,
       attempt_body overloaded SCHOLAR_ID 1 (Examples.fresh Examples.no_files)
       = (Raise (HTTPError 503), w1)
       /\ attempted overloaded 1 (Examples.fresh Examples.no_files) w1.
Proof.
  split; [vm_compute; reflexivity|].
  apply (error_status_is_never_parsed overloaded SCHOLAR_ID 1
           (Examples.fresh Examples.no_files) 503 Examples.count_page).
  - reflexivity.
  - lia.
Defined.

(** ** The whole run *)

Lemma html_io_error_at (w w' : world) (path : string) :
  fs w' path = fs w path -> html_io_error w' path = html_io_error w path.
Proof. unfold html_io_error; now intros ->. Qed.

Lemma targets_differ : INDEX_FILE <> CONTENT_FILE.
Proof. discriminate. Qed.

(** The run, case by case: the fetch ends the process, or it returns a
    count and the two patches follow. *)
Lemma run_cases (e : env) (w : world) :
  exists k,
    1 <= k <= 5
    /\ (forall j, 1 <= j < k -> failed e (reply e SCHOLAR_ID w j))
    /\ ((k = 5 /\ failed e (reply e SCHOLAR_ID w 5)
         /\ exists wf, run e w = (1%Z, wf) /\ requests wf = k + requests w
                       /\ fs wf = fs w)
        \/ (exists c wf,
              attempt_result e (reply e SCHOLAR_ID w k) = inl (VInt c)
              /\ run e w = (if html_io_error w INDEX_FILE then 1%Z else 0%Z, wf)
              /\ requests wf = k + requests w
              /\ fs wf = patched (os w)
                           (patched (os w) (fs w) CONTENT_FILE
                              (fun s => yaml_new_content s (VInt c)))
                           INDEX_FILE (fun s => html_new_content s (VInt c)))).
Proof.
  destruct (main_fetch_said e w) as (ls & Hmain).
  set (w0 := said w ls) in *.
  assert (Hq0 : requests w0 = requests w) by reflexivity.
  assert (Hf0 : fs w0 = fs w) by reflexivity.
  assert (Ho0 : os w0 = os w) by reflexivity.
  destruct (loop_outcome e SCHOLAR_ID 4 1 w0 eq_refl)
    as (k & w1 & Hk & Hq1 & Hf1 & _ & Hfail & Hend).
  change (for_attempts e SCHOLAR_ID (seq 1 5) w0)
    with (get_citation_count_direct e SCHOLAR_ID w0) in Hend.
  assert (Hreply : forall j, reply e SCHOLAR_ID w0 j = reply e SCHOLAR_ID w j)
    by (intros j; unfold reply; now rewrite Hq0).
  exists k; split; [exact Hk|]; split.
  { intros j Hj; rewrite <- Hreply; now apply Hfail. }
  destruct Hend as [(c & Hret & Hc) | (Hexit & -> & Hlast)].
  - right; rewrite Hret in Hmain.
    assert (Ho1 : os w1 = os w).
    { rewrite <- Ho0; change w1 with (snd (Ret (VInt c), w1)); rewrite <- Hret.
      apply for_attempts_os. }
    destruct (update_yaml_file_spec CONTENT_FILE (VInt c) w1) as (w2 & Hy & Hq2 & Ho2 & Hf2).
    destruct (update_index_html_spec INDEX_FILE (VInt c) w2) as (w3 & Hh & Hq3 & Ho3 & Hf3).
    assert (Hio : html_io_error w2 INDEX_FILE = html_io_error w INDEX_FILE).
    { apply html_io_error_at; rewrite Hf2, Hf1, Hf0.
      apply patched_other, targets_differ. }
    exists c.
    exists (if html_io_error w INDEX_FILE then w3 else said w3 [LComplete]).
    split; [now rewrite <- Hreply|].
    unfold run; rewrite Hmain; unfold bind; rewrite Hy, Hh, Hio.
    destruct (html_io_error w INDEX_FILE); unfold print, said;
      cbn [fs requests]; rewrite Hf3, Hf2, Hf1, Hf0, Ho2, Ho1;
      (split; [reflexivity|]; split; [lia | reflexivity]).
  - left; rewrite Hexit in Hmain.
    split; [reflexivity|]; split; [now rewrite <- Hreply|].
    exists w1; unfold run; rewrite Hmain.
    split; [reflexivity|]; split; [lia | congruence].
Qed.

(** X13: the exit status of the process is 0 or 1; it is 0 exactly when
    one of the five attempts can succeed and the HTML patch meets no I/O
    error.  The state of the structured-data file has no part in it. *)
Theorem exit_status_of_run (e : env) (w : world) :
  (fst (run e w) = 0%Z \/ fst (run e w) = 1%Z)
  /\ (fst (run e w) = 0%Z <->
      (exists k v, 1 <= k <= 5 /\ attempt_result e (reply e SCHOLAR_ID w k) = inl v)
      /\ html_io_error w INDEX_FILE = false).
Proof.
  destruct (run_cases e w) as (k & Hk & Hfail & Hend).
  destruct Hend as [(-> & Hlast & wf & Hrun & _) | (c & wf & Hc & Hrun & _)];
    rewrite Hrun; cbn [fst].
  - split; [now right|]; split; [discriminate|].
    intros [(j & v & Hj & Hv) _]; exfalso.
    assert (Hfj : failed e (reply e SCHOLAR_ID w j)).
    { destruct (Nat.eq_dec j 5) as [-> | Hne]; [exact Hlast | apply Hfail; lia]. }
    destruct Hfj as [err Herr]; congruence.
  - destruct (html_io_error w INDEX_FILE).
    + split; [now right|]; split; [discriminate | intros [_ H]; discriminate].
    + split; [now left|]; split; [|reflexivity].
      intros _; split; [|reflexivity]; exists k, (VInt c); now split.
Qed.

(** X14: the run modifies no file but the two targets, and sends from
    one to five requests. *)
Theorem run_touches_only_targets (e : env) (w : world) (p : string) :
  p <> CONTENT_FILE -> p <> INDEX_FILE ->
  fs (snd (run e w)) p = fs w p
  /\ 1 + requests w <= requests (snd (run e w)) <= 5 + requests w.
Proof.
  intros Hc Hi.
  destruct (run_cases e w) as (k & Hk & _ & Hend).
  destruct Hend as [(_ & _ & wf & -> & Hq & Hf) | (c & wf & _ & -> & Hq & Hf)];
    cbn [snd]; rewrite Hf, Hq; (split; [|lia]); [reflexivity|].
  now rewrite !patched_other.
Qed.

Lemma run_touches_only_targets_witness :
  fs (snd (run (Examples.always Examples.count_page)
             (Examples.fresh (set_file "README.md" (File true Writable (txt "count: '41'"))
                                (Examples.site (Examples.content_yml "41")
                                               (Examples.index_html "41"))))))
     "README.md"%string
  = Some (File true Writable (txt "count: '41'"))
  /\ 1 + 0 <= requests (snd (run (Examples.always Examples.count_page)
             (Examples.fresh (set_file "README.md" (File true Writable (txt "count: '41'"))
                                (Examples.site (Examples.content_yml "41")
                                               (Examples.index_html "41")))))) <= 5 + 0.
Proof.
  apply (run_touches_only_targets (Examples.always Examples.count_page)
           (Examples.fresh (set_file "README.md" (File true Writable (txt "count: '41'"))
                              (Examples.site (Examples.content_yml "41")
                                             (Examples.index_html "41"))))
           "README.md"%string); discriminate.
Defined.

Lemma usable_no_io_error (w : world) (path : string) (content : text) :
  usable w path content -> html_io_error w path = false.
Proof.
  intros (f & Hf & Hr & Hw & _); unfold html_io_error; rewrite Hf, Hr, Hw.
  now destruct (search true html_pattern (data f)).
Qed.

(** X15: fetch and patches together.  When the [k]-th attempt is the
    first to succeed, with the count [c], and each of the two files can be
    read and written, has the line endings of the platform and has one
    occurrence of its pattern, the process ends with status 0 and in both
    files the digits of the matched field have been replaced by the decimal
    text of [c], every other byte of them being as before. *)
Theorem run_writes_fetched_count (e : env) (w : world) (k : nat) (c : Z)
        (fy fh : file) (my mh : mobj) :
  1 <= k <= 5 ->
  (forall j, 1 <= j < k -> failed e (reply e SCHOLAR_ID w j)) ->
  attempt_result e (reply e SCHOLAR_ID w k) = inl (VInt c) ->
  well_kept w CONTENT_FILE fy -> well_kept w INDEX_FILE fh ->
  only_occurrence yaml_pattern (data fy) my ->
  only_occurrence html_pattern (data fh) mh ->
  fst (run e w) = 0%Z
  /\ requests (snd (run e w)) = k + requests w
  /\ exists new_yml new_html,
       option_map bytes (fs (snd (run e w)) CONTENT_FILE) = Some new_yml
       /\ only_field_changed (os w) (bytes fy) new_yml my (VInt c)
       /\ option_map bytes (fs (snd (run e w)) INDEX_FILE) = Some new_html
       /\ only_field_changed (os w) (bytes fh) new_html mh (VInt c).
Proof.
  intros Hk Hfail Hok (Hfy & Hry & Hwy & Hny) (Hfh & Hrh & Hwh & Hnh) [Hsy Hay] [Hsh Hah].
  destruct (run_cases e w) as (k' & Hk' & Hfail' & Hend).
  assert (Hkk : k' = k).
  { destruct (Nat.lt_trichotomy k' k) as [Hlt | [Heq | Hgt]]; [exfalso | exact Heq | exfalso].
    - destruct (Hfail k' ltac:(lia)) as [err Herr].
      destruct Hend as [(-> & _) | (c' & wf & Hc' & _)]; [lia | congruence].
    - destruct (Hfail' k ltac:(lia)) as [err Herr]; congruence. }
  subst k'.
  destruct Hend as [(Hk5 & [err Herr] & _) | (c' & wf & Hc' & Hrun & Hq & Hf)];
    [rewrite Hk5 in Hok; congruence|].
  assert (c' = c) by congruence; subst c'.
  assert (Hio : html_io_error w INDEX_FILE = false).
  { unfold html_io_error; rewrite Hfh, Hrh, Hwh.
    now destruct (search true html_pattern (data fh)). }
  rewrite Hrun, Hio; cbn [fst snd].
  split; [reflexivity|]; split; [exact Hq|].
  exists (newline_out (os w)
            (before my ++ expand yaml_pattern (replacement (VInt c)) my ++ after my)),
         (newline_out (os w)
            (before mh ++ expand html_pattern (replacement (VInt c)) mh ++ after mh)).
  assert (Hpy : patched (os w) (fs w) CONTENT_FILE (fun s => yaml_new_content s (VInt c))
                = set_file CONTENT_FILE
                    (File true Writable
                       (newline_out (os w)
                          (before my ++ expand yaml_pattern (replacement (VInt c)) my
                             ++ after my))) (fs w)).
  { apply (patched_writes (os w) (fs w) CONTENT_FILE fy _ _ Hfy Hry Hwy).
    unfold yaml_new_content; rewrite Hsy.
    now rewrite (sub_single true yaml_pattern _ (data fy) my Hsy Hay). }
  assert (Hph : fs wf = set_file INDEX_FILE
                  (File true Writable
                     (newline_out (os w)
                        (before mh ++ expand html_pattern (replacement (VInt c)) mh
                           ++ after mh)))
                  (patched (os w) (fs w) CONTENT_FILE
                     (fun s => yaml_new_content s (VInt c)))).
  { rewrite Hf.
    apply (patched_writes (os w) _ INDEX_FILE fh _ _); try assumption.
    - rewrite Hpy, set_file_other; [exact Hfh | exact targets_differ].
    - unfold html_new_content; rewrite Hsh.
      now rewrite (sub_single true html_pattern _ (data fh) mh Hsh Hah). }
  rewrite Hph; split; [|split; [|split]].
  - rewrite set_file_other by (intros E; symmetry in E; exact (targets_differ E)).
    now rewrite Hpy, set_file_same.
  - rewrite <- Hny at 1.
    exact (field_replaced (os w) yaml_pattern (data fy) my (VInt c) yaml_is_field_pattern Hsy).
  - now rewrite set_file_same.
  - rewrite <- Hnh at 1.
    exact (field_replaced (os w) html_pattern (data fh) mh (VInt c) html_is_field_pattern Hsh).
Qed.

Lemma run_writes_fetched_count_witness :
  fst (run (Examples.after_failures 2 Examples.count_page)
         (Examples.fresh (Examples.site (Examples.content_yml "41")
                                        (Examples.index_html "41")))) = 0%Z
  /\ requests (snd (run (Examples.after_failures 2 Examples.count_page)
                      (Examples.fresh (Examples.site (Examples.content_yml "41")
                                                     (Examples.index_html "41"))))) = 3 + 0
  /\ exists new_yml new_html,
       option_map bytes
         (fs (snd (run (Examples.after_failures 2 Examples.count_page)
                     (Examples.fresh (Examples.site (Examples.content_yml "41")
                                                    (Examples.index_html "41")))))
             CONTENT_FILE) = Some new_yml
       /\ only_field_changed Posix (Examples.content_yml "41") new_yml
            (Examples.first_match yaml_pattern (Examples.content_yml "41")) (VInt 5)
       /\ option_map bytes
            (fs (snd (run (Examples.after_failures 2 Examples.count_page)
                        (Examples.fresh (Examples.site (Examples.content_yml "41")
                                                       (Examples.index_html "41")))))
                INDEX_FILE) = Some new_html
       /\ only_field_changed Posix (Examples.index_html "41") new_html
            (Examples.first_match html_pattern (Examples.index_html "41")) (VInt 5).
Proof.
  apply (run_writes_fetched_count (Examples.after_failures 2 Examples.count_page)
           (Examples.fresh (Examples.site (Examples.content_yml "41")
                                          (Examples.index_html "41")))
           3 5 (File true Writable (Examples.content_yml "41"))
           (File true Writable (Examples.index_html "41"))).
  - lia.
  - intros j Hj; exists RequestException.
    assert (Hcases : j = 1 \/ j = 2) by lia.
    destruct Hcases as [-> | ->]; reflexivity.
  - vm_compute; reflexivity.
  - split; [reflexivity|]; split; [reflexivity|]; split; vm_compute; reflexivity.
  - split; [reflexivity|]; split; [reflexivity|]; split; vm_compute; reflexivity.
  - split; vm_compute; reflexivity.
  - split; vm_compute; reflexivity.
Defined.

(** ** The strict pattern on the usual layout *)

Lemma forallb_forall_digits (ds : text) :
  forallb is_digit ds = true -> Forall (fun c => is_digit c = true) ds.
Proof. intros H; apply Forall_forall; now apply forallb_forall. Qed.

Lemma first_way_cat (r1 r2 : regex) (s : text) (a b : nat) :
  first_way r1 s a -> first_way r2 (skipn a s) b -> first_way (Cat r1 r2) s (a + b).
Proof.
  intros [l1 H1] [l2 H2]; unfold first_way.
  rewrite exec_cat, H1; cbn [flat_map]; rewrite H2; cbn [map app].
  eexists; reflexivity.
Qed.

(** The engine comes back on the ways of [r1] after which [r2] fails. *)
Lemma first_way_cat_later (r1 r2 : regex) (s : text) (l0 l1 : list nat) (a b : nat) :
  exec true r1 s = l0 ++ a :: l1 ->
  Forall (fun x => exec true r2 (skipn x s) = []) l0 ->
  first_way r2 (skipn a s) b -> first_way (Cat r1 r2) s (a + b).
Proof.
  intros H1 H0 [l2 H2]; unfold first_way; rewrite exec_cat, H1; clear H1.
  induction H0 as [|x l0 Hx _ IH]; cbn [app flat_map].
  - rewrite H2; cbn [map app]; eexists; reflexivity.
  - rewrite Hx; exact IH.
Qed.

Lemma first_way_eps (r : regex) (s : text) (a : nat) :
  first_way r s a -> first_way (Cat r Eps) s a.
Proof.
  intros H; rewrite <- (Nat.add_0_r a); apply first_way_cat; [exact H|].
  now exists [].
Qed.

Lemma first_way_lits (p t : text) : first_way (lits p) (p ++ t) (length p).
Proof.
  unfold first_way; rewrite exec_lits.
  unfold str_lower; rewrite map_app, starts_with_app; eexists; reflexivity.
Qed.

Lemma first_way_opt (r : regex) (s : text) (a : nat) :
  first_way r s a -> first_way (Opt r) s a.
Proof. intros [l H]; unfold first_way; rewrite exec_opt, H; eexists; reflexivity. Qed.

Lemma first_way_inset (k : cls) (c : ascii) (t : text) :
  in_cls true k c = true -> first_way (InSet k) (c :: t) 1.
Proof. intros H; unfold first_way; cbn [exec]; rewrite H; eexists; reflexivity. Qed.

Lemma first_way_lit (c : ascii) (t : text) : first_way (Lit c) (c :: t) 1.
Proof.
  unfold first_way; cbn [exec]; unfold chr_eq; rewrite Ascii.eqb_refl.
  eexists; reflexivity.
Qed.

Lemma span_run (k : cls) (run : text) (c : ascii) (t : text) :
  forallb (in_cls true k) run = true -> in_cls true k c = false ->
  span true k (run ++ c :: t) = length run.
Proof.
  intros Hrun Hc; induction run as [|x run IH]; cbn [app span length].
  - now rewrite Hc.
  - cbn [forallb] in Hrun; apply andb_true_iff in Hrun as [-> Hrun]; now rewrite IH.
Qed.

(** A greedy run: every length from the longest down to none. *)
Lemma exec_run (k : cls) (run : text) (c : ascii) (t : text) :
  forallb (in_cls true k) run = true -> in_cls true k c = false ->
  exec true (MaxRepeat 0 k) (run ++ c :: t) = rev (seq 0 (S (length run))).
Proof.
  intros Hrun Hc; cbn [exec]; now rewrite (span_run k run c t Hrun Hc), Nat.sub_0_r.
Qed.

Lemma first_way_run (k : cls) (run : text) (c : ascii) (t : text) :
  forallb (in_cls true k) run = true -> in_cls true k c = false ->
  first_way (MaxRepeat 0 k) (run ++ c :: t) (length run).
Proof.
  intros Hrun Hc; unfold first_way; rewrite (exec_run k run c t Hrun Hc).
  rewrite seq_S, rev_app_distr; eexists; reflexivity.
Qed.

Lemma line_chars (img : text) :
  forallb (fun c => negb (Ascii.eqb c newline)) img = true ->
  forallb (in_cls true (CNoneOf [newline])) img = true.
Proof.
  intros H; rewrite forallb_forall in *; intros c Hc; specialize (H c Hc).
  revert H; clear; destruct c as [[] [] [] [] [] [] [] []]; vm_compute; intuition.
Qed.

(** From the image text to the quote that opens the count. *)
Lemma first_way_image_to_quote (img t : text) :
  forallb (fun c => negb (Ascii.eqb c newline)) img = true ->
  first_way image_to_quote (img ++ newline :: txt "  count: '" ++ t) (length img + 11).
Proof.
  intros Himg; unfold image_to_quote; cbn [cats].
  apply first_way_cat;
    [apply first_way_run; [now apply line_chars | reflexivity]|].
  rewrite skipn_length_app.
  apply (first_way_cat (Lit newline) _ _ 1 10); [apply first_way_lit|].
  cbn [skipn].
  apply (first_way_cat spaces _ (txt "  " ++ "c"%char :: txt "ount: '" ++ t) 2 8);
    [apply (first_way_run CSpace (txt "  ")); reflexivity|].
  apply (first_way_cat (lits (txt "count:")) _ (txt "count:" ++ txt " '" ++ t) 6 2);
    [apply first_way_lits|].
  apply (first_way_cat spaces _ (txt " " ++ squote :: t) 1 1);
    [apply (first_way_run CSpace (txt " ")); reflexivity|].
  apply first_way_eps, first_way_inset; reflexivity.
Qed.

(** From the start of the entry to the image text. *)
Lemma first_way_name_to_image (rest : regex) (t : text) (h : nat) :
  first_way rest t h ->
  first_way
    (fold_right Cat rest
       [ lits (txt "- name:"); spaces; Opt (InSet quote); label;
         Opt (InSet quote); spaces; Lit newline; spaces; lits (txt "image:") ])
    (txt "- name: 'GOOGLE SCHOLAR CITATIONS'" ++ newline :: txt "  image:" ++ t)
    (43 + h).
Proof.
  intros H; cbn [fold_right].
  replace (43 + h) with (7 + (1 + (1 + (24 + (1 + (0 + (1 + (2 + (6 + h))))))))) by lia.
  apply (first_way_cat (lits (txt "- name:")) _
           (txt "- name:" ++ txt " '" ++ txt "GOOGLE SCHOLAR CITATIONS"
              ++ squote :: newline :: txt "  image:" ++ t));
    [apply first_way_lits|].
  apply (first_way_cat spaces _
           (txt " " ++ squote :: txt "GOOGLE SCHOLAR CITATIONS"
              ++ squote :: newline :: txt "  image:" ++ t));
    [apply (first_way_run CSpace (txt " ")); reflexivity|].
  apply (first_way_cat (Opt (InSet quote)) _
           (squote :: txt "GOOGLE SCHOLAR CITATIONS"
              ++ squote :: newline :: txt "  image:" ++ t));
    [apply first_way_opt, first_way_inset; reflexivity|].
  apply (first_way_cat label _
           (txt "GOOGLE SCHOLAR CITATIONS" ++ squote :: newline :: txt "  image:" ++ t));
    [apply first_way_lits|].
  apply (first_way_cat (Opt (InSet quote)) _ (squote :: newline :: txt "  image:" ++ t));
    [apply first_way_opt, first_way_inset; reflexivity|].
  apply (first_way_cat_later spaces _ (newline :: txt "  " ++ "i"%char :: txt "mage:" ++ t)
           [3; 2; 1] []).
  - apply (exec_run CSpace (newline :: txt "  ")); reflexivity.
  - repeat constructor.
  - apply (first_way_cat (Lit newline) _ (newline :: txt "  image:" ++ t));
      [apply first_way_lit|].
    apply (first_way_cat spaces _ (txt "  " ++ "i"%char :: txt "mage:" ++ t));
      [apply (first_way_run CSpace (txt "  ")); reflexivity|].
    apply (first_way_cat (lits (txt "image:")) _ (txt "image:" ++ t));
      [apply first_way_lits|].
    exact H.
Qed.

Lemma entry_head_length (img : text) : length (entry_head img) = 43 + (length img + 11).
Proof.
  unfold entry_head; rewrite length_app; cbn [length]; rewrite length_app; cbn [length].
  rewrite length_app; cbn; lia.
Qed.

(** At the entry the pattern matches it, and its three groups are the
    head of the entry, the digits and the closing quote. *)
Lemma match_at_entry (img ds post : text) :
  forallb (fun c => negb (Ascii.eqb c newline)) img = true ->
  ds <> [] -> forallb is_digit ds = true ->
  match_at true yaml_pattern (scholar_entry img ds ++ post)
  = Some [length (entry_head img); length ds; 1].
Proof.
  intros Himg Hne Hds.
  assert (H1 : first_way (piece_regex (hd (Plain Eps) yaml_pattern))
                 (scholar_entry img ds ++ post) (length (entry_head img))).
  { rewrite entry_head_length.
    replace (scholar_entry img ds ++ post)
      with (txt "- name: 'GOOGLE SCHOLAR CITATIONS'" ++ newline :: txt "  image:"
              ++ img ++ newline :: txt "  count: '" ++ ds ++ squote :: post).
    - apply (first_way_name_to_image image_to_quote).
      apply (first_way_image_to_quote img (ds ++ squote :: post) Himg).
    - unfold scholar_entry, entry_head.
      repeat (rewrite <- ?app_assoc; cbn [app]; rewrite <- ?app_comm_cons).
      reflexivity. }
  destruct H1 as [l1 H1]; cbn [hd yaml_pattern] in H1.
  unfold match_at, yaml_pattern; rewrite exec_pieces_cons, H1.
  apply hd_error_flat_map_cons; rewrite hd_error_map.
  unfold scholar_entry; rewrite <- app_assoc, skipn_length_app.
  destruct (exec_digits_head ds (squote :: post) Hne Hds eq_refl) as [l2 H2].
  rewrite exec_pieces_cons; cbn [piece_regex].
  rewrite <- app_assoc; change ([squote] ++ post) with (squote :: post); rewrite H2.
  rewrite (hd_error_flat_map_cons _ _ _ _ _ [length ds; 1]); [reflexivity|].
  rewrite hd_error_map, skipn_length_app; reflexivity.
Qed.

(** *** Where the pattern cannot match *)

Lemma starts_with_avoid (p y : text) (d : ascii) (r : text) :
  ~ List.In d p -> starts_with p (y ++ d :: r) = true -> length p <= length y.
Proof.
  revert y; induction p as [|c p IH]; intros y Hd H; [cbn; lia|].
  destruct y as [|a y]; cbn [app starts_with length] in *.
  - apply andb_true_iff in H as [H _]; apply Ascii.eqb_eq in H.
    exfalso; apply Hd; now left.
  - apply andb_true_iff in H as [_ H].
    apply le_n_S, IH; [|exact H].
    intros Hin; apply Hd; now right.
Qed.

Lemma contains_head (p s : text) : starts_with p s = true -> contains p s = true.
Proof. intros H; destruct s; cbn [contains]; now rewrite H. Qed.

Lemma contains_skipn (p s : text) (n : nat) :
  contains p s = false -> contains p (skipn n s) = false.
Proof.
  revert s; induction n as [|n IH]; intros s H; [exact H|].
  destruct s as [|c s]; [exact H|].
  cbn [contains] in H; apply orb_false_iff in H as [_ H]; now apply IH.
Qed.

Lemma not_in_suffix (p s : text) (n : nat) :
  contains p (str_lower s) = false -> starts_with p (str_lower (skipn n s)) = false.
Proof.
  intros Hc; destruct (starts_with p (str_lower (skipn n s))) eqn:H; [|reflexivity].
  apply contains_head in H; unfold str_lower in *; rewrite <- skipn_map in H.
  now rewrite (contains_skipn _ _ n Hc) in H.
Qed.

Lemma span_le_run (k : cls) (y : text) (d : ascii) (r : text) :
  in_cls true k d = false -> span true k (y ++ d :: r) <= length y.
Proof.
  intros Hd; induction y as [|c y IH]; cbn [app span length]; [now rewrite Hd|].
  destruct (in_cls true k c); lia.
Qed.

(** A literal without the character [d] that matches before a [d] lies
    before it. *)
Lemma lits_before_char (d : ascii) (p y r : text) :
  lower d = d -> ~ List.In d p ->
  starts_with p (str_lower (y ++ d :: r)) = true ->
  length p <= length y /\ starts_with p (str_lower y) = true.
Proof.
  intros Hd Hp H; unfold str_lower in H; rewrite map_app in H; cbn [map] in H.
  rewrite Hd in H; fold (str_lower y) (str_lower r) in H.
  pose proof (starts_with_avoid p (str_lower y) _ _ Hp H) as Hlen.
  split; [unfold str_lower in Hlen; now rewrite length_map in Hlen|].
  exact (starts_with_shorter p (str_lower y) _ H Hlen).
Qed.

(** What a match of the strict pattern starts with: the name key, white
    space, possibly a quote, and the label. *)
Lemma yaml_match_shape (s : text) (ns : list nat) :
  match_at true yaml_pattern s = Some ns ->
  starts_with (txt "- name:") (str_lower s) = true
  /\ exists a2 a3,
       a2 <= span true CSpace (skipn 7 s)
       /\ (a3 = 0 \/ (a3 = 1 /\ exists q t', skipn (a2 + 7) s = q :: t'
                                            /\ in_cls true quote q = true))
       /\ starts_with (txt "google scholar citations")
                      (str_lower (skipn (a3 + (a2 + 7)) s)) = true.
Proof.
  unfold match_at; intros H; apply hd_error_in in H; unfold yaml_pattern in H.
  apply in_exec_pieces in H as (n1 & ns' & _ & H1 & _).
  cbn [piece_regex cats] in H1.
  apply in_exec_cat in H1 as (a1 & b1 & _ & Ha1 & Hb1).
  rewrite exec_lits in Ha1.
  change (str_lower (txt "- name:")) with (txt "- name:") in Ha1.
  destruct (starts_with (txt "- name:") (str_lower s)) eqn:Hname; [|contradiction].
  destruct Ha1 as [<-|[]]; change (length (txt "- name:")) with 7 in Hb1.
  split; [reflexivity|].
  apply in_exec_cat in Hb1 as (a2 & b2 & _ & Ha2 & Hb2).
  unfold spaces in Ha2; cbn [exec] in Ha2; rewrite <- in_rev, in_seq in Ha2.
  rewrite skipn_skipn in Hb2.
  apply in_exec_cat in Hb2 as (a3 & b3 & _ & Ha3 & Hb3).
  rewrite skipn_skipn in Hb3.
  apply in_exec_cat in Hb3 as (a4 & b4 & _ & Ha4 & _).
  unfold label in Ha4; rewrite exec_lits in Ha4.
  change (str_lower (txt "GOOGLE SCHOLAR CITATIONS"))
    with (txt "google scholar citations") in Ha4.
  destruct (starts_with (txt "google scholar citations")
                        (str_lower (skipn (a3 + (a2 + 7)) s))) eqn:Hlab; [|contradiction].
  exists a2, a3; split; [lia|]; split; [|exact Hlab].
  rewrite exec_opt in Ha3; apply in_app_or in Ha3 as [Ha3 | [<- | []]]; [|now left].
  right; cbn [exec] in Ha3.
  destruct (skipn (a2 + 7) s) as [|q t']; [contradiction|].
  destruct (in_cls true quote q) eqn:Hq; [|contradiction].
  destruct Ha3 as [<-|[]]; split; [reflexivity|].
  now exists q, t'.
Qed.

(** The pattern needs the label. *)
Lemma yaml_match_needs_label (s : text) :
  contains (txt "google scholar citations") (str_lower s) = false ->
  match_at true yaml_pattern s = None.
Proof.
  intros Hc; destruct (match_at true yaml_pattern s) as [ns|] eqn:E; [exfalso|reflexivity].
  apply yaml_match_shape in E as (_ & a2 & a3 & _ & _ & Hlab).
  now rewrite (not_in_suffix _ _ (a3 + (a2 + 7)) Hc) in Hlab.
Qed.

Lemma yaml_search_needs_label (s : text) :
  contains (txt "google scholar citations") (str_lower s) = false ->
  search true yaml_pattern s = None.
Proof.
  induction s as [|c s IH]; intros H.
  - cbn [search]; now rewrite (yaml_match_needs_label [] H).
  - cbn [search]; rewrite (yaml_match_needs_label (c :: s) H).
    cbn [str_lower map contains] in H; apply orb_false_iff in H as [_ H].
    fold (str_lower s) in H; now rewrite (IH H).
Qed.

(** No match starts before the entry when the label does not occur
    there: a match that starts there would have its label there. *)
Lemma no_match_before (x r : text) :
  x <> [] ->
  contains (txt "google scholar citations") (str_lower x) = false ->
  match_at true yaml_pattern (x ++ "-"%char :: r) = None.
Proof.
  intros Hx Hc.
  destruct (match_at true yaml_pattern (x ++ "-"%char :: r)) as [ns|] eqn:E;
    [exfalso|reflexivity].
  apply yaml_match_shape in E as (Hname & a2 & a3 & Ha2 & Ha3 & Hlab).
  assert (H7 : 7 <= length x).
  { destruct x as [|c x]; [congruence|].
    cbn [app str_lower map] in Hname; fold (str_lower (x ++ "-"%char :: r)) in Hname.
    change (txt "- name:") with ("-"%char :: txt " name:") in Hname.
    cbn [starts_with] in Hname; apply andb_true_iff in Hname as [_ Hname].
    apply (lits_before_char "-"%char) in Hname as [Hlen _];
      [cbn [length] in *; cbn in Hlen; lia | reflexivity | cbn; intuition discriminate]. }
  rewrite skipn_app in Ha2; replace (7 - length x) with 0 in Ha2 by lia.
  rewrite skipn_O in Ha2.
  pose proof (span_le_run CSpace (skipn 7 x) "-"%char r eq_refl) as Hspan.
  rewrite length_skipn in Hspan.
  assert (HK : a3 + (a2 + 7) <= length x).
  { destruct Ha3 as [-> | (-> & q & t' & Hq & Hin)]; [lia|].
    rewrite skipn_app in Hq; replace (a2 + 7 - length x) with 0 in Hq by lia.
    rewrite skipn_O in Hq.
    destruct (Nat.eq_dec (a2 + 7) (length x)) as [Heq|Hneq]; [|lia].
    rewrite skipn_all2 in Hq by lia; cbn [app] in Hq.
    injection Hq as <- _; discriminate. }
  rewrite skipn_app in Hlab; replace (a3 + (a2 + 7) - length x) with 0 in Hlab by lia.
  rewrite skipn_O in Hlab.
  apply (lits_before_char "-"%char) in Hlab as [_ Hlab];
    [| reflexivity | cbn; intuition discriminate].
  now rewrite (not_in_suffix _ _ (a3 + (a2 + 7)) Hc) in Hlab.
Qed.

Lemma search_at_head (ps : pattern) (s : text) (ns : list nat) :
  match_at true ps s = Some ns ->
  search true ps s = Some (MObj [] (fst (cut ns s)) (snd (cut ns s))).
Proof.
  intros H; destruct s as [|c s]; cbn [search]; rewrite H;
    now destruct (cut ns _).
Qed.

Lemma entry_starts (img ds post : text) :
  exists r, scholar_entry img ds ++ post = "-"%char :: r.
Proof. unfold scholar_entry, entry_head; cbn [txt list_ascii_of_string app]; eexists; reflexivity. Qed.

(** The first match in a file whose first label is that of an entry in
    the usual layout is this entry. *)
Lemma search_entry (pre img ds post : text) :
  contains (txt "google scholar citations") (str_lower pre) = false ->
  forallb (fun c => negb (Ascii.eqb c newline)) img = true ->
  ds <> [] -> forallb is_digit ds = true ->
  search true yaml_pattern (pre ++ scholar_entry img ds ++ post)
  = Some (MObj pre [entry_head img; ds; [squote]] post).
Proof.
  intros Hpre Himg Hne Hds; induction pre as [|c pre IH].
  - cbn [app]; rewrite (search_at_head _ _ _ (match_at_entry img ds post Himg Hne Hds)).
    unfold scholar_entry; cbn [cut]; rewrite <- !app_assoc.
    rewrite firstn_length_app, skipn_length_app, firstn_length_app, skipn_length_app.
    reflexivity.
  - destruct (entry_starts img ds post) as [r Hr].
    cbn [app search].
    replace (match_at true yaml_pattern (c :: pre ++ scholar_entry img ds ++ post))
      with (@None (list nat)).
    + cbn [str_lower map contains] in Hpre; apply orb_false_iff in Hpre as [_ Hpre].
      fold (str_lower pre) in Hpre; now rewrite (IH Hpre).
    + symmetry; rewrite Hr.
      apply (no_match_before (c :: pre) r); [discriminate | exact Hpre].
Qed.

(** X16: the structured-data file in its usual layout.  When the text
    of the file, as it is read, has the citation entry written as name,
    image and count lines with single quotes, the label occurs nowhere else
    in it, in any letter case, and the file can be read and written, the
    patch writes the same text with the new count between the quotes of the
    count line.  On a file that has the line endings of the platform these
    digits are the only bytes that change. *)
Theorem usual_entry_is_rewritten (path : string) (v : value) (w : world) (f : file)
        (pre img ds post : text) :
  contains (txt "google scholar citations") (str_lower pre) = false ->
  contains (txt "google scholar citations") (str_lower post) = false ->
  forallb (fun c => negb (Ascii.eqb c newline)) img = true ->
  ds <> [] -> forallb is_digit ds = true ->
  fs w path = Some f -> readable f = true -> writable f = true ->
  data f = pre ++ scholar_entry img ds ++ post ->
  rewritten w (snd (update_yaml_file path v w)) path
            (pre ++ scholar_entry img (fmt v) ++ post)
  /\ (native (os w) (bytes f) ->
      exists b1 b2,
        bytes f = b1 ++ ds ++ b2
        /\ option_map bytes (fs (snd (update_yaml_file path v w)) path)
           = Some (b1 ++ fmt v ++ b2)).
Proof.
  intros Hpre Hpost Himg Hne Hds Hf Hr Hw Hd.
  assert (Hrw : rewritten w (snd (update_yaml_file path v w)) path
                          (pre ++ scholar_entry img (fmt v) ++ post)).
  { apply (update_yaml_file_writes path v w f _ Hf Hr Hw).
    pose proof (search_entry pre img ds post Hpre Himg Hne Hds) as Hs.
    rewrite Hd; unfold yaml_new_content; rewrite Hs.
    rewrite (sub_single true yaml_pattern _ _ _ Hs (yaml_search_needs_label post Hpost)).
    cbn [before after]; unfold expand, replacement, group, scholar_entry.
    cbn [flat_map parts yaml_pattern captures is_capture Nat.sub nth].
    now rewrite app_nil_r, <- !app_assoc. }
  split; [exact Hrw|].
  intros Hnat; destruct Hrw as [(f' & Hf' & Hb') _].
  exists (newline_out (os w) (pre ++ entry_head img)),
         (newline_out (os w) (squote :: post)).
  assert (Hsplit : forall count,
             Forall (fun c => Ascii.eqb c newline = false) count ->
             newline_out (os w) (pre ++ scholar_entry img count ++ post)
             = newline_out (os w) (pre ++ entry_head img) ++ count
               ++ newline_out (os w) (squote :: post)).
  { intros count Hc; unfold scholar_entry.
    rewrite !newline_out_app, (newline_out_plain _ count Hc).
    now rewrite <- !app_assoc. }
  split.
  - rewrite <- Hnat; fold (data f); rewrite Hd.
    apply Hsplit, digits_plain; now apply forallb_forall_digits.
  - rewrite Hf'; cbn [option_map]; rewrite Hb'.
    now rewrite (Hsplit (fmt v) (fmt_plain v)).
Qed.

Lemma usual_entry_is_rewritten_witness :
  rewritten (Examples.fresh (Examples.site (Examples.content_yml "41")
                                             (Examples.index_html "41")))
    (snd (update_yaml_file CONTENT_FILE (VInt 57)
            (Examples.fresh (Examples.site (Examples.content_yml "41")
                                             (Examples.index_html "41")))))
    CONTENT_FILE
    (Examples.papers ++ scholar_entry (txt " img/scholar.png") (fmt (VInt 57))
       ++ newline :: Examples.talks "3")
  /\ (native (os (Examples.fresh (Examples.site (Examples.content_yml "41")
                                             (Examples.index_html "41"))))
             (bytes (File true Writable (Examples.content_yml "41"))) ->
      exists b1 b2,
        bytes (File true Writable (Examples.content_yml "41")) = b1 ++ txt "41" ++ b2
        /\ option_map bytes
             (fs (snd (update_yaml_file CONTENT_FILE (VInt 57)
                         (Examples.fresh (Examples.site (Examples.content_yml "41")
                                             (Examples.index_html "41")))))
                 CONTENT_FILE)
           = Some (b1 ++ fmt (VInt 57) ++ b2)).
Proof.
  apply (usual_entry_is_rewritten CONTENT_FILE (VInt 57)
           (Examples.fresh (Examples.site (Examples.content_yml "41")
                                             (Examples.index_html "41")))
           (File true Writable (Examples.content_yml "41"))
           Examples.papers (txt " img/scholar.png") (txt "41")
           (newline :: Examples.talks "3")).
  - vm_compute; reflexivity.
  - vm_compute; reflexivity.
  - vm_compute; reflexivity.
  - discriminate.
  - reflexivity.
  - reflexivity.
  - reflexivity.
  - reflexivity.
  - vm_compute; reflexivity.
Defined.

(** ** The HTML pattern on the usual layout *)

Lemma skipn_add_app (a b : text) (j : nat) : skipn (length a + j) (a ++ b) = skipn j b.
Proof. rewrite Nat.add_comm, <- skipn_skipn; now rewrite skipn_length_app. Qed.

(** A greedy run followed by [r2]: the engine gives back the characters of
    [back] one by one when [r2] fails at each of them. *)
Lemma first_way_run_back (k : cls) (run back : text) (c : ascii) (t : text)
      (r2 : regex) (b : nat) :
  forallb (in_cls true k) run = true -> forallb (in_cls true k) back = true ->
  in_cls true k c = false ->
  (forall j, 1 <= j <= length back -> exec true r2 (skipn j (back ++ c :: t)) = []) ->
  first_way r2 (back ++ c :: t) b ->
  first_way (Cat (MaxRepeat 0 k) r2) (run ++ back ++ c :: t) (length run + b).
Proof.
  intros Hrun Hback Hc Hfail Hb.
  apply (first_way_cat_later _ _ _ (rev (seq (S (length run)) (length back)))
                             (rev (seq 0 (length run)))).
  - rewrite app_assoc, exec_run; [| now rewrite forallb_app, Hrun, Hback | exact Hc].
    rewrite length_app.
    replace (S (length run + length back)) with (length run + S (length back)) by lia.
    rewrite seq_app, rev_app_distr; cbn [Nat.add seq rev].
    now rewrite <- app_assoc.
  - apply Forall_forall; intros x Hx; rewrite <- in_rev, in_seq in Hx.
    replace x with (length run + (x - length run)) by lia.
    rewrite skipn_add_app; apply Hfail; lia.
  - rewrite skipn_length_app; exact Hb.
Qed.

(** A literal does not match at a character other than its first. *)
Lemma lits_fail_on_chars (d : ascii) (p : text) (r : regex) (u t : text) (j : nat) :
  Forall (fun x => Ascii.eqb (lower d) (lower x) = false) u -> j < length u ->
  exec true (Cat (lits (d :: p)) r) (skipn j (u ++ t)) = [].
Proof.
  intros Hu; revert j; induction Hu as [|x u Hx _ IH]; intros j Hj; [cbn in Hj; lia|].
  destruct j as [|j]; [|cbn [skipn app]; apply IH; cbn in Hj; lia].
  cbn [skipn app lits]; rewrite !exec_cat; cbn [exec]; unfold chr_eq.
  now rewrite Hx.
Qed.

Lemma tag_chars (a : text) :
  inside_tag a = true -> forallb (in_cls true (CNoneOf [">"%char])) a = true.
Proof.
  unfold inside_tag; intros H; rewrite forallb_forall in *; intros c Hc.
  specialize (H c Hc); revert H; clear.
  destruct c as [[] [] [] [] [] [] [] []]; vm_compute; intuition.
Qed.

Lemma digit_chars (ds : text) :
  forallb is_digit ds = true ->
  forallb (in_cls true (CNoneOf [">"%char])) ds = true
  /\ Forall (fun x => Ascii.eqb (lower "d"%char) (lower x) = false) ds.
Proof.
  intros H; rewrite forallb_forall in H; split.
  - apply forallb_forall; intros c Hc; specialize (H c Hc); revert H; clear.
    destruct c as [[] [] [] [] [] [] [] []]; vm_compute; intuition.
  - apply Forall_forall; intros c Hc; specialize (H c Hc); revert H; clear.
    destruct c as [[] [] [] [] [] [] [] []]; vm_compute; intuition.
Qed.

(** From the attributes of the paragraph to the quote that opens the
    count. *)
Lemma first_way_paragraph (attrs2 ds t : text) :
  inside_tag attrs2 = true -> forallb is_digit ds = true ->
  first_way (Cat (MaxRepeat 0 (CNoneOf [">"%char])) count_to_quote)
            (attrs2 ++ (txt "data-count=" ++ dquote :: ds ++ [dquote]) ++ ">"%char :: t)
            (length attrs2 + 12).
Proof.
  intros Ha Hds; destruct (digit_chars ds Hds) as [Hin Hnot].
  apply first_way_run_back.
  - now apply tag_chars.
  - rewrite forallb_app; cbn [forallb]; rewrite forallb_app, Hin; reflexivity.
  - reflexivity.
  - intros j Hj; destruct j as [|j]; [lia|].
    replace ((txt "data-count=" ++ dquote :: ds ++ [dquote]) ++ ">"%char :: t)
      with ("d"%char :: (txt "ata-count=" ++ dquote :: ds ++ [dquote; ">"%char]) ++ t)
      by (cbn [txt list_ascii_of_string app]; now rewrite <- !app_assoc).
    cbn [skipn]; unfold count_to_quote; cbn [cats].
    change (txt "data-count=") with ("d"%char :: txt "ata-count=").
    apply lits_fail_on_chars.
    + apply Forall_app; split; [repeat constructor|].
      constructor; [reflexivity|].
      apply Forall_app; split; [exact Hnot | repeat constructor].
    + rewrite length_app in Hj |- *; cbn in Hj |- *.
      rewrite length_app in Hj |- *; cbn in Hj |- *; lia.
  - unfold count_to_quote; cbn [cats].
    replace ((txt "data-count=" ++ dquote :: ds ++ [dquote]) ++ ">"%char :: t)
      with (txt "data-count=" ++ dquote :: (ds ++ [dquote]) ++ ">"%char :: t)
      by (rewrite <- !app_assoc; cbn [app]; now rewrite <- ?app_assoc).
    apply (first_way_cat (lits (txt "data-count=")) _ _ 11 1); [apply first_way_lits|].
    apply first_way_eps, (first_way_lit dquote ((ds ++ [dquote]) ++ ">"%char :: t)).
Qed.

Lemma match_at_three (r1 r2 r3 : regex) (s : text) (n1 n2 n3 : nat) :
  first_way r1 s n1 -> first_way r2 (skipn n1 s) n2 ->
  first_way r3 (skipn n2 (skipn n1 s)) n3 ->
  match_at true [Capture r1; Capture r2; Capture r3] s = Some [n1; n2; n3].
Proof.
  intros [l1 H1] [l2 H2] [l3 H3]; unfold match_at.
  rewrite exec_pieces_cons; cbn [piece_regex]; rewrite H1.
  apply hd_error_flat_map_cons; rewrite hd_error_map.
  rewrite exec_pieces_cons; cbn [piece_regex]; rewrite H2.
  rewrite (hd_error_flat_map_cons _ _ _ _ _ [n2; n3]); [reflexivity|].
  rewrite hd_error_map, exec_pieces_capture, H3; reflexivity.
Qed.

Ltac skip_prefix :=
  match goal with
  | |- context [skipn ?n (?p ++ ?x)] => change (skipn n (p ++ x)) with x
  end.

(** From the alt attribute to the quote that opens the count. *)
Lemma first_way_alt_to_quote (between attrs2 ds t : text) :
  forallb uni_space between = true -> inside_tag attrs2 = true ->
  forallb is_digit ds = true ->
  first_way alt_to_quote
    (txt "alt=" ++ dquote :: txt "GOOGLE SCHOLAR CITATIONS" ++ dquote :: txt " /"
       ++ ">"%char :: between ++ txt "<p" ++ attrs2
       ++ (txt "data-count=" ++ dquote :: ds ++ [dquote]) ++ ">"%char :: t)
    (4 + (1 + (24 + (1 + (1 + (2 + (length between + (2 + (length attrs2 + 12))))))))).
Proof.
  intros Hws Ha Hds; unfold alt_to_quote; cbn [cats].
  set (p := attrs2 ++ (txt "data-count=" ++ dquote :: ds ++ [dquote]) ++ ">"%char :: t).
  apply (first_way_cat (lits (txt "alt=")) _ (txt "alt=" ++ _)); [apply first_way_lits|].
  skip_prefix.
  apply (first_way_cat (Lit dquote) _ (dquote :: _) 1); [apply first_way_lit|].
  cbn [skipn].
  apply (first_way_cat label _ (txt "GOOGLE SCHOLAR CITATIONS" ++ _));
    [apply first_way_lits|].
  skip_prefix.
  apply (first_way_cat (Lit dquote) _ (dquote :: _) 1); [apply first_way_lit|].
  cbn [skipn].
  apply (first_way_run_back (CNoneOf [">"%char]) (txt " ") (txt "/") ">"%char
           (between ++ txt "<p" ++ p)); try reflexivity.
  - intros j Hj; destruct j as [|[|j]]; [lia | reflexivity | cbn in Hj; lia].
  - apply (first_way_cat (lits (txt "/>")) _ (txt "/>" ++ _)); [apply first_way_lits|].
    skip_prefix.
    apply (first_way_cat spaces _ (between ++ "<"%char :: txt "p" ++ p));
      [now apply (first_way_run CSpace between) |].
    rewrite skipn_length_app.
    apply (first_way_cat (lits (txt "<p")) _ (txt "<p" ++ p)); [apply first_way_lits|].
    skip_prefix.
    exact (first_way_paragraph attrs2 ds t Ha Hds).
Qed.

(** The whole first group, from the image tag on. *)
Lemma first_way_element_head (attrs between attrs2 ds t : text) :
  inside_tag attrs = true -> forallb uni_space between = true ->
  inside_tag attrs2 = true -> forallb is_digit ds = true ->
  first_way (Cat (lits (txt "<img")) (Cat (MaxRepeat 0 (CNoneOf [">"%char])) alt_to_quote))
    (txt "<img" ++ attrs
       ++ (txt "alt=" ++ dquote :: txt "GOOGLE SCHOLAR CITATIONS" ++ dquote :: txt " /")
       ++ ">"%char :: between ++ txt "<p" ++ attrs2
       ++ (txt "data-count=" ++ dquote :: ds ++ [dquote]) ++ ">"%char :: t)
    (4 + (length attrs
          + (4 + (1 + (24 + (1 + (1 + (2 + (length between
                                            + (2 + (length attrs2 + 12))))))))))).
Proof.
  intros Ha Hws Ha2 Hds.
  apply (first_way_cat (lits (txt "<img")) _ (txt "<img" ++ _)); [apply first_way_lits|].
  skip_prefix.
  apply first_way_run_back; [now apply tag_chars | reflexivity | reflexivity | |].
  - intros j Hj; destruct j as [|j]; [lia|].
    do 32 (destruct j as [|j]; [reflexivity|]).
    cbn in Hj; lia.
  - exact (first_way_alt_to_quote between attrs2 ds t Hws Ha2 Hds).
Qed.

Lemma counter_element_text (attrs between attrs2 ds post : text) :
  counter_element attrs between attrs2 ds ++ post
  = txt "<img" ++ attrs
    ++ (txt "alt=" ++ dquote :: txt "GOOGLE SCHOLAR CITATIONS" ++ dquote :: txt " /")
    ++ ">"%char :: between ++ txt "<p" ++ attrs2
    ++ (txt "data-count=" ++ dquote :: ds ++ [dquote]) ++ ">"%char :: post.
Proof.
  unfold counter_element, element_head, Examples.dquoted.
  repeat (rewrite <- ?app_assoc; cbn [app txt list_ascii_of_string]); reflexivity.
Qed.

Lemma element_head_length (attrs between attrs2 : text) :
  length (element_head attrs between attrs2)
  = 4 + (length attrs
         + (4 + (1 + (24 + (1 + (1 + (2 + (length between
                                           + (2 + (length attrs2 + 12)))))))))).
Proof.
  unfold element_head, Examples.dquoted.
  repeat (rewrite length_app || cbn [length]); cbn; lia.
Qed.

(** At the element the pattern matches it, and its three groups are the
    head of the element, the digits and the end of the tag. *)
Lemma match_at_element (attrs between attrs2 ds post : text) :
  inside_tag attrs = true -> forallb uni_space between = true ->
  inside_tag attrs2 = true -> ds <> [] -> forallb is_digit ds = true ->
  match_at true html_pattern (counter_element attrs between attrs2 ds ++ post)
  = Some [length (element_head attrs between attrs2); length ds; 2].
Proof.
  intros Ha Hws Ha2 Hne Hds; unfold html_pattern; apply match_at_three.
  - rewrite counter_element_text, element_head_length.
    exact (first_way_element_head attrs between attrs2 ds post Ha Hws Ha2 Hds).
  - unfold counter_element; rewrite <- !app_assoc, skipn_length_app.
    exact (exec_digits_head ds (dquote :: txt ">" ++ post) Hne Hds eq_refl).
  - unfold counter_element; rewrite <- !app_assoc, !skipn_length_app.
    apply (first_way_cat (Lit dquote) _ (dquote :: ">"%char :: post) 1 1);
      [apply first_way_lit|].
    apply (first_way_cat (MaxRepeat 0 (CNoneOf [">"%char])) _ (">"%char :: post) 0 1);
      [apply (first_way_run (CNoneOf [">"%char]) [] ">"%char post); reflexivity|].
    apply first_way_lit.
Qed.

(** *** Where the HTML pattern cannot match *)

Lemma starts_with_join (p1 p2 s : text) :
  starts_with p1 s = true -> starts_with p2 (skipn (length p1) s) = true ->
  starts_with (p1 ++ p2) s = true.
Proof.
  revert s; induction p1 as [|c p1 IH]; intros s H1 H2; [exact H2|].
  destruct s as [|x s]; [discriminate|].
  cbn [app starts_with length skipn] in *; apply andb_true_iff in H1 as [-> H1].
  now apply IH.
Qed.

(** What a match of the HTML pattern starts with: the image tag and,
    before any [>], the alt attribute with the label. *)
Lemma html_match_shape (s : text) (ns : list nat) :
  match_at true html_pattern s = Some ns ->
  starts_with (txt "<img") (str_lower s) = true
  /\ exists a, a <= span true (CNoneOf [">"%char]) (skipn 4 s)
               /\ starts_with alt_label (str_lower (skipn (a + 4) s)) = true.
Proof.
  unfold match_at; intros H; apply hd_error_in in H; unfold html_pattern in H.
  apply in_exec_pieces in H as (n1 & ns' & _ & H1 & _).
  cbn [piece_regex cats] in H1.
  apply in_exec_cat in H1 as (a1 & b1 & _ & Ha1 & Hb1).
  rewrite exec_lits in Ha1.
  change (str_lower (txt "<img")) with (txt "<img") in Ha1.
  destruct (starts_with (txt "<img") (str_lower s)) eqn:Himg; [|contradiction].
  destruct Ha1 as [<-|[]]; change (length (txt "<img")) with 4 in Hb1.
  split; [reflexivity|].
  apply in_exec_cat in Hb1 as (a & b2 & _ & Ha & Hb2).
  cbn [exec] in Ha; rewrite <- in_rev, in_seq in Ha.
  rewrite skipn_skipn in Hb2.
  exists a; split; [lia|].
  set (u := skipn (a + 4) s) in *.
  apply in_exec_cat in Hb2 as (a3 & b3 & _ & Ha3 & Hb3).
  rewrite exec_lits in Ha3.
  change (str_lower (txt "alt=")) with (txt "alt=") in Ha3.
  destruct (starts_with (txt "alt=") (str_lower u)) eqn:Halt; [|contradiction].
  destruct Ha3 as [<-|[]]; change (length (txt "alt=")) with 4 in Hb3.
  apply in_exec_cat in Hb3 as (a4 & b4 & _ & Ha4 & Hb4).
  cbn [exec] in Ha4.
  destruct (skipn 4 u) as [|q t'] eqn:Eq; [contradiction|].
  destruct (chr_eq true dquote q) eqn:Hq; [|contradiction].
  destruct Ha4 as [<-|[]]; cbn [skipn] in Hb4.
  apply in_exec_cat in Hb4 as (a5 & b5 & _ & Ha5 & _).
  unfold label in Ha5; rewrite exec_lits in Ha5.
  change (str_lower (txt "GOOGLE SCHOLAR CITATIONS"))
    with (txt "google scholar citations") in Ha5.
  destruct (starts_with (txt "google scholar citations") (str_lower t')) eqn:Hlab;
    [|contradiction].
  unfold alt_label; apply starts_with_join; [exact Halt|].
  change (length (txt "alt=")) with 4.
  unfold str_lower at 1; rewrite skipn_map, Eq; cbn [map starts_with].
  fold (str_lower t'); rewrite Hlab, andb_true_r; exact Hq.
Qed.

Lemma html_search_needs_alt (s : text) :
  contains alt_label (str_lower s) = false -> search true html_pattern s = None.
Proof.
  assert (Hm : forall s, contains alt_label (str_lower s) = false ->
                         match_at true html_pattern s = None).
  { clear s; intros s Hc.
    destruct (match_at true html_pattern s) as [ns|] eqn:E; [exfalso|reflexivity].
    apply html_match_shape in E as (_ & a & _ & Halt).
    now rewrite (not_in_suffix _ _ (a + 4) Hc) in Halt. }
  induction s as [|c s IH]; intros H.
  - cbn [search]; now rewrite (Hm [] H).
  - cbn [search]; rewrite (Hm (c :: s) H).
    cbn [str_lower map contains] in H; apply orb_false_iff in H as [_ H].
    fold (str_lower s) in H; now rewrite (IH H).
Qed.

(** No match starts in a text that ends with [>] and has no image with
    the label: the image tag would have to run over the [>]. *)
Lemma no_match_before_close (x r : text) :
  contains alt_label (str_lower x) = false ->
  match_at true html_pattern (x ++ ">"%char :: r) = None.
Proof.
  intros Hc.
  destruct (match_at true html_pattern (x ++ ">"%char :: r)) as [ns|] eqn:E;
    [exfalso|reflexivity].
  apply html_match_shape in E as (Himg & a & Ha & Halt).
  apply (lits_before_char ">"%char) in Himg as [H4 _];
    [| reflexivity | cbn; intuition discriminate].
  change (length (txt "<img")) with 4 in H4.
  rewrite skipn_app in Ha; replace (4 - length x) with 0 in Ha by lia.
  rewrite skipn_O in Ha.
  pose proof (span_le_run (CNoneOf [">"%char]) (skipn 4 x) ">"%char r eq_refl) as Hspan.
  rewrite length_skipn in Hspan.
  rewrite skipn_app in Halt; replace (a + 4 - length x) with 0 in Halt by lia.
  rewrite skipn_O in Halt.
  apply (lits_before_char ">"%char) in Halt as [_ Halt];
    [| reflexivity | cbn; intuition discriminate].
  now rewrite (not_in_suffix _ _ (a + 4) Hc) in Halt.
Qed.

Lemma no_match_at_space (c : ascii) (t : text) :
  uni_space c = true -> match_at true html_pattern (c :: t) = None.
Proof.
  intros Hc.
  destruct (match_at true html_pattern (c :: t)) as [ns|] eqn:E; [exfalso|reflexivity].
  apply html_match_shape in E as (Himg & _).
  cbn [str_lower map] in Himg.
  change (txt "<img") with ("<"%char :: txt "img") in Himg.
  cbn [starts_with] in Himg; apply andb_true_iff in Himg as [Himg _].
  revert Hc Himg; clear; destruct c as [[] [] [] [] [] [] [] []]; vm_compute;
    intros; discriminate.
Qed.

(** The search passes over a prefix in which no match starts. *)
Lemma search_skip (ps : pattern) (pre s : text) (m : mobj) :
  (forall i, i < length pre -> match_at true ps (skipn i (pre ++ s)) = None) ->
  search true ps s = Some m ->
  search true ps (pre ++ s) = Some (MObj (pre ++ before m) (parts m) (after m)).
Proof.
  intros Hnone Hs; induction pre as [|c pre IH].
  - cbn [app]; rewrite Hs; now destruct m.
  - pose proof (Hnone 0 (Nat.lt_0_succ _)) as H0; cbn [skipn app] in H0.
    cbn [app search]; rewrite H0, IH; [reflexivity|].
    intros i Hi; apply (Hnone (S i)); cbn [length]; lia.
Qed.

Lemma forallb_skipn (f : ascii -> bool) (l : text) (n : nat) :
  forallb f l = true -> forallb f (skipn n l) = true.
Proof.
  revert l; induction n as [|n IH]; intros l H; [exact H|].
  destruct l as [|c l]; [reflexivity|].
  cbn [forallb] in H; apply andb_true_iff in H as [_ H]; now apply IH.
Qed.

(** The first match in a file where the element in the usual layout
    follows a closed tag, and no image with the label comes before. *)
Lemma search_element (p ws0 attrs between attrs2 ds post : text) :
  contains alt_label (str_lower p) = false -> forallb uni_space ws0 = true ->
  inside_tag attrs = true -> forallb uni_space between = true ->
  inside_tag attrs2 = true -> ds <> [] -> forallb is_digit ds = true ->
  search true html_pattern
         ((p ++ ">"%char :: ws0) ++ counter_element attrs between attrs2 ds ++ post)
  = Some (MObj (p ++ ">"%char :: ws0)
               [element_head attrs between attrs2; ds; dquote :: txt ">"] post).
Proof.
  intros Hp Hws0 Ha Hws Ha2 Hne Hds.
  pose proof (search_at_head _ _ _
                (match_at_element attrs between attrs2 ds post Ha Hws Ha2 Hne Hds)) as Hs.
  rewrite (fun H => search_skip html_pattern (p ++ ">"%char :: ws0) _ _ H Hs).
  - cbn [before parts after]; unfold counter_element; cbn [cut]; rewrite <- !app_assoc.
    rewrite firstn_length_app, skipn_length_app, firstn_length_app, skipn_length_app.
    now rewrite app_nil_r.
  - intros i Hi; set (rest := counter_element attrs between attrs2 ds ++ post).
    destruct (le_lt_dec i (length p)) as [Hle|Hgt].
    + rewrite <- app_assoc; cbn [app].
      rewrite skipn_app; replace (i - length p) with 0 by lia; rewrite skipn_O.
      apply no_match_before_close.
      unfold str_lower; rewrite <- skipn_map; now apply contains_skipn.
    + replace ((p ++ ">"%char :: ws0) ++ rest) with ((p ++ [">"%char]) ++ ws0 ++ rest)
        by (now rewrite <- !app_assoc).
      rewrite length_app in Hi; cbn [length] in Hi.
      replace i with (length (p ++ [">"%char]) + (i - S (length p)))
        by (rewrite length_app; cbn [length]; lia).
      rewrite skipn_add_app, skipn_app.
      replace (i - S (length p) - length ws0) with 0 by lia; rewrite skipn_O.
      pose proof (forallb_skipn uni_space ws0 (i - S (length p)) Hws0) as Hsp.
      pose proof (length_skipn (i - S (length p)) ws0) as Hlen.
      destruct (skipn (i - S (length p)) ws0) as [|c l]; [cbn [length] in Hlen; lia|].
      cbn [forallb] in Hsp; apply andb_true_iff in Hsp as [Hc _].
      cbn [app]; now apply no_match_at_space.
Qed.

(** X17: the HTML file in its usual layout.  When the text of the file,
    as it is read, has the image with the label as its alt text after a
    closed tag, followed by the paragraph with its count attribute, no other
    image with this alt text occurs in it, and the file can be read and
    written, the patch returns and writes the same text with the new count
    as the value of the attribute.  On a file that has the line endings of
    the platform these digits are the only bytes that change: the body of
    the paragraph and the rest stay. *)
Theorem usual_element_is_rewritten (path : string) (v : value) (w : world) (f : file)
        (p ws0 attrs between attrs2 ds post : text) :
  contains alt_label (str_lower p) = false ->
  contains alt_label (str_lower post) = false ->
  forallb uni_space ws0 = true -> inside_tag attrs = true ->
  forallb uni_space between = true -> inside_tag attrs2 = true ->
  ds <> [] -> forallb is_digit ds = true ->
  fs w path = Some f -> readable f = true -> writable f = true ->
  data f = p ++ ">"%char :: ws0 ++ counter_element attrs between attrs2 ds ++ post ->
  fst (update_index_html path v w) = Ret tt
  /\ rewritten w (snd (update_index_html path v w)) path
               (p ++ ">"%char :: ws0
                  ++ counter_element attrs between attrs2 (fmt v) ++ post)
  /\ (native (os w) (bytes f) ->
      exists b1 b2,
        bytes f = b1 ++ ds ++ b2
        /\ option_map bytes (fs (snd (update_index_html path v w)) path)
           = Some (b1 ++ fmt v ++ b2)).
Proof.
  intros Hp Hpost Hws0 Ha Hws Ha2 Hne Hds Hf Hr Hw Hd.
  assert (Hrw : rewritten w (snd (update_index_html path v w)) path
                  (p ++ ">"%char :: ws0
                     ++ counter_element attrs between attrs2 (fmt v) ++ post)).
  { apply (update_index_html_writes path v w f _ Hf Hr Hw).
    pose proof (search_element p ws0 attrs between attrs2 ds post
                  Hp Hws0 Ha Hws Ha2 Hne Hds) as Hs.
    rewrite <- app_assoc in Hs; cbn [app] in Hs.
    rewrite Hd; unfold html_new_content; rewrite Hs.
    rewrite (sub_single true html_pattern _ _ _ Hs (html_search_needs_alt post Hpost)).
    cbn [before after]; unfold expand, replacement, group, counter_element.
    cbn [flat_map parts html_pattern captures is_capture Nat.sub nth].
    rewrite app_nil_r, <- !app_assoc; reflexivity. }
  split; [|split; [exact Hrw|]].
  - destruct (update_index_html_spec path v w) as (w' & -> & _).
    rewrite (usable_no_io_error w path (data f)); [reflexivity|].
    now exists f.
  - intros Hnat; destruct Hrw as [(f' & Hf' & Hb') _].
    exists (newline_out (os w) (p ++ ">"%char :: ws0 ++ element_head attrs between attrs2)),
           (newline_out (os w) (dquote :: txt ">" ++ post)).
    assert (Hsplit : forall count,
               Forall (fun c => Ascii.eqb c newline = false) count ->
               newline_out (os w)
                 (p ++ ">"%char :: ws0 ++ counter_element attrs between attrs2 count ++ post)
               = newline_out (os w)
                   (p ++ ">"%char :: ws0 ++ element_head attrs between attrs2)
                 ++ count ++ newline_out (os w) (dquote :: txt ">" ++ post)).
    { intros count Hc; unfold counter_element.
      change (p ++ ">"%char :: ws0 ++ (element_head attrs between attrs2 ++ count
                                         ++ dquote :: txt ">") ++ post)
        with (p ++ [">"%char] ++ ws0 ++ (element_head attrs between attrs2 ++ count
                                           ++ dquote :: txt ">") ++ post).
      change (p ++ ">"%char :: ws0 ++ element_head attrs between attrs2)
        with (p ++ [">"%char] ++ ws0 ++ element_head attrs between attrs2).
      rewrite !newline_out_app, (newline_out_plain _ count Hc).
      now rewrite <- !app_assoc. }
    split.
    + rewrite <- Hnat; fold (data f); rewrite Hd.
      apply Hsplit, digits_plain; now apply forallb_forall_digits.
    + rewrite Hf'; cbn [option_map]; rewrite Hb'.
      now rewrite (Hsplit (fmt v) (fmt_plain v)).
Qed.

Lemma usual_element_is_rewritten_witness :
  fst (update_index_html INDEX_FILE (VInt 57) (Examples.fresh (Examples.html_only (Examples.index_html "41")))) = Ret tt
  /\ rewritten (Examples.fresh (Examples.html_only (Examples.index_html "41")))
       (snd (update_index_html INDEX_FILE (VInt 57) (Examples.fresh (Examples.html_only (Examples.index_html "41")))))
       INDEX_FILE
       (txt "<div" ++ ">"%char :: []
          ++ counter_element (txt " src=" ++ Examples.dquoted "img/scholar.png" ++ txt " ") []
               (txt " class=" ++ Examples.dquoted "fact-counter count" ++ txt " ") (fmt (VInt 57))
          ++ (txt "0</p><p>GOOGLE SCHOLAR CITATIONS</p></div>"))
  /\ (native (os (Examples.fresh (Examples.html_only (Examples.index_html "41"))))
             (bytes (File true Writable (Examples.index_html "41"))) ->
      exists b1 b2,
        bytes (File true Writable (Examples.index_html "41")) = b1 ++ txt "41" ++ b2
        /\ option_map bytes
             (fs (snd (update_index_html INDEX_FILE (VInt 57) (Examples.fresh (Examples.html_only (Examples.index_html "41"))))) INDEX_FILE)
           = Some (b1 ++ fmt (VInt 57) ++ b2)).
Proof.
  apply (usual_element_is_rewritten INDEX_FILE (VInt 57) (Examples.fresh (Examples.html_only (Examples.index_html "41")))
           (File true Writable (Examples.index_html "41"))
           (txt "<div") []
           (txt " src=" ++ Examples.dquoted "img/scholar.png" ++ txt " ") []
           (txt " class=" ++ Examples.dquoted "fact-counter count" ++ txt " ")
           (txt "41") (txt "0</p><p>GOOGLE SCHOLAR CITATIONS</p></div>")).
  - vm_compute; reflexivity.
  - vm_compute; reflexivity.
  - reflexivity.
  - vm_compute; reflexivity.
  - reflexivity.
  - vm_compute; reflexivity.
  - discriminate.
  - reflexivity.
  - reflexivity.
  - reflexivity.
  - reflexivity.
  - vm_compute; reflexivity.
Defined.

(** ** The bytes of a patched file *)

(** X18: on a file that can be read and written and has the line endings
    of the platform, the patch changes the digits of the matched count field
    and no other byte: the bytes before the match, those of the first and
    third groups (label, quotes, tags) and those after the match are written
    back as they were, and every other file is left alone.  This holds for
    the strict pattern of the structured-data file and for the pattern of
    the HTML file when the text has one occurrence, and for the match of the
    looser pattern. *)
Theorem patch_changes_only_the_digits (path : string) (v : value) (w : world)
        (f : file) (m : mobj) :
  well_kept w path f ->
  (only_occurrence yaml_pattern (data f) m ->
   exists new, rewritten w (snd (update_yaml_file path v w)) path new
               /\ only_field_changed (os w) (bytes f) (newline_out (os w) new) m v)
  /\ (search true yaml_pattern (data f) = None ->
      search true yaml_pattern2 (data f) = Some m ->
      exists new, rewritten w (snd (update_yaml_file path v w)) path new
                  /\ only_field_changed (os w) (bytes f) (newline_out (os w) new) m v)
  /\ (only_occurrence html_pattern (data f) m ->
      exists new, rewritten w (snd (update_index_html path v w)) path new
                  /\ only_field_changed (os w) (bytes f) (newline_out (os w) new) m v).
Proof.
  intros (Hf & Hr & Hw & Hn); repeat split.
  - intros [Hs Hafter]; eexists; split.
    + apply (update_yaml_file_writes path v w f _ Hf Hr Hw).
      unfold yaml_new_content; rewrite Hs.
      now rewrite (sub_single true yaml_pattern _ (data f) m Hs Hafter).
    + rewrite <- Hn at 1.
      exact (field_replaced (os w) yaml_pattern (data f) m v yaml_is_field_pattern Hs).
  - intros Hnone Hs; eexists; split.
    + apply (update_yaml_file_writes path v w f _ Hf Hr Hw).
      unfold yaml_new_content; rewrite Hnone, Hs.
      now rewrite (sub_first true yaml_pattern2 _ (data f) m Hs).
    + rewrite <- Hn at 1.
      exact (field_replaced (os w) yaml_pattern2 (data f) m v yaml2_is_field_pattern Hs).
  - intros [Hs Hafter]; eexists; split.
    + apply (update_index_html_writes path v w f _ Hf Hr Hw).
      unfold html_new_content; rewrite Hs.
      now rewrite (sub_single true html_pattern _ (data f) m Hs Hafter).
    + rewrite <- Hn at 1.
      exact (field_replaced (os w) html_pattern (data f) m v html_is_field_pattern Hs).
Qed.

Lemma patch_changes_only_the_digits_witness :
  exists new,
    rewritten (Examples.fresh (Examples.site (Examples.content_yml "41")
                                             (Examples.index_html "41")))
      (snd (update_index_html INDEX_FILE (VInt 57)
              (Examples.fresh (Examples.site (Examples.content_yml "41")
                                             (Examples.index_html "41")))))
      INDEX_FILE new
    /\ only_field_changed
         (os (Examples.fresh (Examples.site (Examples.content_yml "41")
                                            (Examples.index_html "41"))))
         (bytes (File true Writable (Examples.index_html "41")))
         (newline_out
            (os (Examples.fresh (Examples.site (Examples.content_yml "41")
                                               (Examples.index_html "41")))) new)
         (Examples.first_match html_pattern (Examples.index_html "41")) (VInt 57).
Proof.
  apply (proj2 (proj2 (patch_changes_only_the_digits INDEX_FILE (VInt 57)
                  (Examples.fresh (Examples.site (Examples.content_yml "41")
                                                 (Examples.index_html "41")))
                  (File true Writable (Examples.index_html "41"))
                  (Examples.first_match html_pattern (Examples.index_html "41"))
                  (conj eq_refl (conj eq_refl (conj eq_refl eq_refl)))))).
  split; vm_compute; reflexivity.
Defined.

(** X19: a patch that writes the value that the matched fields already
    hold leaves every file as it was, byte for byte, when the file has the
    line endings of the platform and the write does not fail on the way.
    The matched fields are those that the patch rewrites: of the
    structured-data file, the count of every occurrence of the strict
    pattern or, when there is none, of the first occurrence of the looser
    one; of the HTML file, the count of every occurrence of its pattern. *)
Theorem patch_is_idempotent_on_native_file (path : string) (v : value) (w : world)
        (f : file) :
  fs w path = Some f -> native (os w) (bytes f) -> (forall n, access f <> Failing n) ->
  (Forall (eq (fmt v)) (yaml_fields (data f)) ->
   forall p, fs (snd (update_yaml_file path v w)) p = fs w p)
  /\ (Forall (eq (fmt v)) (html_fields (data f)) ->
      forall p, fs (snd (update_index_html path v w)) p = fs w p).
Proof.
  intros Hf Hn Ha; split; intros Hall.
  - destruct (update_yaml_file_spec path v w) as (w' & -> & _ & _ & Hfs); cbn [snd].
    rewrite Hfs; apply patched_same; intros f' new Hf' Hnew.
    assert (f' = f) by congruence; subst f'.
    split; [|now split].
    unfold yaml_new_content in Hnew; unfold yaml_fields in Hall.
    destruct (search true yaml_pattern (data f)) as [m|] eqn:Hs.
    + injection Hnew as <-.
      exact (sub_all_same yaml_pattern (data f) v yaml_is_field_pattern Hall).
    + destruct (search true yaml_pattern2 (data f)) as [m2|] eqn:Hs2; [|discriminate].
      injection Hnew as <-; inversion Hall as [|? ? Hg _]; subst.
      exact (sub_first_same yaml_pattern2 (data f) m2 v yaml2_is_field_pattern Hs2
               (eq_sym Hg)).
  - destruct (update_index_html_spec path v w) as (w' & -> & _ & _ & Hfs); cbn [snd].
    rewrite Hfs; apply patched_same; intros f' new Hf' Hnew.
    assert (f' = f) by congruence; subst f'.
    split; [|now split].
    unfold html_new_content in Hnew; unfold html_fields in Hall.
    destruct (search true html_pattern (data f)) as [m|] eqn:Hs; [|discriminate].
    injection Hnew as <-.
    exact (sub_all_same html_pattern (data f) v html_is_field_pattern Hall).
Qed.

Lemma patch_is_idempotent_on_native_file_witness :
  fs (snd (update_yaml_file CONTENT_FILE (VInt 57)
             (Examples.fresh (Examples.site (Examples.content_yml "57")
                                            (Examples.index_html "57")))))
     CONTENT_FILE
  = fs (Examples.fresh (Examples.site (Examples.content_yml "57")
                                      (Examples.index_html "57"))) CONTENT_FILE.
Proof.
  apply (proj1 (patch_is_idempotent_on_native_file CONTENT_FILE (VInt 57)
                  (Examples.fresh (Examples.site (Examples.content_yml "57")
                                                 (Examples.index_html "57")))
                  (File true Writable (Examples.content_yml "57")) eq_refl
                  eq_refl (fun n H => eq_ind Writable
                                        (fun a => match a with Failing _ => False | _ => True end)
                                        I (Failing n) H))).
  vm_compute; repeat constructor.
Defined.

(** X20: a write that fails on the way is not reported by the patch of
    the structured-data file.  When the file can be read and has a match,
    and the device fails after [open] has truncated the file, the patch
    catches the error and returns as usual; the file is left with the first
    bytes of the new text, as many as the device took, and the old content
    is lost. *)
Theorem yaml_write_failure_is_swallowed (path : string) (v : value) (w : world)
        (f : file) (n : nat) (new : text) :
  fs w path = Some f -> readable f = true -> access f = Failing n ->
  yaml_new_content (data f) v = Some new ->
  fst (update_yaml_file path v w) = Ret tt
  /\ option_map bytes (fs (snd (update_yaml_file path v w)) path)
     = Some (firstn n (newline_out (os w) new)).
Proof.
  intros Hf Hr Ha Hnew.
  destruct (update_yaml_file_spec path v w) as (w' & -> & _ & _ & Hfs); cbn [fst snd].
  split; [reflexivity|].
  rewrite Hfs; unfold patched; rewrite Hf, Hr, Hnew, Ha.
  now rewrite set_file_same.
Qed.

Lemma yaml_write_failure_is_swallowed_witness :
  fst (update_yaml_file CONTENT_FILE (VInt 57)
         (Examples.fresh (set_file CONTENT_FILE
                            (File true (Failing 7) (Examples.content_yml "41"))
                            Examples.no_files)))
  = Ret tt
  /\ option_map bytes
       (fs (snd (update_yaml_file CONTENT_FILE (VInt 57)
                   (Examples.fresh (set_file CONTENT_FILE
                                      (File true (Failing 7) (Examples.content_yml "41"))
                                      Examples.no_files))))
           CONTENT_FILE)
     = Some (firstn 7 (newline_out
                         (os (Examples.fresh
                                (set_file CONTENT_FILE
                                   (File true (Failing 7) (Examples.content_yml "41"))
                                   Examples.no_files)))
                         (Examples.content_yml "57"))).
Proof.
  apply (yaml_write_failure_is_swallowed CONTENT_FILE (VInt 57)
           (Examples.fresh (set_file CONTENT_FILE
                              (File true (Failing 7) (Examples.content_yml "41"))
                              Examples.no_files))
           (File true (Failing 7) (Examples.content_yml "41")) 7
           (Examples.content_yml "57")).
  - reflexivity.
  - reflexivity.
  - reflexivity.
  - vm_compute; reflexivity.
Defined.
